(** * Reconciliation engine of the quality-check table filler

    A shallow embedding of the Python sources

    - [quality_check_gui.py]  (class [TableFiller], the engine behind the GUI),
    - [scripts/auto_fill_enhanced.py] (class [TableFiller], console variant
      that also accumulates report lines),
    - [scripts/auto_fill_table.py] (the earlier stand-alone script),

    together with the properties of the specification that are about them.

    Python values that can sit in a pandas cell are an inductive type,
    exceptions are a [result] monad, a [DataFrame] is a list of column names
    with positional rows, the dtype of a column being the one pandas gives
    its cells, a [dict] built by successive assignments is an association
    list in insertion order, and the files written by [save_results] are a
    finite map from paths to contents. *)

From Stdlib Require Import ZArith String Ascii List Bool Lia SpecFloat.
From Stdlib Require Import QArith Qcanon Qpower.
From stdpp Require Import base option list strings gmap sorting pretty.

Local Open Scope string_scope.
Local Open Scope Z_scope.
Local Open Scope list_scope.

(** ** Python scalars *)

(** The scalars a cell of a table read by [pd.read_csv] / [pd.read_excel]
    can hold.  A [float] is an IEEE-754 binary64 number in the
    specification format of the standard library ([S754_nan] is NaN). *)
Inductive value : Type :=
  | VNone
  | VFloat (f : spec_float)
  | VInt (n : Z)
  | VBool (b : bool)
  | VStr (s : string).

Global Instance spec_float_eq_dec : EqDecision spec_float.
Proof. solve_decision. Defined.

Global Instance value_eq_dec : EqDecision value.
Proof. solve_decision. Defined.

Global Instance value_inhabited : Inhabited value := populate VNone.

(** [np.nan] *)
Definition np_nan : value := VFloat S754_nan.

(** Exceptions that the modelled code can meet. *)
Inductive exn : Type :=
  | KeyError
  | TypeError
  | ValueError
  | OverflowError
  | IndexError
  | AttributeError
  | OSError
  | IllegalCharacterError.

Global Instance exn_eq_dec : EqDecision exn.
Proof. solve_decision. Defined.

(** A computation that returns or raises. *)
Inductive result (A : Type) : Type :=
  | Ok (a : A)
  | Raise (e : exn).
Global Arguments Ok {A} a.
Global Arguments Raise {A} e.

Global Instance result_ret : MRet result := fun A a => Ok a.
Global Instance result_bind : MBind result := fun A B f m =>
  match m with
  | Ok a => f a
  | Raise e => Raise e
  end.

Definition is_Ok {A} (r : result A) : bool :=
  match r with Ok _ => true | Raise _ => false end.

(** ** The part of the Python runtime the code calls

    [str.strip], [str.lower], the parser behind [float(str)] and the
    printer behind [str(float)] belong to CPython, not to the repository.
    They are an interface; every theorem below holds for each
    implementation of it.  The only fact used about them is that
    [float('')] raises [ValueError]. *)
Class PyRuntime : Type := {
  str_strip : string -> string;
  str_lower : string -> string;
  float_of_str : string -> option spec_float;
  str_of_float : spec_float -> string;
  float_of_str_empty : float_of_str "" = None
}.

(** *** Numbers and their comparison

    Python compares [int], [bool] and [float] by exact numerical value.
    A number that is not NaN is an extended dyadic rational. *)
Inductive xnum : Type :=
  | XNegInf
  | XFin (m e : Z)     (* m * 2^e *)
  | XPosInf.

Definition xnum_of_float (f : spec_float) : option xnum :=
  match f with
  | S754_nan => None
  | S754_zero _ => Some (XFin 0 0)
  | S754_infinity s => Some (if s then XNegInf else XPosInf)
  | S754_finite s m e => Some (XFin (if s then Z.neg m else Z.pos m) e)
  end.

Definition xnum_of (v : value) : option xnum :=
  match v with
  | VInt n => Some (XFin n 0)
  | VBool b => Some (XFin (Z.b2z b) 0)
  | VFloat f => xnum_of_float f
  | VNone | VStr _ => None
  end.

Definition xnum_compare (x y : xnum) : comparison :=
  match x, y with
  | XNegInf, XNegInf => Eq
  | XNegInf, _ => Lt
  | _, XNegInf => Gt
  | XPosInf, XPosInf => Eq
  | XPosInf, _ => Gt
  | _, XPosInf => Lt
  | XFin m1 e1, XFin m2 e2 =>
      let e := Z.min e1 e2 in
      Z.compare (m1 * 2 ^ (e1 - e)) (m2 * 2 ^ (e2 - e))
  end.

(** [a == b] on scalars. *)
Definition py_eqb (a b : value) : bool :=
  match a, b with
  | VStr s, VStr t => String.eqb s t
  | VNone, VNone => true
  | _, _ =>
      match xnum_of a, xnum_of b with
      | Some x, Some y =>
          match xnum_compare x y with Eq => true | _ => false end
      | _, _ => false
      end
  end.

(** [a < b] on scalars: [TypeError] between a string and a number and on
    [None]; false whenever a NaN is involved. *)
Definition is_number (v : value) : bool :=
  match v with
  | VInt _ | VBool _ | VFloat _ => true
  | VNone | VStr _ => false
  end.

Definition py_lt (a b : value) : result bool :=
  match a, b with
  | VStr s, VStr t => Ok (String.ltb s t)
  | _, _ =>
      if is_number a && is_number b then
        match xnum_of a, xnum_of b with
        | Some x, Some y =>
            Ok match xnum_compare x y with Lt => true | _ => false end
        | _, _ => Ok false
        end
      else Raise TypeError
  end.

(** [pd.isna(v)] on a scalar. *)
Definition isna (v : value) : bool :=
  match v with
  | VNone => true
  | VFloat S754_nan => true
  | _ => false
  end.

(** [isinstance(v, str)] *)
Definition is_str (v : value) : bool :=
  match v with VStr _ => true | _ => false end.

Section Runtime.
Context `{PyRuntime}.

(** [str(v)], also what an f-string field [{v}] renders. *)
Definition py_str (v : value) : string :=
  match v with
  | VNone => "None"
  | VFloat f => str_of_float f
  | VInt n => pretty n
  | VBool b => if b then "True" else "False"
  | VStr s => s
  end.

(** [float(n)] for an [int]: round to nearest even in binary64,
    [OverflowError] when the result is not finite. *)
Definition float_of_Z (n : Z) : result spec_float :=
  match binary_normalize 53 1024 n 0 false with
  | S754_infinity _ => Raise OverflowError
  | f => Ok f
  end.

(** [float(v)] *)
Definition py_float (v : value) : result spec_float :=
  match v with
  | VNone => Raise TypeError
  | VFloat f => Ok f
  | VInt n => float_of_Z n
  | VBool b => float_of_Z (Z.b2z b)
  | VStr s =>
      match float_of_str s with
      | Some f => Ok f
      | None => Raise ValueError
      end
  end.

End Runtime.

(** ** pandas tables *)

(** A [DataFrame]: the column index and the rows, each row holding one
    cell per column, in column order.  A cell a row is too short to hold
    reads as NaN, as pandas pads missing cells. *)
Record DataFrame : Type := mkDataFrame {
  df_columns : list string;
  df_rows : list (list value)
}.

(** A row taken out of a table ([df.iloc[i]]): a [Series] indexed by the
    column names. *)
Record Series : Type := mkSeries {
  s_index : list string;
  s_values : list value
}.

(** Position of the column called [k]: of the first one when the label
    is repeated.  With a repeated label pandas hands back a frame for
    [df[k]] and a series for [s.get(k)], which the code does not expect;
    the properties of whole tables are stated for labels that are
    pairwise distinct. *)
Fixpoint col_index (cols : list string) (k : string) : option nat :=
  match cols with
  | [] => None
  | c :: cols' => if String.eqb c k then Some O else S <$> col_index cols' k
  end.

Definition cell (r : list value) (i : nat) : value := default np_nan (r !! i).

(** [k in df.columns] *)
Definition df_has_column (df : DataFrame) (k : string) : bool :=
  bool_decide (is_Some (col_index (df_columns df) k)).

(** [df[k]]: the cells of column [k], [KeyError] without such a column. *)
Definition df_getitem (df : DataFrame) (k : string) : result (list value) :=
  match col_index (df_columns df) k with
  | Some i => Ok ((fun r => cell r i) <$> df_rows df)
  | None => Raise KeyError
  end.

(** *** Column dtypes

    pandas keeps every column in one dtype.  A table is held here by its
    cells, and the dtype of a column is the one pandas gives such cells:
    [int64] for integers that fit, [float64] for floats, [bool] for
    booleans, and [object] for anything else (text, [None], integers out
    of range, cells of different kinds). *)
Inductive dtype : Type := int64 | float64 | bool_ | object.

Global Instance dtype_eq_dec : EqDecision dtype.
Proof. solve_decision. Defined.

Definition in_int64 (n : Z) : bool :=
  (- 2 ^ 63 <=? n) && (n <? 2 ^ 63).

Definition value_dtype (v : value) : dtype :=
  match v with
  | VInt n => if in_int64 n then int64 else object
  | VFloat _ => float64
  | VBool _ => bool_
  | VNone | VStr _ => object
  end.

Definition column_dtype (cells : list value) : dtype :=
  match cells with
  | [] => object
  | v :: _ =>
      if forallb (fun w => bool_decide (value_dtype w = value_dtype v)) cells
      then value_dtype v
      else object
  end.

(** [df.dtypes] *)
Definition df_dtypes (df : DataFrame) : list dtype :=
  imap (fun i _ => column_dtype ((fun r => cell r i) <$> df_rows df))
    (df_columns df).

(** The dtype of a row that crosses columns of these dtypes: the common
    one when there is one, [float64] for integers and floats together,
    [object] otherwise (so for booleans with numbers). *)
Definition common_dtype2 (a b : dtype) : dtype :=
  match a, b with
  | int64, int64 => int64
  | float64, float64 | int64, float64 | float64, int64 => float64
  | bool_, bool_ => bool_
  | _, _ => object
  end.

Definition common_dtype (dtypes : list dtype) : dtype :=
  match dtypes with
  | [] => object
  | d :: dtypes' => fold_left common_dtype2 dtypes' d
  end.

(** An [int64] cast to [float64]: round to nearest, ties to even. *)
Definition to_float64 (v : value) : value :=
  match v with
  | VInt n => VFloat (binary_normalize 53 1024 n 0 false)
  | VNone => np_nan
  | _ => v
  end.

(** The cells of a row once cast to the dtype of the row. *)
Definition astype (d : dtype) (v : value) : value :=
  match d with
  | float64 => to_float64 v
  | _ => v
  end.

(** *** Building a column from Python objects

    What pandas makes of a list of results ([Series.apply]) or of the
    values of one key ([pd.DataFrame(rows)]): when every object is an
    integer that fits, a float or [None], and they are not all integers
    nor all [None], the column is [float64] and holds the integers as
    floats and NaN for [None]; otherwise the objects stay as they are. *)
Definition is_int64 (v : value) : bool :=
  match v with VInt n => in_int64 n | _ => false end.

Definition is_float (v : value) : bool :=
  match v with VFloat _ => true | _ => false end.

Definition is_none (v : value) : bool :=
  match v with VNone => true | _ => false end.

Definition floats_column (cells : list value) : bool :=
  forallb (fun v => is_int64 v || is_float v || is_none v) cells
  && existsb (fun v => is_int64 v || is_float v) cells
  && negb (forallb is_int64 cells).

Definition as_inferred (cells : list value) (v : value) : value :=
  if floats_column cells then to_float64 v else v.

Definition pd_infer (cells : list value) : list value :=
  as_inferred cells <$> cells.

(** [df[k] = df[k].apply(f)], guarded by [if k in df.columns]. *)
Definition df_apply_if_present (f : value -> value) (k : string)
    (df : DataFrame) : DataFrame :=
  match col_index (df_columns df) k with
  | Some i =>
      let results := (fun r => f (cell r i)) <$> df_rows df in
      mkDataFrame (df_columns df)
        ((fun r => <[i := as_inferred results (f (cell r i))]> r)
           <$> df_rows df)
  | None => df
  end.

(** [df[mask]] for a boolean mask aligned with the rows. *)
Fixpoint select_rows (mask : list bool) (rows : list (list value))
    : list (list value) :=
  match mask, rows with
  | b :: mask', r :: rows' =>
      if b then r :: select_rows mask' rows' else select_rows mask' rows'
  | _, _ => []
  end.

Definition df_filter (mask : list bool) (df : DataFrame) : DataFrame :=
  mkDataFrame (df_columns df) (select_rows mask (df_rows df)).

(** [df[df[k] == x]] *)
Definition df_where_eq (df : DataFrame) (k : string) (x : value)
    : result DataFrame :=
  col ← df_getitem df k;
  mret (df_filter ((fun v => py_eqb v x) <$> col) df).

(** [df.empty]: some axis has length zero. *)
Definition df_empty (df : DataFrame) : bool :=
  match df_columns df, df_rows df with
  | [], _ | _, [] => true
  | _, _ => false
  end.

(** [len(df)] *)
Definition df_len (df : DataFrame) : nat := length (df_rows df).

(** [df.iloc[0]] for a selection [df] of rows of a table whose columns
    have the dtypes [dtypes] (a selection keeps the dtypes of the table
    it is taken from, whatever rows it keeps).  The row comes out in the
    common dtype of the columns: as stored as soon as some column is
    [object], and with its integers as floats when the columns are
    [int64] and [float64] together. *)
Definition df_iloc0 (dtypes : list dtype) (df : DataFrame) : result Series :=
  match df_rows df with
  | r :: _ => Ok (mkSeries (df_columns df) (astype (common_dtype dtypes) <$> r))
  | [] => Raise IndexError
  end.

(** [s.get(k, d)]; [s.get(k)] is [s.get(k, None)]. *)
Definition series_get (s : Series) (k : string) (d : value) : value :=
  match col_index (s_index s) k with
  | Some i => cell (s_values s) i
  | None => d
  end.

(** [series.dropna()] on the cells of a column. *)
Definition dropna (l : list value) : list value :=
  filter (fun v => isna v = false) l.

(** Keep the first of the elements that are [==] to one another: the
    elements of [series.unique()] and of [set(...)]. *)
Fixpoint py_dedup (l : list value) : list value :=
  match l with
  | [] => []
  | x :: l' => x :: filter (fun y => py_eqb x y = false) (py_dedup l')
  end.

(** [a | b] of two sets held as duplicate-free lists. *)
Definition set_union (a b : list value) : list value := py_dedup (a ++ b).
(** [a - b] *)
Definition set_difference (a b : list value) : list value :=
  filter (fun x => forallb (fun y => negb (py_eqb x y)) b = true) a.
(** [a & b] *)
Definition set_intersection (a b : list value) : list value :=
  filter (fun x => existsb (fun y => py_eqb x y) b = true) a.

(** [sorted(xs)]: the comparisons are Python's [<], so sorting raises
    [TypeError] exactly when some comparison does.  Stable insertion: an
    element stays in front of the later ones it is not greater than. *)
Fixpoint sorted_insert (x : value) (l : list value) : result (list value) :=
  match l with
  | [] => Ok [x]
  | y :: l' =>
      b ← py_lt y x;
      if b : bool then r ← sorted_insert x l'; mret (y :: r)
      else mret (x :: y :: l')
  end.

Fixpoint sorted (l : list value) : result (list value) :=
  match l with
  | [] => Ok []
  | x :: l' => s ← sorted l'; sorted_insert x s
  end.

(** A [dict] filled by assignments, in insertion order. *)
Definition dict : Type := list (string * value).

Fixpoint dict_set (d : dict) (k : string) (v : value) : dict :=
  match d with
  | [] => [(k, v)]
  | (k', v') :: d' =>
      if String.eqb k' k then (k, v) :: d' else (k', v') :: dict_set d' k v
  end.

Fixpoint dict_get (d : dict) (k : string) : option value :=
  match d with
  | [] => None
  | (k', v') :: d' => if String.eqb k' k then Some v' else dict_get d' k
  end.

(** [pd.DataFrame(rows)] for a list of dicts: the columns are the keys in
    order of first appearance, a key a dict lacks gives NaN, and every
    column is built from its values as pandas infers it. *)
Fixpoint keys_union (seen : list string) (ds : list dict) : list string :=
  match ds with
  | [] => seen
  | d :: ds' =>
      keys_union
        (fold_left (fun acc kv =>
           if bool_decide (kv.1 ∈ acc) then acc else acc ++ [kv.1]) d seen)
        ds'
  end.

Definition df_of_dicts (ds : list dict) : DataFrame :=
  let cols := keys_union [] ds in
  let column k := (fun d => default np_nan (dict_get d k)) <$> ds in
  mkDataFrame cols
    ((fun d =>
        (fun k => as_inferred (column k) (default np_nan (dict_get d k)))
          <$> cols) <$> ds).

(** ** Column names and fixed texts *)

Definition nl : string := String "010" EmptyString.

(** Input columns. *)
Definition KEY : string := "קישור לקובץ".
Definition DISK : string := "דיסק".
Definition SHIPMENT : string := "משלוח".
Definition BOX : string := "ארגז".
Definition BUILDING_FILE : string := "תיק בניין".
Definition REQUEST_NO : string := "מספר בקשה".
Definition GUSH : string := "גוש".
Definition HELKA : string := "חלקה".
Definition MIGRASH : string := "מגרש".
Definition ADDRESS : string := "כתובת".

(** Output columns: ['מהקומפלוט - \n' + k], ['מהשכבה - \n' + k] with the
    geographic-check suffix on the attribute fields, ['השוואה - \n' + k]. *)
Definition from_complot (k : string) : string := "מהקומפלוט - " +:+ nl +:+ k.
Definition from_layer (k : string) : string := "מהשכבה - " +:+ nl +:+ k.
Definition from_layer_geo (k : string) : string :=
  "מהשכבה - " +:+ nl +:+ k +:+ nl +:+ "לפי בדיקה גאוגרפית".
Definition comparison_of (k : string) : string := "השוואה - " +:+ nl +:+ k.
Definition KEY_COMPARISON : string :=
  comparison_of (KEY +:+ nl +:+ "(הערך החד ערכי" +:+ nl +:+ "התוצאה חייבת"
                 +:+ nl +:+ "להיות TRUE)").
Definition NOTES : string := "הערות".

(** Notes. *)
Definition MISMATCH_PREFIX : string := "אי התאמה: ".
Definition FULL_MATCH : string := "התאמה מלאה".
Definition COMPLOT_ONLY : string := "נמצא בקומפלוט בלבד".
Definition LAYER_ONLY : string := "נמצא בשכבה בלבד".
Definition NEQ_SIGN : string := " ≠ ".

(** ** [TableFiller]: the methods that [quality_check_gui.py] and
    [scripts/auto_fill_enhanced.py] share word for word (the console
    variant only adds [print] calls to them). *)
Module TableFiller.
Section WithRuntime.
Context `{PyRuntime}.

(** The object's attributes. *)
Record t : Type := mk {
  complot_path : string;
  layer_path : string;
  recommendations_path : string;
  complot_df : option DataFrame;
  layer_df : option DataFrame;
  rec_df : option DataFrame;
  filled_df : option DataFrame;
  report : list string
}.

(** [TableFiller(complot_path, layer_path, recommendations_path)] *)
Definition init (complot_path layer_path recommendations_path : string) : t :=
  mk complot_path layer_path recommendations_path None None None None [].

(** Subscripting an attribute that is still [None] is a [TypeError]. *)
Definition subscriptable (o : option DataFrame) : result DataFrame :=
  match o with
  | Some df => Ok df
  | None => Raise TypeError
  end.

(** Reading [.columns] of an attribute that is still [None] is an
    [AttributeError]. *)
Definition with_columns (o : option DataFrame) : result DataFrame :=
  match o with
  | Some df => Ok df
  | None => Raise AttributeError
  end.

(** [clean_numeric_field(self, value)] *)
Definition clean_numeric_field (v : value) : value :=
  if isna v || py_eqb v (VStr "<Null>") || py_eqb v (VStr "nan")
     || py_eqb v (VStr "")
  then np_nan
  else
    match py_float v with              (* try: return float(value) *)
    | Ok f => VFloat f
    | Raise _ => v                     (* except: return value *)
    end.

(** [compare_values(self, val1, val2)] *)
Definition compare_values (val1 val2 : value) : bool :=
  if isna val1 && isna val2 then true
  else if isna val1 || isna val2 then false
  else
    let str1 := str_lower (str_strip (py_str val1)) in
    let str2 := str_lower (str_strip (py_str val2)) in
    String.eqb str1 str2.

(** [lambda x: x.strip() if isinstance(x, str) else x] *)
Definition strip_if_str (x : value) : value :=
  match x with
  | VStr s => VStr (str_strip s)
  | _ => x
  end.

Definition numeric_fields : list string := [HELKA; MIGRASH; GUSH].
Definition text_fields : list string := [ADDRESS; KEY].

(** One turn of either loop of [clean_data]: the layer table first, then
    the complot table, each only when it has the column. *)
Definition clean_field (f : value -> value) (tables : DataFrame * DataFrame)
    (field : string) : DataFrame * DataFrame :=
  let '(complot, layer) := tables in
  let layer := df_apply_if_present f field layer in
  let complot := df_apply_if_present f field complot in
  (complot, layer).

(** [clean_data(self)]: the first statement of the first loop reads
    [self.layer_df.columns], the second [self.complot_df.columns]. *)
Definition clean_data (self : t) : result t :=
  layer ← with_columns (layer_df self);
  complot ← with_columns (complot_df self);
  let tables := fold_left (clean_field clean_numeric_field) numeric_fields
                  (complot, layer) in
  let '(complot, layer) := fold_left (clean_field strip_if_str) text_fields
                             tables in
  mret (mk (complot_path self) (layer_path self) (recommendations_path self)
           (Some complot) (Some layer) (rec_df self) (filled_df self)
           (report self)).

(** The ten assignments that copy the complot record into the row. *)
Definition fill_complot (row : dict) (c : Series) : dict :=
  fold_left (fun row k => dict_set row (from_complot k)
                            (series_get c k (VStr "")))
    [KEY; DISK; SHIPMENT; BOX; BUILDING_FILE; REQUEST_NO; GUSH; HELKA;
     MIGRASH; ADDRESS] row.

(** The five assignments that copy the layer record into the row. *)
Definition fill_layer (row : dict) (l : Series) : dict :=
  let row := dict_set row (from_layer KEY) (series_get l KEY (VStr "")) in
  fold_left (fun row k => dict_set row (from_layer_geo k)
                            (series_get l k (VStr "")))
    [GUSH; HELKA; MIGRASH; ADDRESS] row.

(** [f"{name} ({c.get(name)} ≠ {l.get(name)})"] *)
Definition echo (name : string) (c l : Series) : string :=
  name +:+ " (" +:+ py_str (series_get c name VNone) +:+ NEQ_SIGN
       +:+ py_str (series_get l name VNone) +:+ ")".

(** The running state of the loop of [process_matches]. *)
Record loop_state : Type := mkLoop {
  rows : list dict;
  perfect_matches : nat;
  partial_matches : nat
}.

(** The comparisons of a key found in both tables: the flags, the
    discrepancy list, the note and the counters. *)
Definition compare_both (row : dict) (c l : Series) (perfect partial : nat)
    : dict * nat * nat :=
  let row := dict_set row KEY_COMPARISON (VBool true) in
  let gush_match :=
    compare_values (series_get c GUSH VNone) (series_get l GUSH VNone) in
  let helka_match :=
    compare_values (series_get c HELKA VNone) (series_get l HELKA VNone) in
  let migrash_match :=
    compare_values (series_get c MIGRASH VNone) (series_get l MIGRASH VNone) in
  let address_match :=
    compare_values (series_get c ADDRESS VNone) (series_get l ADDRESS VNone) in
  let row := dict_set row (comparison_of GUSH) (VBool gush_match) in
  let row := dict_set row (comparison_of HELKA) (VBool helka_match) in
  let row := dict_set row (comparison_of MIGRASH) (VBool migrash_match) in
  let row := dict_set row (comparison_of ADDRESS) (VBool address_match) in
  let discrepancies : list string := [] in
  let discrepancies :=
    if negb gush_match then discrepancies ++ [echo GUSH c l]
    else discrepancies in
  let discrepancies :=
    if negb helka_match then discrepancies ++ [echo HELKA c l]
    else discrepancies in
  let discrepancies :=
    if negb migrash_match then discrepancies ++ [echo MIGRASH c l]
    else discrepancies in
  let discrepancies :=
    if negb address_match then discrepancies ++ [ADDRESS]
    else discrepancies in
  match discrepancies with
  | _ :: _ =>
      (dict_set row NOTES
         (VStr (MISMATCH_PREFIX +:+ String.concat ", " discrepancies)),
       perfect, S partial)
  | [] => (dict_set row NOTES (VStr FULL_MATCH), S perfect, partial)
  end.

(** The body of [for link in sorted(all_links)]. *)
Definition process_link (complot layer : DataFrame) (st : loop_state)
    (link : value) : result loop_state :=
  let row : dict := [] in
  complot_match ← df_where_eq complot KEY link;
  row ← (if negb (df_empty complot_match)
         then c ← df_iloc0 (df_dtypes complot) complot_match;
              mret (fill_complot row c)
         else mret row);
  layer_match ← df_where_eq layer KEY link;
  row ← (if negb (df_empty layer_match)
         then l ← df_iloc0 (df_dtypes layer) layer_match;
              mret (fill_layer row l)
         else mret row);
  '(row, perfect, partial) ←
    (if negb (df_empty complot_match) && negb (df_empty layer_match) then
       c ← df_iloc0 (df_dtypes complot) complot_match;
       l ← df_iloc0 (df_dtypes layer) layer_match;
       mret (compare_both row c l (perfect_matches st) (partial_matches st))
     else if negb (df_empty complot_match) then
       mret (dict_set row NOTES (VStr COMPLOT_ONLY),
             perfect_matches st, partial_matches st)
     else if negb (df_empty layer_match) then
       mret (dict_set row NOTES (VStr LAYER_ONLY),
             perfect_matches st, partial_matches st)
     else mret (row, perfect_matches st, partial_matches st));
  mret (mkLoop (rows st ++ [row]) perfect partial).

(** Running the body over the links, left to right. *)
Fixpoint process_links (complot layer : DataFrame) (st : loop_state)
    (links : list value) : result loop_state :=
  match links with
  | [] => Ok st
  | link :: links' =>
      st' ← process_link complot layer st link;
      process_links complot layer st' links'
  end.

(** [set(df['קישור לקובץ'].dropna().unique())] *)
Definition links_of (df : DataFrame) : result (list value) :=
  col ← df_getitem df KEY;
  mret (py_dedup (py_dedup (dropna col))).

End WithRuntime.
End TableFiller.

(** ** Files and the outside world *)

(** What a run leaves on disk: a workbook written by [to_excel], or a text
    file holding the successive [f.write] arguments. *)
Inductive file : Type :=
  | Workbook (df : DataFrame)
  | TextFile (writes : list string).

(** How [to_excel] ends.  It writes the workbook, or it raises: before
    any file is made ([ValueError] on an extension no engine knows,
    [OSError] on a path that cannot be opened), or on a cell the engine
    refuses ([IllegalCharacterError]), and then the writer is closed on
    the way out and saves the sheet as far as it was written. *)
Inductive excel_outcome : Type :=
  | Saved
  | Failed (e : exn) (left_on_disk : option DataFrame).

(** What a run cannot decide by itself: the tables the input paths hold,
    how the serialisation of a workbook to a path ends, whether a path
    can be opened for writing, and the wall-clock time already formatted
    with ['%Y-%m-%d %H:%M:%S']. *)
Record Env : Type := mkEnv {
  read_csv : string -> result DataFrame;
  read_excel : string -> result DataFrame;
  to_excel_outcome : DataFrame -> string -> excel_outcome;
  open_ok : string -> bool;
  now : string
}.

(** Commands that write files and may raise: the files written so far are
    kept when an exception leaves the command. *)
Definition io (A : Type) : Type := gmap string file -> result A * gmap string file.

Global Instance io_ret : MRet io := fun A a fs => (Ok a, fs).
Global Instance io_bind : MBind io := fun A B f m fs =>
  match m fs with
  | (Ok a, fs') => f a fs'
  | (Raise e, fs') => (Raise e, fs')
  end.

Definition io_lift {A} (r : result A) : io A := fun fs => (r, fs).

(** [df.to_excel(path, index=False)] *)
Definition to_excel (env : Env) (df : DataFrame) (path : string) : io unit :=
  fun fs =>
    match to_excel_outcome env df path with
    | Saved => (Ok tt, <[path := Workbook df]> fs)
    | Failed e None => (Raise e, fs)
    | Failed e (Some truncated) => (Raise e, <[path := Workbook truncated]> fs)
    end.

(** [with open(path, 'w', encoding='utf-8') as f:] followed by the writes. *)
Definition write_text (env : Env) (path : string) (writes : list string)
    : io unit :=
  fun fs =>
    if open_ok env path then (Ok tt, <[path := TextFile writes]> fs)
    else (Raise OSError, fs).

(** [s.replace(old, new)] *)
Fixpoint interleave (new s : string) : string :=
  match s with
  | EmptyString => EmptyString
  | String c s' => String c (new +:+ interleave new s')
  end.

Fixpoint str_replace_go (old new : string) (skip : nat) (s : string) : string :=
  match s with
  | EmptyString => EmptyString
  | String c s' =>
      match skip with
      | S k => str_replace_go old new k s'
      | O =>
          if String.prefix old s
          then new +:+ str_replace_go old new (String.length old - 1) s'
          else String c (str_replace_go old new 0 s')
      end
  end.

Definition str_replace (old new s : string) : string :=
  match old with
  | EmptyString => new +:+ interleave new s
  | _ => str_replace_go old new 0 s
  end.

(** ["=" * n] *)
Fixpoint str_repeat (c : ascii) (n : nat) : string :=
  match n with
  | O => EmptyString
  | S n' => String c (str_repeat c n')
  end.

(** [len(x)] rendered in an f-string. *)
Definition str_of_nat (n : nat) : string := pretty (Z.of_nat n).

(** The four writes both [save_results] open the report with. *)
Definition report_header (env : Env) : list string :=
  [ "Automatic Table Filling Report" +:+ nl;
    str_repeat "=" 50 +:+ nl;
    "Generated: " +:+ now env +:+ nl;
    str_repeat "=" 50 +:+ nl +:+ nl ].

(** ** [quality_check_gui.py] *)
Module Gui.
Section WithRuntime.
Context `{PyRuntime}.
Import TableFiller.

(** The order in which a [set] hands out its elements is not fixed by
    Python; [set_iter] is that order. *)
Variable set_iter : list value -> list value.

(** [load_data(self)] *)
Definition strip_columns (df : DataFrame) : DataFrame :=
  mkDataFrame (str_strip <$> df_columns df) (df_rows df).

Definition load_data (env : Env) (self : t) : result t :=
  complot ← read_csv env (complot_path self);
  layer ← read_excel env (layer_path self);
  rec ← read_excel env (recommendations_path self);
  mret (mk (complot_path self) (layer_path self) (recommendations_path self)
           (Some (strip_columns complot)) (Some (strip_columns layer))
           (Some rec) (filled_df self) (report self)).

(** [process_matches(self)]: returns
    [(perfect_matches, partial_matches, len(self.filled_df))]. *)
Definition process_matches (self : t) : result (nat * nat * nat * t) :=
  complot ← subscriptable (complot_df self);
  complot_links ← links_of complot;
  layer ← subscriptable (layer_df self);
  layer_links ← links_of layer;
  let all_links := set_union complot_links layer_links in
  links ← sorted (set_iter all_links);
  st ← process_links complot layer (mkLoop [] 0 0) links;
  let filled := df_of_dicts (rows st) in
  mret (perfect_matches st, partial_matches st, df_len filled,
        mk (complot_path self) (layer_path self) (recommendations_path self)
           (complot_df self) (layer_df self) (rec_df self) (Some filled)
           (report self)).

(** The text [save_results] writes into the report. *)
Definition report_writes (env : Env) (self : t) (output_path : string)
    : list string :=
  report_header env ++
  [ "Complot file: " +:+ complot_path self +:+ nl;
    "Layer file: " +:+ layer_path self +:+ nl;
    "Recommendations file: " +:+ recommendations_path self +:+ nl;
    "Output file: " +:+ output_path +:+ nl ].

(** [save_results(self, output_path)] *)
Definition save_results (env : Env) (self : t) (output_path : string)
    : io (string * string) :=
  filled ← io_lift (match filled_df self with
                    | Some df => Ok df
                    | None => Raise AttributeError
                    end);
  _ ← to_excel env filled output_path;
  let report_path := str_replace ".xlsx" "_report.txt" output_path in
  _ ← write_text env report_path (report_writes env self output_path);
  mret (output_path, report_path).

(** The dictionary [run] returns. *)
Record summary : Type := mkSummary {
  res_perfect_matches : nat;
  res_partial_matches : nat;
  res_total_rows : nat;
  res_filled_path : string;
  res_report_path : string
}.

(** [run(self, output_path)] *)
Definition run (env : Env) (self : t) (output_path : string) : io summary :=
  self ← io_lift (load_data env self);
  self ← io_lift (clean_data self);
  '(perfect, partial, total_rows, self) ← io_lift (process_matches self);
  '(filled_path, report_path) ← save_results env self output_path;
  mret (mkSummary perfect partial total_rows filled_path report_path).

End WithRuntime.
End Gui.

(** ** [scripts/auto_fill_enhanced.py]

    The same class, with [print] calls (not modelled: they write to the
    console only) and with [self.report] filled along the way. *)
Module Enhanced.
Section WithRuntime.
Context `{PyRuntime}.
Import TableFiller.

Variable set_iter : list value -> list value.

Definition with_report (self : t) (lines : list string) : t :=
  mk (complot_path self) (layer_path self) (recommendations_path self)
     (complot_df self) (layer_df self) (rec_df self) (filled_df self)
     (report self ++ lines).

(** [load_data(self)] *)
Definition load_data (env : Env) (self : t) : result t :=
  complot ← read_csv env (complot_path self);
  let complot := Gui.strip_columns complot in
  layer ← read_excel env (layer_path self);
  let layer := Gui.strip_columns layer in
  rec ← read_excel env (recommendations_path self);
  let self := mk (complot_path self) (layer_path self)
                 (recommendations_path self) (Some complot) (Some layer)
                 (Some rec) (filled_df self) (report self) in
  mret (with_report self
          [ "Data Loading Summary:";
            "- Complot records: " +:+ str_of_nat (df_len complot);
            "- Layer records: " +:+ str_of_nat (df_len layer);
            "- Recommendations template rows: " +:+ str_of_nat (df_len rec) ]).

(** The lines [process_matches] appends before the loop. *)
Definition link_analysis (complot_links layer_links all_links : list value)
    : list string :=
  [ nl +:+ "File Link Analysis:";
    "- Total unique links: " +:+ str_of_nat (length all_links);
    "- Complot only: " +:+
      str_of_nat (length (set_difference complot_links layer_links));
    "- Layer only: " +:+
      str_of_nat (length (set_difference layer_links complot_links));
    "- In both sources: " +:+
      str_of_nat (length (set_intersection complot_links layer_links)) ].

(** The lines [process_matches] appends after the loop. *)
Definition match_results (perfect partial total : nat) : list string :=
  [ nl +:+ "Match Results:";
    "- Perfect matches: " +:+ str_of_nat perfect;
    "- Partial matches: " +:+ str_of_nat partial;
    "- Total rows: " +:+ str_of_nat total ].

(** [process_matches(self)]: returns [None]. *)
Definition process_matches (self : t) : result t :=
  complot ← subscriptable (complot_df self);
  complot_links ← links_of complot;
  layer ← subscriptable (layer_df self);
  layer_links ← links_of layer;
  let all_links := set_union complot_links layer_links in
  let self := with_report self
                (link_analysis complot_links layer_links all_links) in
  links ← sorted (set_iter all_links);
  st ← process_links complot layer (mkLoop [] 0 0) links;
  let filled := df_of_dicts (rows st) in
  let self := mk (complot_path self) (layer_path self)
                 (recommendations_path self) (complot_df self) (layer_df self)
                 (rec_df self) (Some filled) (report self) in
  mret (with_report self
          (match_results (perfect_matches st) (partial_matches st)
             (df_len filled))).

(** The text [save_results] writes into the report. *)
Definition report_writes (env : Env) (self : t) : list string :=
  report_header env ++ [ String.concat nl (report self) ].

(** [save_results(self, output_path)] *)
Definition save_results (env : Env) (self : t) (output_path : string)
    : io (string * string) :=
  filled ← io_lift (match filled_df self with
                    | Some df => Ok df
                    | None => Raise AttributeError
                    end);
  _ ← to_excel env filled output_path;
  let report_path := str_replace ".xlsx" "_report.txt" output_path in
  _ ← write_text env report_path (report_writes env self);
  mret (output_path, report_path).

(** The body of the [try] of [run]. *)
Definition run_body (env : Env) (self : t) (output_path : string)
    : io (string * string * t) :=
  self ← io_lift (load_data env self);
  self ← io_lift (clean_data self);
  self ← io_lift (process_matches self);
  paths ← save_results env self output_path;
  mret (paths, self).

(** [run(self, output_path)]: [True], or [False] after any exception. *)
Definition run (env : Env) (self : t) (output_path : string) : io bool :=
  fun fs =>
    match run_body env self output_path fs with
    | (Ok _, fs') => (Ok true, fs')
    | (Raise _, fs') => (Ok false, fs')
    end.

End WithRuntime.
End Enhanced.

(** ** [scripts/auto_fill_table.py]: the two helpers of the earlier script *)
Module Script.
Section WithRuntime.
Context `{PyRuntime}.

(** [clean_numeric_field(value)] *)
Definition clean_numeric_field (v : value) : value :=
  if isna v || py_eqb v (VStr "<Null>") || py_eqb v (VStr "nan")
  then np_nan
  else
    match py_float v with
    | Ok f => VFloat f
    | Raise _ => v
    end.

(** [compare_values(val1, val2)] *)
Definition compare_values (val1 val2 : value) : bool :=
  if isna val1 && isna val2 then true
  else if isna val1 || isna val2 then false
  else String.eqb (str_strip (py_str val1)) (str_strip (py_str val2)).

(** [main], lines 75 to 79: the links are collected from each table only
    when the table has the key column. *)
Definition all_file_links (complot layer : DataFrame) : result (list value) :=
  let all_file_links : list value := [] in
  all_file_links ←
    (if df_has_column complot KEY
     then col ← df_getitem complot KEY;
          mret (set_union all_file_links (py_dedup (dropna col)))
     else mret all_file_links);
  all_file_links ←
    (if df_has_column layer KEY
     then col ← df_getitem layer KEY;
          mret (set_union all_file_links (py_dedup (dropna col)))
     else mret all_file_links);
  mret all_file_links.

(** [main], lines 90 and 93: the two lookups that open the loop body. *)
Definition find_matches (complot layer : DataFrame) (file_link : value)
    : result (DataFrame * DataFrame) :=
  complot_match ← df_where_eq complot KEY file_link;
  layer_match ← df_where_eq layer KEY file_link;
  mret (complot_match, layer_match).

End WithRuntime.
End Script.

(** ** A runtime to run the model on concrete tables

    An implementation of [PyRuntime] that does what CPython does on the
    inputs of the examples below: [strip] and [lower] on text whose white
    space and cased letters are ASCII, [float] on decimal integer literals
    of at most fifteen characters and on text with a letter in it that is
    no number, [str] on floats with an integral value below [10^16].  It
    is not CPython on other inputs (fractions, exponents, ["inf"]). *)
Module AsciiRuntime.

Definition is_space (c : ascii) : bool :=
  let n := N_of_ascii c in
  ((9 <=? n) && (n <=? 13) || (28 <=? n) && (n <=? 32))%N.

Fixpoint lstrip (s : string) : string :=
  match s with
  | EmptyString => EmptyString
  | String c s' => if is_space c then lstrip s' else s
  end.

Definition strip (s : string) : string :=
  String.rev (lstrip (String.rev (lstrip s))).

Definition lower_char (c : ascii) : ascii :=
  let n := N_of_ascii c in
  if ((65 <=? n) && (n <=? 90))%N then ascii_of_N (n + 32) else c.

Fixpoint lower (s : string) : string :=
  match s with
  | EmptyString => EmptyString
  | String c s' => String (lower_char c) (lower s')
  end.

(** The value of a string of decimal digits. *)
Fixpoint digits (acc : Z) (s : string) : option Z :=
  match s with
  | EmptyString => Some acc
  | String c s' =>
      match Ascii.is_nat c with
      | Some d => digits (10 * acc + Z.of_nat d) s'
      | None => None
      end
  end.

(** A sign and a magnitude: ["12"], ["+12"], ["-12"]. *)
Definition parse_int (s : string) : option (bool * Z) :=
  match s with
  | EmptyString => None
  | String "-" s' =>
      if bool_decide (s' = EmptyString) then None
      else (fun n => (true, n)) <$> digits 0 s'
  | String "+" s' =>
      if bool_decide (s' = EmptyString) then None
      else (fun n => (false, n)) <$> digits 0 s'
  | _ => (fun n => (false, n)) <$> digits 0 s
  end.

Definition parse_float (s : string) : option spec_float :=
  let s := strip s in
  if (15 <? String.length s)%nat then None
  else
    (fun '(neg, n) =>
       binary_normalize 53 1024 (if neg : bool then - n else n) 0 neg)
    <$> parse_int s.

Definition print_float (f : spec_float) : string :=
  match f with
  | S754_nan => "nan"
  | S754_infinity s => if s then "-inf" else "inf"
  | S754_zero s => if s then "-0.0" else "0.0"
  | S754_finite s m e =>
      let n := if (0 <=? e) then Z.pos m * 2 ^ e else Z.pos m / 2 ^ (- e) in
      (if s then "-" else "") +:+ pretty n +:+ ".0"
  end.

Definition runtime : PyRuntime :=
  {| str_strip := strip;
     str_lower := lower;
     float_of_str := parse_float;
     str_of_float := print_float;
     float_of_str_empty := eq_refl |}.

End AsciiRuntime.

(** ** Notions the properties are stated with *)

(** The first record a table holds for a key, when it holds one: what the
    loop reads through [df[df[KEY] == link]], [.empty] and [.iloc[0]]. *)
Definition first_record (df : DataFrame) (link : value) : option Series :=
  match df_where_eq df KEY link with
  | Ok m =>
      if df_empty m then None
      else match df_iloc0 (df_dtypes df) m with
           | Ok s => Some s
           | Raise _ => None
           end
  | Raise _ => None
  end.

(** The key of a merged record: the complot link when the row has one,
    else the layer link. *)
Definition row_key (row : dict) : option value :=
  match dict_get row (from_complot KEY) with
  | Some v => Some v
  | None => dict_get row (from_layer KEY)
  end.

(** The text keys of a table, as a list and as a set. *)
Definition as_str (v : value) : option string :=
  match v with VStr s => Some s | _ => None end.

Definition key_cells (df : DataFrame) : list value :=
  match df_getitem df KEY with Ok col => col | Raise _ => [] end.


(** Every key that is not null is text. *)
Definition text_keys (df : DataFrame) : Prop :=
  Forall (fun v => isna v = false -> is_str v = true) (key_cells df).

Global Instance text_keys_dec (df : DataFrame) : Decision (text_keys df).
Proof. unfold text_keys. apply _. Defined.

(** ** Keys of either kind

    A key is a text or a number.  Python tells two keys apart by [==],
    under which [1] and [1.0] are one key: a number stands for its exact
    value, a rational or an infinity, whatever its type. *)
Inductive pkey : Type :=
  | KText (s : string)
  | KNegInf
  | KNum (q : Qc)
  | KPosInf.

Global Instance pkey_eq_dec : EqDecision pkey.
Proof. solve_decision. Defined.

Global Instance pkey_countable : Countable pkey.
Proof.
  refine (inj_countable'
    (fun k => match k with
              | KText s => inl s
              | KNegInf => inr (inl false)
              | KPosInf => inr (inl true)
              | KNum q => inr (inr q)
              end)
    (fun x => match x with
              | inl s => KText s
              | inr (inl false) => KNegInf
              | inr (inl true) => KPosInf
              | inr (inr q) => KNum q
              end) _).
  by intros [].
Defined.

(** The key a number stands for. *)
Definition xnum_key (x : xnum) : pkey :=
  match x with
  | XNegInf => KNegInf
  | XFin m e => KNum (Q2Qc (inject_Z m * 2 ^ e)%Q)
  | XPosInf => KPosInf
  end.

(** The key of a value; [None] and NaN have none. *)
Definition as_key (v : value) : option pkey :=
  match v with
  | VStr s => Some (KText s)
  | _ => xnum_key <$> xnum_of v
  end.

(** Strictly below: code point order on text, numeric order on numbers;
    a text and a number are not comparable. *)
Definition key_lt (a b : pkey) : Prop :=
  match a, b with
  | KText s, KText t => String.ltb s t = true
  | KNegInf, KNum _ | KNegInf, KPosInf | KNum _, KPosInf => True
  | KNum p, KNum q => (p < q)%Qc
  | _, _ => False
  end.

Global Instance key_lt_dec : RelDecision key_lt.
Proof.
  intros [s| |p|] [t| |q|]; simpl; try apply _.
Defined.

(** Whether a key is a text. *)
Definition is_text_key (k : pkey) : bool :=
  match k with KText _ => true | _ => false end.

(** Integers and floats. *)
Definition is_num (v : value) : bool :=
  match v with VInt _ | VFloat _ => true | _ => false end.

(** The set of the keys of a table. *)
Definition all_keys (df : DataFrame) : gset pkey :=
  list_to_set (omap as_key (key_cells df)).

(** A numeric key: a float that is not NaN, or an integer of magnitude
    at most [2^53], which a float holds exactly (numpy compares an
    [int64] with a [float64] as floats). *)
Definition number_key (v : value) : bool :=
  match v with
  | VInt n => Z.abs n <=? 2 ^ 53
  | VFloat f => negb (isna (VFloat f))
  | _ => false
  end.

(** Every key that is not null is such a number. *)
Definition number_keys (df : DataFrame) : Prop :=
  Forall (fun v => isna v = false -> number_key v = true) (key_cells df).

Global Instance number_keys_dec (df : DataFrame) : Decision (number_keys df).
Proof. unfold number_keys. apply _. Defined.

(** The keys of the two tables can be sorted together: they are all text,
    or all numbers. *)
Definition sortable_keys (complot layer : DataFrame) : Prop :=
  (text_keys complot /\ text_keys layer)
  \/ (number_keys complot /\ number_keys layer).

Global Instance sortable_keys_dec (complot layer : DataFrame) :
  Decision (sortable_keys complot layer).
Proof. unfold sortable_keys. apply _. Defined.

(** A value below another one by its key. *)
Definition val_lt (a b : value) : Prop :=
  exists ka kb, as_key a = Some ka /\ as_key b = Some kb /\ key_lt ka kb.

(** Values that all have a key. *)
Definition keyed (l : list value) : Prop :=
  Forall (fun v => is_Some (as_key v)) l.

Section Notes.
Context `{PyRuntime}.
Import TableFiller.

(** The flags of the four attribute comparisons of two records. *)
Definition attribute_flags (c l : Series) : bool * bool * bool * bool :=
  (compare_values (series_get c GUSH VNone) (series_get l GUSH VNone),
   compare_values (series_get c HELKA VNone) (series_get l HELKA VNone),
   compare_values (series_get c MIGRASH VNone) (series_get l MIGRASH VNone),
   compare_values (series_get c ADDRESS VNone) (series_get l ADDRESS VNone)).

(** A field as the note shows it when its two values are echoed:
    the name, then both values between brackets. *)
Definition named_with_values (name : string) (a b : value) : string :=
  name +:+ " (" +:+ py_str a +:+ " ≠ " +:+ py_str b +:+ ")".

(** The fields that disagree, each as the note is expected to show it:
    block, parcel and plot with both values, the address by its name
    alone. *)
Definition disagreeing (c l : Series) : list string :=
  let '(g, h, m, a) := attribute_flags c l in
  (if g then []
   else [named_with_values "גוש" (series_get c "גוש" VNone)
           (series_get l "גוש" VNone)])
  ++ (if h then []
      else [named_with_values "חלקה" (series_get c "חלקה" VNone)
              (series_get l "חלקה" VNone)])
  ++ (if m then []
      else [named_with_values "מגרש" (series_get c "מגרש" VNone)
              (series_get l "מגרש" VNone)])
  ++ (if a then [] else ["כתובת"]).

Definition all_agree (c l : Series) : bool :=
  let '(g, h, m, a) := attribute_flags c l in g && h && m && a.

(** The note expected for a key found in both tables. *)
Definition expected_note (c l : Series) : string :=
  if all_agree c l then "התאמה מלאה"
  else "אי התאמה: " +:+ String.concat ", " (disagreeing c l).

End Notes.

(** The rows of a table whose key is [link], in table order. *)
Definition rows_of_key (df : DataFrame) (i : nat) (link : value)
    : list (list value) :=
  filter (fun r => py_eqb (cell r i) link = true) (df_rows df).

(** A row of a table as [iloc] hands it out. *)
Definition handed_out (df : DataFrame) (r : list value) : list value :=
  astype (common_dtype (df_dtypes df)) <$> r.

(** What one turn of the loop does, by the tables the key is found in. *)
Definition merged_row `{PyRuntime} (complot layer : DataFrame)
    (st : TableFiller.loop_state) (link : value) : dict * nat * nat :=
  let p := TableFiller.perfect_matches st in
  let q := TableFiller.partial_matches st in
  match first_record complot link, first_record layer link with
  | Some c, Some l =>
      TableFiller.compare_both
        (TableFiller.fill_layer (TableFiller.fill_complot [] c) l) c l p q
  | Some c, None =>
      (dict_set (TableFiller.fill_complot [] c) NOTES (VStr COMPLOT_ONLY), p, q)
  | None, Some l =>
      (dict_set (TableFiller.fill_layer [] l) NOTES (VStr LAYER_ONLY), p, q)
  | None, None => ([], p, q)
  end.

(** The merged record of a key: the row one turn of the loop makes. *)
Definition record_of `{PyRuntime} (complot layer : DataFrame) (link : value)
    : dict :=
  (merged_row complot layer (TableFiller.mkLoop [] 0 0) link).1.1.

(** The links of a table that has the key column, and the text keys of
    the union of the link sets of two tables. *)
Definition link_set (df : DataFrame) : list value :=
  py_dedup (py_dedup (dropna (key_cells df))).

Definition text_union (complot layer : DataFrame) : list string :=
  omap as_str (set_union (link_set complot) (link_set layer)).

(** *** The lines a report is expected to hold, spelled out *)

(** The banner and the generation time. *)
Definition banner_lines (now : string) : list string :=
  [ "Automatic Table Filling Report" +:+ nl;
    "==================================================" +:+ nl;
    "Generated: " +:+ now +:+ nl;
    "==================================================" +:+ nl +:+ nl ].

(** The metadata block: the three source paths and the output path. *)
Definition path_lines (complot layer recommendations output : string)
    : list string :=
  [ "Complot file: " +:+ complot +:+ nl;
    "Layer file: " +:+ layer +:+ nl;
    "Recommendations file: " +:+ recommendations +:+ nl;
    "Output file: " +:+ output +:+ nl ].

(** The load summary: the numbers of rows of the three tables read. *)
Definition load_summary_lines (complot layer template : nat) : list string :=
  [ "Data Loading Summary:";
    "- Complot records: " +:+ str_of_nat complot;
    "- Layer records: " +:+ str_of_nat layer;
    "- Recommendations template rows: " +:+ str_of_nat template ].

(** The link analysis: the numbers of links in all, in the complot table
    only, in the layer table only, and in both. *)
Definition link_analysis_lines (total complot_only layer_only both : nat)
    : list string :=
  [ nl +:+ "File Link Analysis:";
    "- Total unique links: " +:+ str_of_nat total;
    "- Complot only: " +:+ str_of_nat complot_only;
    "- Layer only: " +:+ str_of_nat layer_only;
    "- In both sources: " +:+ str_of_nat both ].

(** The counts. *)
Definition match_results_lines (perfect partial total : nat) : list string :=
  [ nl +:+ "Match Results:";
    "- Perfect matches: " +:+ str_of_nat perfect;
    "- Partial matches: " +:+ str_of_nat partial;
    "- Total rows: " +:+ str_of_nat total ].

(** Two objects that hold the same three input paths. *)
Definition same_paths (a b : TableFiller.t) : Prop :=
  TableFiller.complot_path a = TableFiller.complot_path b
  /\ TableFiller.layer_path a = TableFiller.layer_path b
  /\ TableFiller.recommendations_path a = TableFiller.recommendations_path b.

Section Stages.
Context `{PyRuntime}.
Import TableFiller.

(** What the two [clean_data] and the two [process_matches] compute from
    the tables alone. *)
Definition cleaned_tables (c l : option DataFrame)
    : result (DataFrame * DataFrame) :=
  layer ← with_columns l;
  complot ← with_columns c;
  mret (fold_left (clean_field strip_if_str) text_fields
          (fold_left (clean_field clean_numeric_field) numeric_fields
             (complot, layer))).

Definition matched (set_iter : list value -> list value)
    (c l : option DataFrame)
    : result (loop_state * list value * list value) :=
  complot ← subscriptable c;
  complot_links ← links_of complot;
  layer ← subscriptable l;
  layer_links ← links_of layer;
  links ← sorted (set_iter (set_union complot_links layer_links));
  st ← process_links complot layer (mkLoop [] 0 0) links;
  mret (st, complot_links, layer_links).

End Stages.



(** Strictly ascending: each key is below the next, in code point order. *)
Definition str_lt (x y : string) : Prop := String.ltb x y = true.

(** ** Example tables and environments *)
Module Examples.
Import TableFiller.

Definition rt : PyRuntime := AsciiRuntime.runtime.

(** Complot: key A1 twice (the first record wins) and key C3. *)
Definition complot : DataFrame :=
  mkDataFrame [KEY; GUSH; HELKA; MIGRASH; ADDRESS]
    [ [VStr "A1"; VStr "12"; VStr "5"; VStr "<Null>"; VStr "Main St 1"];
      [VStr "C3"; VStr "7"; VStr ""; VStr "<Null>"; VStr "Hill Rd 9"];
      [VStr "A1"; VStr "99"; VStr "9"; VStr "3"; VStr "Other"] ].

(** Layer: keys B2 and A1, and a record without a key. *)
Definition layer : DataFrame :=
  mkDataFrame [KEY; GUSH; HELKA; MIGRASH; ADDRESS]
    [ [VStr "B2"; VInt 12; VInt 5; np_nan; VStr "Low St 4"];
      [VStr "A1"; VInt 12; VInt 6; np_nan; VStr " main st 1 "];
      [np_nan; VInt 1; VInt 1; VInt 1; VStr "nowhere"] ].

(** A layer that agrees with the complot on A1 and holds nothing else. *)
Definition layer_agreeing : DataFrame :=
  mkDataFrame [KEY; GUSH; HELKA; MIGRASH; ADDRESS]
    [ [VStr "A1"; VInt 12; VInt 5; np_nan; VStr "MAIN ST 1"] ].

(** A complot table that lacks the key column altogether. *)
Definition complot_without_key : DataFrame :=
  mkDataFrame [GUSH; HELKA; MIGRASH; ADDRESS]
    [ [VStr "12"; VStr "5"; VStr "<Null>"; VStr "Main St 1"] ].

Definition template : DataFrame := mkDataFrame [NOTES] [].

(** A world with the three input files, where everything can be written. *)
Definition env_of (complot layer : DataFrame) : Env :=
  {| read_csv p :=
       if String.eqb p "complot.csv" then Ok complot else Raise OSError;
     read_excel p :=
       if String.eqb p "layer.xlsx" then Ok layer
       else if String.eqb p "rec.xlsx" then Ok template
       else Raise OSError;
     to_excel_outcome _ _ := Saved;
     open_ok _ := true;
     now := "2025-01-01 12:00:00" |}.

(** The same world with a destination no workbook can be written to. *)
Definition env_unwritable (complot layer : DataFrame) : Env :=
  {| read_csv := read_csv (env_of complot layer);
     read_excel := read_excel (env_of complot layer);
     to_excel_outcome _ _ := Failed OSError None;
     open_ok _ := true;
     now := "2025-01-01 12:00:00" |}.

Definition filler : t := init "complot.csv" "layer.xlsx" "rec.xlsx".

(** The object once the two tables are loaded and cleaned. *)
Definition loaded (complot layer : DataFrame) : t :=
  match @clean_data rt (mk "complot.csv" "layer.xlsx" "rec.xlsx"
                          (Some complot) (Some layer) (Some template) None [])
  with
  | Ok self => self
  | Raise _ => filler
  end.

Definition cleaned_complot : DataFrame :=
  default complot (complot_df (loaded complot layer)).
Definition cleaned_layer : DataFrame :=
  default layer (layer_df (loaded complot layer)).

(** The report of the GUI for these paths and this clock. *)
Definition gui_report : list string :=
  [ "Automatic Table Filling Report" +:+ nl;
    "==================================================" +:+ nl;
    "Generated: 2025-01-01 12:00:00" +:+ nl;
    "==================================================" +:+ nl +:+ nl;
    "Complot file: complot.csv" +:+ nl;
    "Layer file: layer.xlsx" +:+ nl;
    "Recommendations file: rec.xlsx" +:+ nl;
    "Output file: out.xlsx" +:+ nl ].


(** A run of each variant on the example tables, from an empty disk. *)
Definition gui_outcome : result Gui.summary * gmap string file :=
  @Gui.run rt (fun l => l) (env_of complot layer) filler "out.xlsx" ∅.

Definition gui_summary : Gui.summary :=
  match gui_outcome.1 with
  | Ok s => s
  | Raise _ => Gui.mkSummary 0 0 0 "" ""
  end.

Definition enhanced_outcome
    : result (string * string * t) * gmap string file :=
  @Enhanced.run_body rt (fun l => l) (env_of complot layer) filler
    "out.xlsx" ∅.

Definition enhanced_self : t :=
  match enhanced_outcome.1 with
  | Ok (_, self) => self
  | Raise _ => filler
  end.

(** An object whose table is ready to be saved. *)
Definition ready : t :=
  mk "complot.csv" "layer.xlsx" "rec.xlsx" None None None (Some template) [].

End Examples.

(** ** Further notions *)

(** The spellings of a missing number that [clean_numeric_field] knows. *)
Definition is_null_marker (v : value) : bool :=
  isna v || py_eqb v (VStr "<Null>") || py_eqb v (VStr "nan")
  || py_eqb v (VStr "").

(** [old in s] *)
Fixpoint occurs (old s : string) : bool :=
  String.prefix old s
  || match s with
     | EmptyString => false
     | String _ s' => occurs old s'
     end.


(** The cells of a column after [apply(f)], when the table has it: the
    results, as pandas builds a column from them. *)
Definition applied (f : value -> value) (r : result (list value))
    : result (list value) :=
  match r with
  | Ok col => Ok (pd_infer (f <$> col))
  | Raise e => Raise e
  end.

(** A table once cleaned: same columns, same number of rows, the block,
    parcel and plot columns through [clean_numeric_field], the address
    and key columns through the strip of text cells, every other column
    as it was. *)
Definition cleaned_as `{PyRuntime} (before after : DataFrame) : Prop :=
  df_columns after = df_columns before
  /\ df_len after = df_len before
  /\ (forall k, k ∈ [GUSH; HELKA; MIGRASH] ->
        df_getitem after k
        = applied TableFiller.clean_numeric_field (df_getitem before k))
  /\ (forall k, k ∈ [ADDRESS; KEY] ->
        df_getitem after k
        = applied TableFiller.strip_if_str (df_getitem before k))
  /\ (forall k, k ∉ [GUSH; HELKA; MIGRASH; ADDRESS; KEY] ->
        df_getitem after k = df_getitem before k).

(** The guarded [apply] over a list of distinct fields. *)
Definition apply_fields (f : value -> value) (fields : list string)
    (df : DataFrame) : DataFrame :=
  fold_left (fun df field => df_apply_if_present f field df) fields df.

(** The names of the columns and the key lists the rows are built from. *)
Definition complot_fields : list string :=
  [KEY; DISK; SHIPMENT; BOX; BUILDING_FILE; REQUEST_NO; GUSH; HELKA;
   MIGRASH; ADDRESS].

Definition layer_columns : list string :=
  from_layer KEY :: (from_layer_geo <$> [GUSH; HELKA; MIGRASH; ADDRESS]).

(** More example objects. *)
Module Cases.
Import TableFiller.

(** The object of the examples with its tables loaded, before cleaning. *)
Definition raw : t :=
  mk "complot.csv" "layer.xlsx" "rec.xlsx" (Some Examples.complot)
    (Some Examples.layer) (Some Examples.template) None [].

(** The records of keys C3 and B2 in the cleaned tables. *)
Definition c3_complot : Series :=
  default (mkSeries [] [])
    (first_record Examples.cleaned_complot (VStr "C3")).
Definition b2_layer : Series :=
  default (mkSeries [] []) (first_record Examples.cleaned_layer (VStr "B2")).

(** A complot table with text keys and a layer table whose keys are
    numbers. *)
Definition text_keyed : DataFrame :=
  mkDataFrame [KEY; GUSH] [ [VStr "A1"; VInt 12] ].

Definition number_keyed : DataFrame :=
  mkDataFrame [KEY; GUSH] [ [VInt 7; VInt 12] ].

(** A layer table whose key column holds a text and a number. *)
Definition mixed_keyed : DataFrame :=
  mkDataFrame [KEY; GUSH] [ [VStr "B2"; VInt 12]; [VInt 3; VInt 14] ].

(** Two tables with numeric keys: 1, 2 and 3 in the complot table, 2.0
    and 10 in the layer table. *)
Definition numbered_complot : DataFrame :=
  mkDataFrame [KEY; ADDRESS]
    [ [VInt 3; VStr "c"]; [VInt 1; VStr "a"]; [VInt 2; VStr "b"] ].

Definition numbered_layer : DataFrame :=
  mkDataFrame [KEY; ADDRESS]
    [ [VFloat (binary_normalize 53 1024 2 0 false); VStr "b"];
      [VFloat (binary_normalize 53 1024 10 0 false); VStr "j"] ].

(** Two tables that hold key D4 with a different block, parcel, plot and
    address. *)
Definition differing_complot : DataFrame :=
  mkDataFrame [KEY; GUSH; HELKA; MIGRASH; ADDRESS]
    [ [VStr "D4"; VStr "12"; VStr "5"; VStr "1"; VStr "Main St 1"] ].

Definition differing_layer : DataFrame :=
  mkDataFrame [KEY; GUSH; HELKA; MIGRASH; ADDRESS]
    [ [VStr "D4"; VInt 13; VInt 6; VInt 2; VStr "Hill Rd 9"] ].

Definition cleaned_differing_complot : DataFrame :=
  default differing_complot
    (complot_df (Examples.loaded differing_complot differing_layer)).
Definition cleaned_differing_layer : DataFrame :=
  default differing_layer
    (layer_df (Examples.loaded differing_complot differing_layer)).

Definition d4_complot : Series :=
  default (mkSeries [] []) (first_record cleaned_differing_complot (VStr "D4")).
Definition d4_layer : Series :=
  default (mkSeries [] []) (first_record cleaned_differing_layer (VStr "D4")).

(** The records of key A1 when the layer agrees with the complot. *)
Definition agreeing_layer : DataFrame :=
  default Examples.layer_agreeing
    (layer_df (Examples.loaded Examples.complot Examples.layer_agreeing)).


End Cases.

(** The keys of a list found in both tables. *)
Definition in_both (complot layer : DataFrame) (links : list value)
    : list value :=
  filter (fun link => is_Some (first_record complot link)
                      /\ is_Some (first_record layer link)) links.

(** The strings of a list of values, as a set. *)
Definition text_set (l : list value) : gset string :=
  list_to_set (omap as_str l).

(** A saving of the example table, with and without the extension. *)
Module Saved.

Definition env : Env := Examples.env_of Examples.complot Examples.layer.

Definition with_xlsx : result (string * string) * gmap string file :=
  Gui.save_results env Examples.ready "out.xlsx" ∅.

Definition without_xlsx : result (string * string) * gmap string file :=
  Gui.save_results env Examples.ready "out.xlsm" ∅.

(** A world where the table can be written and the report cannot. *)
Definition env_no_report : Env :=
  {| read_csv := read_csv env;
     read_excel := read_excel env;
     to_excel_outcome _ _ := Saved;
     open_ok _ := false;
     now := "2025-01-01 12:00:00" |}.

Definition run_no_report : result Gui.summary * gmap string file :=
  @Gui.run Examples.rt (fun l => l) env_no_report Examples.filler
    "out.xlsx" ∅.

(** A world where a cell of the table cannot be written: [to_excel]
    raises and leaves the header row alone on the sheet. *)
Definition truncated : DataFrame :=
  mkDataFrame (df_columns Examples.template) [].

Definition env_illegal_cell : Env :=
  {| read_csv := read_csv env;
     read_excel := read_excel env;
     to_excel_outcome _ _ := Failed IllegalCharacterError (Some truncated);
     open_ok _ := true;
     now := "2025-01-01 12:00:00" |}.

End Saved.

(** ** [quality_check_gui.py]: the window

    [QualityCheckGUI] holds four path variables, a status line, a
    progress bar, the run button and a text area.  The message boxes it
    opens are kept in a list, in the order they are shown.  A click on the
    run button is followed here through the worker thread and the call
    back the thread posts with [root.after], one after the other. *)
Module QualityCheckGUI.

Inductive widget_state : Type := NORMAL | DISABLED.

Inductive message_box : Type :=
  | showerror (title message : string)
  | showinfo (title message : string).

Record t : Type := mk {
  complot_path_var : string;
  layer_path_var : string;
  rec_path_var : string;
  output_path_var : string;
  status_var : string;
  progress : nat;
  run_button : widget_state;
  result_text : string;
  message_boxes : list message_box
}.

(** [QualityCheckGUI(root)], after [setup_ui]. *)
Definition init : t := mk "" "" "" "" "Ready to start" 0 NORMAL "" [].

Definition is_empty (s : string) : bool :=
  match s with EmptyString => true | _ => false end.

(** [browse_complot] and the three like it, for the path the file dialog
    returns ([''] when it is cancelled). *)
Definition browse_complot (file_path : string) (self : t) : t :=
  if is_empty file_path then self
  else mk file_path (layer_path_var self) (rec_path_var self)
         (output_path_var self) (status_var self) (progress self)
         (run_button self) (result_text self) (message_boxes self).

Definition browse_layer (file_path : string) (self : t) : t :=
  if is_empty file_path then self
  else mk (complot_path_var self) file_path (rec_path_var self)
         (output_path_var self) (status_var self) (progress self)
         (run_button self) (result_text self) (message_boxes self).

Definition browse_rec (file_path : string) (self : t) : t :=
  if is_empty file_path then self
  else mk (complot_path_var self) (layer_path_var self) file_path
         (output_path_var self) (status_var self) (progress self)
         (run_button self) (result_text self) (message_boxes self).

Definition browse_output (file_path : string) (self : t) : t :=
  if is_empty file_path then self
  else mk (complot_path_var self) (layer_path_var self) (rec_path_var self)
         file_path (status_var self) (progress self)
         (run_button self) (result_text self) (message_boxes self).

Definition show (box : message_box) (self : t) : t :=
  mk (complot_path_var self) (layer_path_var self) (rec_path_var self)
     (output_path_var self) (status_var self) (progress self)
     (run_button self) (result_text self) (message_boxes self ++ [box]).

(** [run_process(self)]: the new window, and whether the thread starts. *)
Definition run_process (self : t) : t * bool :=
  if is_empty (complot_path_var self) then
    (show (showerror "Error" "Please select Complot CSV file") self, false)
  else if is_empty (layer_path_var self) then
    (show (showerror "Error" "Please select Layer Excel file") self, false)
  else if is_empty (rec_path_var self) then
    (show (showerror "Error" "Please select Recommendations template file")
       self, false)
  else if is_empty (output_path_var self) then
    (show (showerror "Error" "Please select output file location") self,
     false)
  else
    (mk (complot_path_var self) (layer_path_var self) (rec_path_var self)
        (output_path_var self) "Processing..." 0 DISABLED
        (result_text self) (message_boxes self),
     true).

(** What the thread posts to the main loop. *)
Inductive posted : Type :=
  | update_ui_success (result : Gui.summary)
  | update_ui_error (error_message : string).

Section WithRuntime.
Context `{PyRuntime}.
Variable set_iter : list value -> list value.
(** [str(e)] *)
Variable str_of_exn : exn -> string.

(** [_process_thread(self)]: runs a fresh [TableFiller] and posts the
    outcome; no exception leaves it. *)
Definition _process_thread (env : Env) (self : t) (fs : gmap string file)
    : posted * gmap string file :=
  let filler := TableFiller.init (complot_path_var self) (layer_path_var self)
                  (rec_path_var self) in
  match Gui.run set_iter env filler (output_path_var self) fs with
  | (Ok result, fs') => (update_ui_success result, fs')
  | (Raise e, fs') => (update_ui_error (str_of_exn e), fs')
  end.

End WithRuntime.

(** The text [_update_ui_success] puts in the text area. *)
Definition success_text (result : Gui.summary) : string :=
  "Process completed successfully!" +:+ nl +:+ nl
  +:+ "Results:" +:+ nl
  +:+ "- Perfect matches: " +:+ str_of_nat (Gui.res_perfect_matches result)
  +:+ nl
  +:+ "- Partial matches: " +:+ str_of_nat (Gui.res_partial_matches result)
  +:+ " " +:+ nl
  +:+ "- Total rows: " +:+ str_of_nat (Gui.res_total_rows result) +:+ nl
  +:+ nl
  +:+ "Output files:" +:+ nl
  +:+ "- Filled table: " +:+ Gui.res_filled_path result +:+ nl
  +:+ "- Report: " +:+ Gui.res_report_path result +:+ nl.

(** [_update_ui_success(self, result)] *)
Definition _update_ui_success (result : Gui.summary) (self : t) : t :=
  show (showinfo "Success" "Quality check completed successfully!")
    (mk (complot_path_var self) (layer_path_var self) (rec_path_var self)
        (output_path_var self) "Process completed successfully!" 100 NORMAL
        (success_text result) (message_boxes self)).

(** [_update_ui_error(self, error_message)] *)
Definition _update_ui_error (error_message : string) (self : t) : t :=
  show (showerror "Error" ("An error occurred:" +:+ nl +:+ error_message))
    (mk (complot_path_var self) (layer_path_var self) (rec_path_var self)
        (output_path_var self) "Error occurred" 0 NORMAL
        ("Error occurred during processing:" +:+ nl +:+ nl
         +:+ error_message)
        (message_boxes self)).

Definition deliver (p : posted) (self : t) : t :=
  match p with
  | update_ui_success result => _update_ui_success result self
  | update_ui_error error_message => _update_ui_error error_message self
  end.

(** A click on the run button, up to the call back. *)
Definition click `{PyRuntime} (set_iter : list value -> list value)
    (str_of_exn : exn -> string) (env : Env) (self : t)
    (fs : gmap string file) : t * gmap string file :=
  let '(self, started) := run_process self in
  if started : bool then
    let '(p, fs') := _process_thread set_iter str_of_exn env self fs in
    (deliver p self, fs')
  else (self, fs).

End QualityCheckGUI.

(** Example windows. *)
Module Clicks.
Import QualityCheckGUI.

(** The window with the four paths browsed. *)
Definition filled_in : t :=
  browse_output "out.xlsx"
    (browse_rec "rec.xlsx"
       (browse_layer "layer.xlsx" (browse_complot "complot.csv" init))).

(** The window with the output path still to choose. *)
Definition no_output : t :=
  browse_rec "rec.xlsx"
    (browse_layer "layer.xlsx" (browse_complot "complot.csv" init)).

Definition str_of_exn (e : exn) : string :=
  match e with
  | KeyError => "KeyError"
  | TypeError => "TypeError"
  | ValueError => "ValueError"
  | OverflowError => "OverflowError"
  | IndexError => "IndexError"
  | AttributeError => "AttributeError"
  | OSError => "OSError"
  | IllegalCharacterError => "IllegalCharacterError"
  end.

Definition env : Env := Examples.env_of Examples.complot Examples.layer.

End Clicks.

(** * Properties *)

(** Take a successful sequence of commands apart. *)
Ltac inv_result H :=
  repeat match type of H with
  | context [mbind _ ?m] =>
      let E := fresh "E" in
      destruct m eqn:E; unfold mbind at 1, result_bind at 1 in H;
      cbn beta iota in H; [|discriminate H]
  | context [let '(_, _) := ?m in _] =>
      let E := fresh "E" in destruct m eqn:E; cbn beta iota in H
  end.

(** Decide the comparisons of two closed column names in the goal. *)
Ltac eval_names :=
  repeat match goal with
  | |- context [String.eqb ?a ?b] =>
      let r := eval vm_compute in (String.eqb a b) in
      change (String.eqb a b) with r; cbv iota
  end.


(** ** The comparator and the numeric normaliser *)

Lemma py_eqb_str_r (v : value) (s : string) :
  py_eqb v (VStr s) = bool_decide (v = VStr s).
Proof.
  destruct v as [|f|n|b|t].
  - reflexivity.
  - destruct f; reflexivity.
  - reflexivity.
  - reflexivity.
  - simpl. destruct (String.eqb_spec t s) as [->|Hne].
    + symmetry. by apply bool_decide_eq_true.
    + symmetry. apply bool_decide_eq_false. congruence.
Qed.

Lemma py_eqb_str_l (s : string) (v : value) :
  py_eqb (VStr s) v = bool_decide (v = VStr s).
Proof.
  destruct v as [|f|n|b|t]; try reflexivity.
  simpl. destruct (String.eqb_spec s t) as [->|Hne].
  - symmetry. by apply bool_decide_eq_true.
  - symmetry. apply bool_decide_eq_false. congruence.
Qed.

(** C1. [compare_values] is true on two absent values, false when exactly
    one is absent, and otherwise tells whether the stripped, lower-cased
    [str] of the two values are the same string.  It is a total function
    into [bool]: no pair of values makes it raise. *)
Theorem compare_values_cases `{PyRuntime} (a b : value) :
  TableFiller.compare_values a b =
    if isna a && isna b then true
    else if xorb (isna a) (isna b) then false
    else bool_decide (str_lower (str_strip (py_str a))
                      = str_lower (str_strip (py_str b))).
Proof.
  unfold TableFiller.compare_values.
  destruct (isna a), (isna b); simpl; try reflexivity.
  destruct (String.eqb_spec (str_lower (str_strip (py_str a)))
                            (str_lower (str_strip (py_str b)))) as [E|E].
  - symmetry. by apply bool_decide_eq_true.
  - symmetry. by apply bool_decide_eq_false.
Qed.

(** C2. [clean_numeric_field] returns NaN on a null value, on the empty
    string, on ["nan"] and on ["<Null>"]; on any other value it returns
    [float(value)] when that call returns and the value itself when the
    call raises, whatever the exception.  Every value gets a result. *)
Theorem clean_numeric_field_cases `{PyRuntime} (v : value) :
  TableFiller.clean_numeric_field v =
    if isna v || bool_decide (v = VStr "") || bool_decide (v = VStr "nan")
       || bool_decide (v = VStr "<Null>")
    then np_nan
    else match py_float v with
         | Ok f => VFloat f
         | Raise _ => v
         end.
Proof.
  unfold TableFiller.clean_numeric_field.
  rewrite !py_eqb_str_r.
  destruct (isna v), (bool_decide (v = VStr "")),
    (bool_decide (v = VStr "nan")), (bool_decide (v = VStr "<Null>"));
    reflexivity.
Qed.

(** C9. The comparator is symmetric. *)
Theorem compare_values_sym `{PyRuntime} (a b : value) :
  TableFiller.compare_values a b = TableFiller.compare_values b a.
Proof.
  unfold TableFiller.compare_values.
  destruct (isna a), (isna b); simpl; try reflexivity.
  apply String.eqb_sym.
Qed.

(** C10. The comparator is reflexive, on the absent values too: NaN and
    [None] compare equal to themselves. *)
Theorem compare_values_refl `{PyRuntime} (v : value) :
  TableFiller.compare_values v v = true.
Proof.
  unfold TableFiller.compare_values.
  destruct (isna v); simpl; [reflexivity|].
  apply String.eqb_refl.
Qed.

(** The earlier script differs on both helpers: its comparator keeps the
    case of the letters, and its normaliser hands the empty string back. *)
Lemma script_compare_values_keeps_case :
  @Script.compare_values AsciiRuntime.runtime (VStr "Main St") (VStr "main st")
  = false
  /\ @TableFiller.compare_values AsciiRuntime.runtime
       (VStr "Main St") (VStr "main st") = true.
Proof. split; reflexivity. Qed.

Lemma script_clean_numeric_field_empty `{PyRuntime} :
  Script.clean_numeric_field (VStr "") = VStr ""
  /\ TableFiller.clean_numeric_field (VStr "") = np_nan.
Proof.
  split; [|reflexivity].
  unfold Script.clean_numeric_field; simpl.
  by rewrite float_of_str_empty.
Qed.

(** ** Dictionaries *)

Lemma dict_get_set (d : dict) (k k' : string) (v : value) :
  dict_get (dict_set d k v) k' =
    if String.eqb k k' then Some v else dict_get d k'.
Proof.
  induction d as [|[k1 v1] d IH]; simpl.
  - reflexivity.
  - destruct (String.eqb_spec k1 k) as [->|Hk1]; simpl.
    + destruct (String.eqb k k'); reflexivity.
    + rewrite IH.
      destruct (String.eqb_spec k1 k') as [->|Hk1'].
      * destruct (String.eqb_spec k k'); [congruence | reflexivity].
      * reflexivity.
Qed.

Lemma dict_get_set_eq (d : dict) (k : string) (v : value) :
  dict_get (dict_set d k v) k = Some v.
Proof. by rewrite dict_get_set, String.eqb_refl. Qed.

(** What a key found in both tables makes of the loop state. *)
Lemma process_link_both `{PyRuntime} (complot layer : DataFrame)
    (st : TableFiller.loop_state) (link : value) (c l : Series) :
  first_record complot link = Some c ->
  first_record layer link = Some l ->
  TableFiller.process_link complot layer st link =
    let '(row, perfect, partial) :=
      TableFiller.compare_both
        (TableFiller.fill_layer (TableFiller.fill_complot [] c) l) c l
        (TableFiller.perfect_matches st) (TableFiller.partial_matches st) in
    Ok (TableFiller.mkLoop (TableFiller.rows st ++ [row]) perfect partial).
Proof.
  unfold first_record, TableFiller.process_link. intros Hc Hl.
  destruct (df_where_eq complot KEY link) as [cm|]; [|discriminate]. simpl.
  destruct (df_empty cm); [discriminate|].
  destruct (df_iloc0 _ cm) as [c'|]; [|discriminate]. simplify_eq. simpl.
  destruct (df_where_eq layer KEY link) as [lm|]; [|discriminate]. simpl.
  destruct (df_empty lm); [discriminate|].
  destruct (df_iloc0 _ lm) as [l'|]; [|discriminate]. simplify_eq. simpl.
  destruct (TableFiller.compare_both _ _ _ _ _) as [[row p] q].
  reflexivity.
Qed.

(** C3. For a key present in both sources, in tables whose column
    labels are pairwise distinct, the note is decided by the four
    attribute comparisons.  When all four hold, the note is the fixed
    full-match text and the key is counted as a perfect match; otherwise
    the key is counted as a partial match and the note lists, after the
    mismatch prefix and in the order block, parcel, plot, address,
    exactly the fields whose comparison failed: each of the first three
    as its name followed by the two values met, the address by its name
    only.  The row also carries the four flags. *)
Theorem note_of_key_in_both_sources `{PyRuntime} (complot layer : DataFrame)
    (st : TableFiller.loop_state) (link : value) (c l : Series) :
  NoDup (df_columns complot) ->
  NoDup (df_columns layer) ->
  first_record complot link = Some c ->
  first_record layer link = Some l ->
  exists row : dict,
    TableFiller.process_link complot layer st link =
      Ok (TableFiller.mkLoop (TableFiller.rows st ++ [row])
            (if all_agree c l then S (TableFiller.perfect_matches st)
             else TableFiller.perfect_matches st)
            (if all_agree c l then TableFiller.partial_matches st
             else S (TableFiller.partial_matches st)))
    /\ dict_get row NOTES = Some (VStr (expected_note c l))
    /\ (dict_get row (comparison_of GUSH), dict_get row (comparison_of HELKA),
        dict_get row (comparison_of MIGRASH),
        dict_get row (comparison_of ADDRESS))
       = let '(g, h, m, a) := attribute_flags c l in
         (Some (VBool g), Some (VBool h), Some (VBool m), Some (VBool a)).
Proof.
  intros _ _ Hc Hl. rewrite (process_link_both _ _ _ _ _ _ Hc Hl).
  unfold TableFiller.compare_both, expected_note, all_agree, disagreeing,
    attribute_flags, TableFiller.echo, named_with_values.
  destruct (TableFiller.compare_values (series_get c GUSH VNone) _) eqn:Eg,
    (TableFiller.compare_values (series_get c HELKA VNone) _) eqn:Eh,
    (TableFiller.compare_values (series_get c MIGRASH VNone) _) eqn:Em,
    (TableFiller.compare_values (series_get c ADDRESS VNone) _) eqn:Ea;
    cbn [negb andb app];
    (eexists; split; [reflexivity|]);
    (split; [by rewrite dict_get_set_eq|]);
    rewrite !dict_get_set; eval_names; reflexivity.
Qed.

(** ** Sets of text keys and their sorting *)

(** A list of values that are all text is the image of a list of strings. *)
Lemma all_str_fmap (l : list value) :
  Forall (fun v => is_str v = true) l -> l = VStr <$> omap as_str l.
Proof.
  induction 1 as [|v l Hv _ IH]; simpl; [reflexivity|].
  destruct v; try discriminate. simpl. by f_equal.
Qed.

Lemma omap_as_str_fmap (ks : list string) : omap as_str (VStr <$> ks) = ks.
Proof. induction ks as [|k ks IH]; simpl; [reflexivity | by f_equal]. Qed.

Global Instance VStr_inj : Inj (=) (=) VStr.
Proof. by intros s t [= ->]. Qed.

Lemma all_str_fmap_VStr (ks : list string) :
  Forall (fun v => is_str v = true) (VStr <$> ks).
Proof. induction ks; constructor; done. Qed.

Lemma dropna_text (l : list value) :
  Forall (fun v => isna v = false -> is_str v = true) l ->
  Forall (fun v => is_str v = true) (dropna l)
  /\ omap as_str (dropna l) = omap as_str l.
Proof.
  unfold dropna. induction 1 as [|v l Hv _ [IH1 IH2]]; [by split|].
  rewrite filter_cons. destruct (decide (isna v = false)) as [Hna|Hna].
  - split; [constructor; auto|].
    change (omap as_str (v :: ?k)) with
      (match as_str v with Some s => s :: omap as_str k | None => omap as_str k end).
    by rewrite IH2.
  - split; [done|]. rewrite IH2.
    change (omap as_str (v :: l)) with
      (match as_str v with Some s => s :: omap as_str l | None => omap as_str l end).
    destruct v as [|f| | |]; done.
Qed.

Lemma py_dedup_elem_of (l : list value) (v : value) :
  Forall (fun v => is_str v = true) l -> v ∈ py_dedup l <-> v ∈ l.
Proof.
  induction 1 as [|x l Hx Hl IH]; simpl; [done|].
  destruct x as [| | | |s]; try discriminate.
  rewrite !elem_of_cons, list_elem_of_filter, IH, py_eqb_str_l.
  rewrite bool_decide_eq_false. split.
  - intros [->|[_ Hv]]; [by left | by right].
  - intros [->|Hv]; [by left|].
    destruct (decide (v = VStr s)) as [->|Hne]; [by left | by right].
Qed.

Lemma py_dedup_NoDup (l : list value) :
  Forall (fun v => is_str v = true) l -> NoDup (py_dedup l).
Proof.
  induction 1 as [|x l Hx Hl IH]; simpl; [constructor|].
  destruct x as [| | | |s]; try discriminate.
  constructor.
  - rewrite list_elem_of_filter, py_eqb_str_l, bool_decide_eq_false.
    intros [Hne _]. by apply Hne.
  - by apply NoDup_filter.
Qed.

Lemma py_dedup_all_str (l : list value) :
  Forall (fun v => is_str v = true) l ->
  Forall (fun v => is_str v = true) (py_dedup l).
Proof.
  intros Hl. apply Forall_forall. intros v Hv.
  apply (py_dedup_elem_of l v Hl) in Hv.
  rewrite Forall_forall in Hl. by apply Hl.
Qed.






Lemma ltb_true_le (x y : string) : String.ltb y x = true -> String.le y x.
Proof.
  unfold String.le, String.ltb, String.leb.
  destruct (String.compare y x); simpl; done.
Qed.




Lemma le_ne_lt (x y : string) : String.le x y -> x <> y -> str_lt x y.
Proof.
  unfold String.le, str_lt, String.leb, String.ltb. intros Hle Hne.
  destruct (String.compare x y) eqn:E; try done.
  by apply String.compare_eq_iff in E.
Qed.

(** ** Looking a key up in a table *)

Lemma select_rows_fmap (f : list value -> bool) (rows : list (list value)) :
  select_rows (f <$> rows) rows = filter (fun r => f r = true) rows.
Proof.
  induction rows as [|r rows IH]; csimpl; [reflexivity|].
  rewrite filter_cons, IH.
  destruct (f r); destruct (decide _); done.
Qed.

Lemma has_column_index (df : DataFrame) (k : string) :
  df_has_column df k = true ->
  exists i, col_index (df_columns df) k = Some i.
Proof.
  unfold df_has_column. intros Hk. apply bool_decide_eq_true in Hk.
  destruct Hk as [i Hi]. by exists i.
Qed.

Lemma df_where_eq_rows (df : DataFrame) (i : nat) (link : value) :
  col_index (df_columns df) KEY = Some i ->
  df_where_eq df KEY link
  = Ok (mkDataFrame (df_columns df) (rows_of_key df i link)).
Proof.
  intros Hi. unfold df_where_eq, df_getitem. rewrite Hi. csimpl.
  unfold df_filter. f_equal. f_equal.
  rewrite <- list_fmap_compose.
  apply (select_rows_fmap (fun r => py_eqb (cell r i) link)).
Qed.

Lemma first_record_rows (df : DataFrame) (i : nat) (link : value) :
  col_index (df_columns df) KEY = Some i ->
  first_record df link
  = (fun r => mkSeries (df_columns df) (handed_out df r))
      <$> head (rows_of_key df i link).
Proof.
  intros Hi. unfold first_record. rewrite (df_where_eq_rows _ _ _ Hi).
  unfold df_empty, df_iloc0. simpl.
  destruct (df_columns df) as [|c cols]; [discriminate|].
  by destruct (rows_of_key _ _ _).
Qed.

Lemma col_index_lookup (cols : list string) (k : string) (i : nat) :
  col_index cols k = Some i -> cols !! i = Some k.
Proof.
  revert i. induction cols as [|c cols IH]; intros i; csimpl; [done|].
  destruct (String.eqb_spec c k) as [->|Hne].
  - by intros [= <-].
  - destruct (col_index cols k) as [j|]; [|done].
    intros [= <-]. by apply IH.
Qed.

Lemma col_index_inj (cols : list string) (k k' : string) (i : nat) :
  col_index cols k = Some i -> col_index cols k' = Some i -> k = k'.
Proof.
  intros Hk%col_index_lookup Hk'%col_index_lookup. congruence.
Qed.

(** *** Rows that are handed out as stored *)

Lemma column_dtype_object (cells : list value) (v : value) :
  v ∈ cells -> value_dtype v = object -> column_dtype cells = object.
Proof.
  intros Hv Hobj. unfold column_dtype.
  destruct cells as [|w cells]; [done|].
  destruct (forallb _ (w :: cells)) eqn:Hall; [|done].
  rewrite forallb_forall in Hall.
  apply list_elem_of_In, Hall, bool_decide_eq_true in Hv. congruence.
Qed.

Lemma common_dtype2_object_l (d : dtype) : common_dtype2 object d = object.
Proof. by destruct d. Qed.

Lemma fold_common_dtype_object (ds : list dtype) (d : dtype) :
  d = object \/ object ∈ ds -> fold_left common_dtype2 ds d = object.
Proof.
  revert d. induction ds as [|d' ds IH]; intros d; simpl.
  - intros [->|Hin]; [done|]. by apply elem_of_nil in Hin.
  - intros [->|Hin]; apply IH.
    + left. apply common_dtype2_object_l.
    + apply elem_of_cons in Hin as [<-|Hin]; [left; by destruct d | by right].
Qed.

Lemma common_dtype_object (ds : list dtype) :
  object ∈ ds -> common_dtype ds = object.
Proof.
  destruct ds as [|d ds]; [by intros ?%elem_of_nil|].
  intros Hin. apply fold_common_dtype_object.
  apply elem_of_cons in Hin as [<-|Hin]; [by left | by right].
Qed.

(** A row with a cell of dtype [object] in one of the columns (a text, a
    [None]) comes out of [iloc] as it is stored. *)
Lemma handed_out_object (df : DataFrame) (k : string) (i : nat)
    (r : list value) :
  col_index (df_columns df) k = Some i ->
  r ∈ df_rows df ->
  value_dtype (cell r i) = object ->
  handed_out df r = r.
Proof.
  intros Hi Hr Hobj. unfold handed_out.
  rewrite common_dtype_object; [apply list_fmap_id|].
  apply list_elem_of_lookup. exists i. unfold df_dtypes.
  rewrite list_lookup_imap, (col_index_lookup _ _ _ Hi). simpl. f_equal.
  apply (column_dtype_object _ (cell r i)); [|done].
  apply list_elem_of_fmap. by exists r.
Qed.

(** The first record found for a text key carries that key. *)
Lemma first_record_key (df : DataFrame) (k : string) (c : Series) (d : value) :
  first_record df (VStr k) = Some c -> series_get c KEY d = VStr k.
Proof.
  intros Hc.
  destruct (col_index (df_columns df) KEY) as [i|] eqn:Hi.
  2: { unfold first_record, df_where_eq, df_getitem in Hc.
       rewrite Hi in Hc. discriminate. }
  rewrite (first_record_rows _ _ _ Hi) in Hc.
  destruct (rows_of_key df i (VStr k)) as [|r rs] eqn:Hr; [discriminate|].
  assert (r ∈ rows_of_key df i (VStr k)) as Hin by (rewrite Hr; by left).
  unfold rows_of_key in Hin. apply list_elem_of_filter in Hin as [Heq Hin].
  rewrite py_eqb_str_r in Heq. apply bool_decide_eq_true in Heq.
  cbn [head fmap option_fmap option_map] in Hc.
  rewrite (handed_out_object df KEY i r Hi Hin) in Hc
    by (by rewrite Heq).
  simplify_eq/=. unfold series_get. simpl. by rewrite Hi.
Qed.

(** A text key without a record in a table is not among its key cells. *)
Lemma first_record_none (df : DataFrame) (k : string) :
  df_has_column df KEY = true ->
  first_record df (VStr k) = None -> VStr k ∉ key_cells df.
Proof.
  intros [i Hi]%has_column_index Hnone.
  rewrite (first_record_rows _ _ _ Hi) in Hnone.
  unfold key_cells, df_getitem. rewrite Hi.
  intros Hin. apply list_elem_of_fmap in Hin as (r & Hr & Hin).
  destruct (rows_of_key df i (VStr k)) as [|r' rs] eqn:Hrows; [|discriminate].
  assert (r ∈ rows_of_key df i (VStr k)) as Hr'.
  { unfold rows_of_key. apply list_elem_of_filter. split; [|done].
    rewrite <- Hr. rewrite py_eqb_str_r. by apply bool_decide_eq_true. }
  rewrite Hrows in Hr'. by apply elem_of_nil in Hr'.
Qed.

Lemma process_link_merged_row `{PyRuntime} (complot layer : DataFrame)
    (st : TableFiller.loop_state) (link : value) :
  df_has_column complot KEY = true ->
  df_has_column layer KEY = true ->
  TableFiller.process_link complot layer st link =
    let '(row, p, q) := merged_row complot layer st link in
    Ok (TableFiller.mkLoop (TableFiller.rows st ++ [row]) p q).
Proof.
  intros [i Hi]%has_column_index [j Hj]%has_column_index.
  unfold merged_row, TableFiller.process_link.
  rewrite (first_record_rows _ _ _ Hi), (first_record_rows _ _ _ Hj).
  rewrite (df_where_eq_rows _ _ _ Hi), (df_where_eq_rows _ _ _ Hj).
  unfold df_empty, df_iloc0. simpl.
  destruct (df_columns complot) as [|cc ccols] eqn:Ecc; [discriminate|].
  destruct (df_columns layer) as [|lc lcols] eqn:Elc; [discriminate|].
  rewrite <- Ecc, <- Elc.
  destruct (rows_of_key complot i link) as [|rc rcs];
    destruct (rows_of_key layer j link) as [|rl rls]; reflexivity.
Qed.

(** ** The key a merged record carries *)

Section RowKey.
Context `{PyRuntime}.
Import TableFiller.

Lemma fill_complot_key (row : dict) (c : Series) :
  dict_get (fill_complot row c) (from_complot KEY)
  = Some (series_get c KEY (VStr "")).
Proof.
  unfold fill_complot. cbn [fold_left].
  rewrite !dict_get_set. eval_names. reflexivity.
Qed.

Lemma fill_layer_complot_key (row : dict) (l : Series) :
  dict_get (fill_layer row l) (from_complot KEY)
  = dict_get row (from_complot KEY).
Proof.
  unfold fill_layer. cbn [fold_left].
  rewrite !dict_get_set. eval_names. reflexivity.
Qed.

Lemma fill_layer_key (row : dict) (l : Series) :
  dict_get (fill_layer row l) (from_layer KEY)
  = Some (series_get l KEY (VStr "")).
Proof.
  unfold fill_layer. cbn [fold_left].
  rewrite !dict_get_set. eval_names. reflexivity.
Qed.

Lemma compare_both_complot_key (row : dict) (c l : Series) (p q : nat) :
  dict_get (compare_both row c l p q).1.1 (from_complot KEY)
  = dict_get row (from_complot KEY).
Proof.
  unfold compare_both.
  match goal with
  | |- context [match ?d with [] => _ | _ :: _ => _ end] => destruct d
  end; cbn [fst]; rewrite !dict_get_set; eval_names; reflexivity.
Qed.

(** A text key that some table holds is the key of the row made for it. *)
Lemma merged_row_key (complot layer : DataFrame) (st : loop_state)
    (k : string) :
  df_has_column complot KEY = true ->
  df_has_column layer KEY = true ->
  VStr k ∈ key_cells complot \/ VStr k ∈ key_cells layer ->
  row_key (merged_row complot layer st (VStr k)).1.1 = Some (VStr k).
Proof.
  intros Hc Hl Hin. unfold merged_row, row_key.
  destruct (first_record complot (VStr k)) as [c|] eqn:Ec;
    destruct (first_record layer (VStr k)) as [l|] eqn:El.
  - rewrite compare_both_complot_key, fill_layer_complot_key,
      fill_complot_key.
    by rewrite (first_record_key _ _ _ _ Ec).
  - cbn [fst]. rewrite dict_get_set. eval_names.
    rewrite fill_complot_key. by rewrite (first_record_key _ _ _ _ Ec).
  - cbn [fst]. rewrite !dict_get_set. eval_names.
    rewrite fill_layer_complot_key. cbn [dict_get].
    rewrite fill_layer_key. by rewrite (first_record_key _ _ _ _ El).
  - destruct Hin as [Hin|Hin].
    + by apply first_record_none in Ec.
    + by apply first_record_none in El.
Qed.

End RowKey.

(** [pd.DataFrame(rows)] has one row per dict. *)
Lemma df_len_of_dicts (ds : list dict) : df_len (df_of_dicts ds) = length ds.
Proof. unfold df_len, df_of_dicts. simpl. by rewrite length_fmap. Qed.

(** ** The links of two tables with text keys *)

Lemma links_of_key_cells (df : DataFrame) :
  df_has_column df KEY = true ->
  TableFiller.links_of df = Ok (link_set df).
Proof.
  intros [i Hi]%has_column_index.
  unfold TableFiller.links_of, link_set, key_cells, df_getitem.
  by rewrite Hi.
Qed.

Section TextKeys.
Variables complot layer : DataFrame.
Hypothesis complot_text : text_keys complot.
Hypothesis layer_text : text_keys layer.

Lemma link_set_all_str (df : DataFrame) :
  text_keys df -> Forall (fun v => is_str v = true) (link_set df).
Proof.
  intros Hdf. unfold link_set.
  by do 2 apply py_dedup_all_str; apply dropna_text.
Qed.

Lemma link_set_elem_of (df : DataFrame) (k : string) :
  text_keys df -> VStr k ∈ link_set df <-> VStr k ∈ key_cells df.
Proof.
  intros Hdf. unfold link_set.
  rewrite !py_dedup_elem_of;
    [| by apply dropna_text | by apply py_dedup_all_str, dropna_text].
  unfold dropna. rewrite list_elem_of_filter. simpl. tauto.
Qed.

Lemma union_all_str :
  Forall (fun v => is_str v = true) (set_union (link_set complot) (link_set layer)).
Proof.
  apply py_dedup_all_str, Forall_app. split; by apply link_set_all_str.
Qed.

Lemma union_text :
  set_union (link_set complot) (link_set layer)
  = VStr <$> text_union complot layer.
Proof. apply all_str_fmap, union_all_str. Qed.

Lemma text_union_elem_of (k : string) :
  k ∈ text_union complot layer
  <-> VStr k ∈ key_cells complot \/ VStr k ∈ key_cells layer.
Proof.
  rewrite <- (list_elem_of_fmap_inj VStr), <- union_text.
  unfold set_union. rewrite py_dedup_elem_of.
  - rewrite elem_of_app. by rewrite !link_set_elem_of.
  - apply Forall_app. split; by apply link_set_all_str.
Qed.





End TextKeys.

(** ** Keys of either kind *)

(** *** The exact value of a number *)

Lemma Qcompare_inject_Z (a b : Z) :
  Qcompare (inject_Z a) (inject_Z b) = Z.compare a b.
Proof. unfold Qcompare. simpl. by rewrite !Z.mul_1_r. Qed.

Lemma Qcompare_mult_r (x y z : Q) :
  (0 < z)%Q -> Qcompare (x * z) (y * z) = Qcompare x y.
Proof.
  intros Hz. destruct (Qcompare_spec x y) as [Heq|Hlt|Hgt].
  - apply Qeq_alt. by rewrite Heq.
  - apply Qlt_alt. by apply Qmult_lt_r.
  - apply Qgt_alt. by apply Qmult_lt_r.
Qed.

Lemma two_power_pos (e : Z) : (0 < 2 ^ e)%Q.
Proof. by apply Qpower_0_lt. Qed.

Lemma xfin_scale (m e e0 : Z) :
  e0 <= e ->
  (inject_Z m * 2 ^ e == inject_Z (m * 2 ^ (e - e0)) * 2 ^ e0)%Q.
Proof.
  intros Hle. rewrite inject_Z_mult.
  rewrite (Zpower_Qpower 2 (e - e0)) by lia.
  rewrite <- Qmult_assoc. rewrite <- Qpower_plus by done.
  by replace (e - e0 + e0) with e by lia.
Qed.

Lemma xnum_compare_fin (m1 e1 m2 e2 : Z) :
  xnum_compare (XFin m1 e1) (XFin m2 e2)
  = Qcompare (inject_Z m1 * 2 ^ e1) (inject_Z m2 * 2 ^ e2).
Proof.
  simpl.
  rewrite (xfin_scale m1 e1 (Z.min e1 e2)) by lia.
  rewrite (xfin_scale m2 e2 (Z.min e1 e2)) by lia.
  rewrite Qcompare_mult_r by apply two_power_pos.
  symmetry. apply Qcompare_inject_Z.
Qed.

Lemma xnum_compare_key (x y : xnum) :
  CompareSpec (xnum_key x = xnum_key y) (key_lt (xnum_key x) (xnum_key y))
    (key_lt (xnum_key y) (xnum_key x)) (xnum_compare x y).
Proof.
  destruct x as [|m1 e1|], y as [|m2 e2|]; try (by constructor).
  rewrite xnum_compare_fin. cbn [xnum_key key_lt].
  set (a := (inject_Z m1 * 2 ^ e1)%Q). set (b := (inject_Z m2 * 2 ^ e2)%Q).
  destruct (Qcompare_spec a b) as [Heq|Hlt|Hgt]; constructor.
  - f_equal. by apply Q2Qc_eq_iff.
  - unfold Qclt. simpl. by rewrite !Qred_correct.
  - unfold Qclt. simpl. by rewrite !Qred_correct.
Qed.

(** *** The order of the keys *)

Lemma ltb_irrefl (s : string) : String.ltb s s = false.
Proof.
  unfold String.ltb. pose proof (String.compare_antisym s s) as Hs.
  destruct (String.compare s s); simpl in Hs; congruence.
Qed.

Lemma ltb_lt_le (s t : string) :
  String.ltb s t = true <-> String.le s t /\ s <> t.
Proof.
  split.
  - intros Hlt. split; [by apply ltb_true_le|].
    intros ->. by rewrite ltb_irrefl in Hlt.
  - intros [Hle Hne]. by apply le_ne_lt.
Qed.

Lemma key_lt_irrefl (k : pkey) : ~ key_lt k k.
Proof.
  destruct k as [s| |q|]; simpl.
  - by rewrite ltb_irrefl.
  - by intros [].
  - apply (irreflexivity Qclt).
  - by intros [].
Qed.

Lemma key_lt_trans (a b c : pkey) : key_lt a b -> key_lt b c -> key_lt a c.
Proof.
  destruct a as [s| |p|], b as [t| |q|], c as [u| |r|]; simpl; try done.
  - rewrite !ltb_lt_le. intros [H1 N1] [H2 N2]. split.
    + by transitivity t.
    + intros ->. apply N1. by apply (anti_symm String.le).
  - apply Qclt_trans.
Qed.

Global Instance key_lt_transitive : Transitive key_lt.
Proof. intros a b c. apply key_lt_trans. Qed.

Lemma key_lt_asym (a b : pkey) : key_lt a b -> key_lt b a -> False.
Proof. intros H1 H2. apply (key_lt_irrefl a). by transitivity b. Qed.

Lemma key_lt_total (a b : pkey) :
  is_text_key a = is_text_key b -> a <> b -> key_lt a b \/ key_lt b a.
Proof.
  destruct a as [s| |p|], b as [t| |q|]; simpl; try done; auto.
  - intros _ Hne. rewrite !ltb_lt_le.
    destruct (total String.le s t); [left|right]; split; congruence.
  - intros _ Hne. destruct (Qc_dec p q) as [[?|?]|?]; auto. congruence.
Qed.

(** *** [==] and [<] on values that have a key *)

Lemma as_key_xnum (v : value) (k : pkey) :
  is_str v = false -> as_key v = Some k ->
  exists x, xnum_of v = Some x /\ k = xnum_key x.
Proof.
  intros Hs Hk.
  assert (as_key v = xnum_key <$> xnum_of v) as Hv by (by destruct v).
  rewrite Hv in Hk. destruct (xnum_of v) as [x|]; simplify_eq/=.
  by exists x.
Qed.

Lemma as_key_number_not_text (v : value) (k : pkey) :
  is_str v = false -> as_key v = Some k -> is_text_key k = false.
Proof.
  intros Hs Hk. destruct (as_key_xnum v k Hs Hk) as (x & _ & ->).
  by destruct x.
Qed.

Lemma py_eqb_keys (a b : value) (ka kb : pkey) :
  as_key a = Some ka -> as_key b = Some kb ->
  py_eqb a b = bool_decide (ka = kb).
Proof.
  intros Ha Hb.
  destruct (is_str a) eqn:Hsa.
  { destruct a as [| | | |s]; try done. simpl in Ha. simplify_eq.
    destruct (is_str b) eqn:Hsb.
    - destruct b as [| | | |t]; try done. simplify_eq/=.
      destruct (String.eqb_spec s t) as [->|Hne]; symmetry.
      + by apply bool_decide_eq_true.
      + apply bool_decide_eq_false. congruence.
    - pose proof (as_key_number_not_text b kb Hsb Hb) as Hn.
      rewrite py_eqb_str_l.
      rewrite bool_decide_eq_false_2 by (by intros ->).
      symmetry. apply bool_decide_eq_false. by intros <-. }
  destruct (is_str b) eqn:Hsb.
  { destruct b as [| | | |t]; try done. rewrite py_eqb_str_r.
    simpl in Hb. simplify_eq.
    pose proof (as_key_number_not_text a ka Hsa Ha) as Hn.
    rewrite bool_decide_eq_false_2; [|by intros ->].
    symmetry. apply bool_decide_eq_false. by intros ->. }
  destruct (as_key_xnum a ka Hsa Ha) as (x & Hx & ->).
  destruct (as_key_xnum b kb Hsb Hb) as (y & Hy & ->).
  assert (py_eqb a b
          = match xnum_compare x y with Eq => true | _ => false end) as ->.
  { unfold py_eqb. rewrite Hx, Hy. by destruct a, b. }
  destruct (xnum_compare_key x y) as [Heq|Hlt|Hgt]; symmetry.
  - by apply bool_decide_eq_true.
  - apply bool_decide_eq_false. intros Heq. rewrite Heq in Hlt.
    by apply key_lt_irrefl in Hlt.
  - apply bool_decide_eq_false. intros Heq. rewrite Heq in Hgt.
    by apply key_lt_irrefl in Hgt.
Qed.

Lemma py_lt_text (s t : string) :
  py_lt (VStr s) (VStr t) = Ok (bool_decide (key_lt (KText s) (KText t))).
Proof.
  cbn [py_lt]. f_equal.
  destruct (decide (key_lt (KText s) (KText t))) as [Hlt|Hlt].
  - rewrite (bool_decide_eq_true_2 _ Hlt). exact Hlt.
  - rewrite (bool_decide_eq_false_2 _ Hlt). simpl in Hlt.
    by destruct (String.ltb s t).
Qed.

Lemma py_lt_num (a b : value) (ka kb : pkey) :
  is_num a = true -> is_num b = true ->
  as_key a = Some ka -> as_key b = Some kb ->
  py_lt a b = Ok (bool_decide (key_lt ka kb)).
Proof.
  intros Hna Hnb Ha Hb.
  assert (is_str a = false) as Hsa by (by destruct a).
  assert (is_str b = false) as Hsb by (by destruct b).
  destruct (as_key_xnum a ka Hsa Ha) as (x & Hx & ->).
  destruct (as_key_xnum b kb Hsb Hb) as (y & Hy & ->).
  assert (py_lt a b
          = Ok match xnum_compare x y with Lt => true | _ => false end) as ->.
  { unfold py_lt. rewrite Hx, Hy. by destruct a, b. }
  f_equal.
  destruct (xnum_compare_key x y) as [Heq|Hlt|Hgt]; symmetry.
  - apply bool_decide_eq_false. rewrite Heq. apply key_lt_irrefl.
  - by apply bool_decide_eq_true.
  - apply bool_decide_eq_false. intros Hlt. by apply (key_lt_asym _ _ Hlt).
Qed.

(** *** Sets of keys *)

Lemma sorted_insert_perm (x : value) (l r : list value) :
  sorted_insert x l = Ok r -> r ≡ₚ x :: l.
Proof.
  revert r. induction l as [|y l IH]; intros r; csimpl.
  - by intros [= <-].
  - destruct (py_lt y x) as [[|]|]; csimpl; [| |discriminate].
    + destruct (sorted_insert x l) as [r'|]; csimpl; [|discriminate].
      intros [= <-]. rewrite (IH r' eq_refl). apply Permutation_swap.
    + by intros [= <-].
Qed.

Lemma sorted_perm (l r : list value) : sorted l = Ok r -> r ≡ₚ l.
Proof.
  revert r. induction l as [|x l IH]; intros r; csimpl.
  - by intros [= <-].
  - destruct (sorted l) as [s|]; csimpl; [|discriminate].
    intros Hr%sorted_insert_perm. by rewrite Hr, (IH s eq_refl).
Qed.

Lemma as_key_na (v : value) : isna v = true -> as_key v = None.
Proof. destruct v as [|f| | |]; try done. by destruct f. Qed.

Lemma omap_as_key_dropna (l : list value) :
  omap as_key (dropna l) = omap as_key l.
Proof.
  unfold dropna. induction l as [|v l IH]; [done|].
  rewrite filter_cons. destruct (decide (isna v = false)) as [Hna|Hna].
  - csimpl. by rewrite IH.
  - csimpl. rewrite IH. apply not_false_is_true in Hna.
    by rewrite (as_key_na v Hna).
Qed.

Lemma keyed_dropna (l : list value) :
  Forall (fun v => isna v = false -> is_Some (as_key v)) l ->
  keyed (dropna l).
Proof.
  unfold keyed, dropna. rewrite !Forall_forall.
  intros Hl v [Hna Hv]%list_elem_of_filter. by apply Hl.
Qed.

Lemma keyed_filter (P : value -> Prop) `{!forall v, Decision (P v)}
    (l : list value) :
  keyed l -> keyed (filter P l).
Proof.
  unfold keyed. rewrite !Forall_forall.
  intros Hl v [_ Hv]%list_elem_of_filter. auto.
Qed.

Lemma keyed_fmap (l : list value) :
  keyed l -> as_key <$> l = Some <$> omap as_key l.
Proof.
  induction 1 as [|v l [k Hk] _ IH]; [done|].
  csimpl. rewrite Hk. csimpl. by rewrite IH.
Qed.

Lemma omap_as_key_filter (x : value) (kx : pkey) (l : list value) :
  as_key x = Some kx -> keyed l ->
  omap as_key (filter (fun y => py_eqb x y = false) l)
  = filter (fun k => kx <> k) (omap as_key l).
Proof.
  intros Hx. induction 1 as [|v l [k Hk] _ IH]; [done|].
  rewrite filter_cons. csimpl. rewrite Hk. csimpl. rewrite filter_cons.
  rewrite (py_eqb_keys x v kx k Hx Hk).
  destruct (decide (kx = k)) as [->|Hne].
  - rewrite bool_decide_eq_true_2 by done.
    rewrite decide_False by done. rewrite decide_False by (by intros []).
    exact IH.
  - rewrite bool_decide_eq_false_2 by done.
    rewrite decide_True by done. rewrite decide_True by done.
    csimpl. rewrite Hk. csimpl. by rewrite IH.
Qed.

Lemma omap_as_key_cons (v : value) (k : pkey) (l : list value) :
  as_key v = Some k -> omap as_key (v :: l) = k :: omap as_key l.
Proof. intros Hk. csimpl. by rewrite Hk. Qed.

Lemma py_dedup_keyed (l : list value) : keyed l -> keyed (py_dedup l).
Proof.
  induction 1 as [|v l Hv _ IH]; simpl; [constructor|].
  constructor; [done|]. by apply keyed_filter.
Qed.

Lemma py_dedup_keys_NoDup (l : list value) :
  keyed l -> NoDup (omap as_key (py_dedup l)).
Proof.
  induction 1 as [|v l [k Hk] Hl IH]; cbn [py_dedup]; [constructor|].
  rewrite (omap_as_key_cons _ _ _ Hk).
  rewrite (omap_as_key_filter v k _ Hk (py_dedup_keyed l Hl)).
  constructor.
  - rewrite list_elem_of_filter. by intros [? _].
  - by apply NoDup_filter.
Qed.

Lemma py_dedup_keys_elem_of (l : list value) (k : pkey) :
  keyed l -> k ∈ omap as_key (py_dedup l) <-> k ∈ omap as_key l.
Proof.
  induction 1 as [|v l [kv Hk] Hl IH]; cbn [py_dedup]; [done|].
  rewrite !(omap_as_key_cons _ _ _ Hk).
  rewrite (omap_as_key_filter v kv _ Hk (py_dedup_keyed l Hl)).
  rewrite !elem_of_cons, list_elem_of_filter, IH.
  destruct (decide (kv = k)) as [->|Hne]; [tauto|]. split.
  - intros [->|[_ ?]]; auto.
  - intros [->|?]; auto.
Qed.

(** The links of a table whose non-null keys have a key. *)
Lemma link_set_keys (df : DataFrame) :
  Forall (fun v => isna v = false -> is_Some (as_key v)) (key_cells df) ->
  keyed (link_set df)
  /\ forall k, k ∈ omap as_key (link_set df) <-> k ∈ all_keys df.
Proof.
  intros Hdf. pose proof (keyed_dropna _ Hdf) as Hk. unfold link_set. split.
  - by do 2 apply py_dedup_keyed.
  - intros k. rewrite !py_dedup_keys_elem_of by (by try apply py_dedup_keyed).
    rewrite omap_as_key_dropna. unfold all_keys.
    by rewrite elem_of_list_to_set.
Qed.

Lemma union_keys (complot layer : DataFrame) :
  Forall (fun v => isna v = false -> is_Some (as_key v)) (key_cells complot) ->
  Forall (fun v => isna v = false -> is_Some (as_key v)) (key_cells layer) ->
  keyed (set_union (link_set complot) (link_set layer))
  /\ NoDup (omap as_key (set_union (link_set complot) (link_set layer)))
  /\ list_to_set (omap as_key (set_union (link_set complot) (link_set layer)))
     = all_keys complot ∪ all_keys layer.
Proof.
  intros Hc Hl.
  destruct (link_set_keys complot Hc) as [Hkc Hec].
  destruct (link_set_keys layer Hl) as [Hkl Hel].
  assert (keyed (link_set complot ++ link_set layer)) as Hk
    by (by apply Forall_app).
  unfold set_union. split; [by apply py_dedup_keyed|]. split.
  - by apply py_dedup_keys_NoDup.
  - apply set_eq. intros k.
    rewrite elem_of_list_to_set, py_dedup_keys_elem_of by done.
    rewrite omap_app, elem_of_app, elem_of_union. by rewrite Hec, Hel.
Qed.

(** ** Sorting *)

Global Instance val_lt_transitive : Transitive val_lt.
Proof.
  intros a b c (ka & kb & Ha & Hb & Hab) (kb' & kc & Hb' & Hc & Hbc).
  simplify_eq. exists ka, kc. split; [done|]. split; [done|].
  by transitivity kb.
Qed.

Lemma val_lt_asym (a b : value) : val_lt a b -> val_lt b a -> False.
Proof.
  intros (ka & kb & Ha & Hb & Hab) (kb' & ka' & Hb' & Ha' & Hba).
  simplify_eq. by apply (key_lt_asym ka kb).
Qed.

Lemma HdRel_head (R : relation value) (a : value) (l : list value) :
  HdRel R a l <-> forall b, head l = Some b -> R a b.
Proof.
  split.
  - intros [|b l' Hab] b'; simpl; [done|]. by intros [= <-].
  - destruct l as [|b l']; constructor. by apply H.
Qed.

Section Comparable.
Variable P : value -> Prop.
Hypothesis P_key : forall v, P v -> is_Some (as_key v).
Hypothesis P_lt : forall a b ka kb,
  P a -> P b -> as_key a = Some ka -> as_key b = Some kb ->
  py_lt a b = Ok (bool_decide (key_lt ka kb)).
Hypothesis P_total : forall a b ka kb,
  P a -> P b -> as_key a = Some ka -> as_key b = Some kb ->
  ka <> kb -> key_lt ka kb \/ key_lt kb ka.

Lemma sorted_insert_sorted (x : value) (l : list value) :
  P x -> Forall P l ->
  (forall y, y ∈ l -> as_key y <> as_key x) ->
  Sorted val_lt l ->
  exists r, sorted_insert x l = Ok r /\ Sorted val_lt r
            /\ (head r = Some x \/ head r = head l).
Proof.
  intros Hx Hl Hne Hs. destruct (P_key x Hx) as [kx Hkx].
  induction Hs as [|y l Hs IH Hhd].
  - exists [x]. split; [done|]. split; [by repeat constructor | by left].
  - apply Forall_cons in Hl as [Hy Hl].
    destruct (P_key y Hy) as [ky Hky].
    cbn [sorted_insert]. rewrite (P_lt y x ky kx Hy Hx Hky Hkx). csimpl.
    destruct (decide (key_lt ky kx)) as [Hlt|Hnlt].
    + rewrite (bool_decide_eq_true_2 _ Hlt).
      destruct (IH Hl) as (r & -> & Hr & Hhead).
      { intros z Hz. apply Hne. by right. }
      csimpl. exists (y :: r). split; [done|]. split; [|by right].
      constructor; [done|]. apply HdRel_head. intros b Hb.
      destruct Hhead as [Hhead|Hhead]; rewrite Hhead in Hb.
      * simplify_eq. by exists ky, kx.
      * by apply (proj1 (HdRel_head _ _ _) Hhd).
    + rewrite (bool_decide_eq_false_2 _ Hnlt). csimpl.
      exists (x :: y :: l). split; [done|]. split; [|by left].
      constructor; [by constructor|]. constructor.
      exists kx, ky. split; [done|]. split; [done|].
      destruct (P_total x y kx ky Hx Hy Hkx Hky) as [?|?]; [|done|done].
      intros ->. apply (Hne y); [by left | congruence].
Qed.

Lemma sorted_sorted (l : list value) :
  Forall P l -> NoDup (omap as_key l) ->
  exists r, sorted l = Ok r /\ Sorted val_lt r /\ r ≡ₚ l.
Proof.
  induction 1 as [|x l Hx Hl IH]; intros Hnd.
  - exists []. split; [done|]. split; [constructor | done].
  - destruct (P_key x Hx) as [kx Hkx].
    csimpl in Hnd. rewrite Hkx in Hnd. csimpl in Hnd.
    apply NoDup_cons in Hnd as [Hnin Hnd].
    destruct (IH Hnd) as (s & Hs & Hsorted & Hperm).
    cbn [sorted]. rewrite Hs. csimpl.
    destruct (sorted_insert_sorted x s Hx) as (r & Hr & Hrs & _);
      [by rewrite Hperm| |done|].
    { intros y Hy Heq. apply Hnin. rewrite Hperm in Hy.
      apply list_elem_of_omap. exists y. split; [done|]. congruence. }
    exists r. split; [done|]. split; [done|].
    apply sorted_insert_perm in Hr. by rewrite Hr, Hperm.
Qed.

Lemma sorted_deterministic (l l' : list value) :
  Forall P l -> NoDup (omap as_key l) -> l' ≡ₚ l ->
  sorted l' = sorted l.
Proof.
  intros Hl Hnd Hperm.
  destruct (sorted_sorted l Hl Hnd) as (r & -> & Hr & Hrl).
  destruct (sorted_sorted l') as (r' & -> & Hr' & Hrl');
    [by rewrite Hperm | by rewrite Hperm|].
  f_equal. apply (Sorted_unique_strong val_lt); [|done|done|].
  - intros a b _ _ Hab Hba. by destruct (val_lt_asym a b).
  - by rewrite Hrl', Hrl.
Qed.

End Comparable.

Lemma Sorted_val_lt_keys (r : list value) (ks : list pkey) :
  as_key <$> r = Some <$> ks -> Sorted val_lt r -> Sorted key_lt ks.
Proof.
  intros Hk Hs. revert ks Hk.
  induction Hs as [|a r Hs IH Hhd]; intros [|k ks] Hk; simplify_eq/=;
    constructor; [by apply IH|].
  destruct Hhd as [|b r (ka & kb & Ha & Hb & Hlt)];
    destruct ks as [|k' ks]; simplify_eq/=; constructor. congruence.
Qed.

(** ** [process_matches] on tables whose keys can be sorted *)

Lemma py_dedup_Forall (Q : value -> Prop) (l : list value) :
  Forall Q l -> Forall Q (py_dedup l).
Proof.
  induction 1 as [|v l Hv _ IH]; simpl; [constructor|].
  constructor; [done|]. rewrite Forall_forall in *.
  intros y [_ Hy]%list_elem_of_filter. auto.
Qed.

Lemma dropna_Forall (Q : value -> Prop) (l : list value) :
  Forall (fun v => isna v = false -> Q v) l -> Forall Q (dropna l).
Proof.
  unfold dropna. rewrite !Forall_forall.
  intros Hl v [Hna Hv]%list_elem_of_filter. auto.
Qed.

Lemma union_Forall (Q : value -> Prop) (complot layer : DataFrame) :
  Forall (fun v => isna v = false -> Q v) (key_cells complot) ->
  Forall (fun v => isna v = false -> Q v) (key_cells layer) ->
  Forall Q (set_union (link_set complot) (link_set layer)).
Proof.
  intros Hc Hl. unfold set_union, link_set.
  apply py_dedup_Forall, Forall_app.
  split; do 2 apply py_dedup_Forall; by apply dropna_Forall.
Qed.

Lemma number_key_is_num (v : value) : number_key v = true -> is_num v = true.
Proof. by destruct v. Qed.

Lemma number_key_as_key (v : value) :
  number_key v = true -> is_Some (as_key v).
Proof.
  by destruct v as [|[]|n| |].
Qed.

Lemma text_as_key (v : value) : is_str v = true -> is_Some (as_key v).
Proof. by destruct v. Qed.

(** Sorting a list of keys of one kind, with distinct keys. *)
Lemma sorted_one_kind (l : list value) :
  Forall (fun v => is_str v = true) l
  \/ Forall (fun v => number_key v = true) l ->
  NoDup (omap as_key l) ->
  (exists r, sorted l = Ok r /\ Sorted val_lt r /\ r ≡ₚ l)
  /\ forall l', l' ≡ₚ l -> sorted l' = sorted l.
Proof.
  intros [Hl|Hl] Hnd.
  - split.
    + apply (sorted_sorted (fun v => is_str v = true)); try done.
      * apply text_as_key.
      * intros [] [] ka kb; try done. intros _ _ [= <-] [= <-].
        apply py_lt_text.
      * intros [] [] ka kb; try done. intros _ _ [= <-] [= <-].
        by apply key_lt_total.
    + intros l' Hl'.
      apply (sorted_deterministic (fun v => is_str v = true)); try done.
      * apply text_as_key.
      * intros [] [] ka kb; try done. intros _ _ [= <-] [= <-].
        apply py_lt_text.
      * intros [] [] ka kb; try done. intros _ _ [= <-] [= <-].
        by apply key_lt_total.
  - assert (forall a b ka kb,
              number_key a = true -> number_key b = true ->
              as_key a = Some ka -> as_key b = Some kb ->
              ka <> kb -> key_lt ka kb \/ key_lt kb ka) as Htotal.
    { intros a b ka kb Ha Hb Hka Hkb. apply key_lt_total.
      rewrite (as_key_number_not_text a ka), (as_key_number_not_text b kb);
        try done; [by destruct b | by destruct a]. }
    split.
    + apply (sorted_sorted (fun v => number_key v = true)); try done.
      * apply number_key_as_key.
      * intros a b ka kb Ha Hb. apply py_lt_num; by apply number_key_is_num.
    + intros l' Hl'.
      apply (sorted_deterministic (fun v => number_key v = true)); try done.
      * apply number_key_as_key.
      * intros a b ka kb Ha Hb. apply py_lt_num; by apply number_key_is_num.
Qed.

Section Loop.
Context `{PyRuntime}.
Import TableFiller.

Lemma compare_both_row (row : dict) (c l : Series) (p q p' q' : nat) :
  (compare_both row c l p q).1.1 = (compare_both row c l p' q').1.1.
Proof.
  unfold compare_both.
  match goal with
  | |- context [match ?d with [] => _ | _ :: _ => _ end] => by destruct d
  end.
Qed.

Lemma merged_row_record (complot layer : DataFrame) (st : loop_state)
    (link : value) :
  (merged_row complot layer st link).1.1 = record_of complot layer link.
Proof.
  unfold record_of, merged_row.
  destruct (first_record complot link), (first_record layer link); try done.
  apply compare_both_row.
Qed.

Lemma process_links_rows (complot layer : DataFrame) (links : list value) :
  df_has_column complot KEY = true ->
  df_has_column layer KEY = true ->
  forall st : loop_state,
  exists st' : loop_state,
    process_links complot layer st links = Ok st'
    /\ rows st' = rows st ++ (record_of complot layer <$> links).
Proof.
  intros Hc Hl. induction links as [|link links IH]; intros st.
  - exists st. csimpl. by rewrite app_nil_r.
  - csimpl. rewrite (process_link_merged_row _ _ _ _ Hc Hl).
    pose proof (merged_row_record complot layer st link) as Hrow.
    destruct (merged_row complot layer st link) as [[row p] q].
    cbn [fst] in Hrow. csimpl.
    destruct (IH (mkLoop (rows st ++ [row]) p q)) as (st' & Hrun & Hrows).
    exists st'. split; [done|]. rewrite Hrows. cbn [rows].
    by rewrite <- app_assoc, Hrow.
Qed.

Lemma text_keys_keyed (df : DataFrame) :
  text_keys df ->
  Forall (fun v => isna v = false -> is_Some (as_key v)) (key_cells df).
Proof.
  unfold text_keys. intros Hdf. eapply Forall_impl; [exact Hdf|].
  intros v Hv Hna. by apply text_as_key, Hv.
Qed.

Lemma number_keys_keyed (df : DataFrame) :
  number_keys df ->
  Forall (fun v => isna v = false -> is_Some (as_key v)) (key_cells df).
Proof.
  unfold number_keys. intros Hdf. eapply Forall_impl; [exact Hdf|].
  intros v Hv Hna. by apply number_key_as_key, Hv.
Qed.

(** [process_matches] on tables whose keys can be sorted. *)
Lemma process_matches_sortable (set_iter : list value -> list value)
    (self : t) (complot layer : DataFrame) :
  (forall l, set_iter l ≡ₚ l) ->
  complot_df self = Some complot ->
  layer_df self = Some layer ->
  df_has_column complot KEY = true ->
  df_has_column layer KEY = true ->
  sortable_keys complot layer ->
  exists (links : list value) (keys : list pkey) (st : loop_state),
    sorted (set_union (link_set complot) (link_set layer)) = Ok links
    /\ as_key <$> links = Some <$> keys
    /\ Sorted key_lt keys
    /\ NoDup keys
    /\ list_to_set keys = all_keys complot ∪ all_keys layer
    /\ process_links complot layer (mkLoop [] 0 0) links = Ok st
    /\ rows st = record_of complot layer <$> links
    /\ Gui.process_matches set_iter self =
         Ok (perfect_matches st, partial_matches st, length links,
             mk (complot_path self) (layer_path self)
                (recommendations_path self) (complot_df self) (layer_df self)
                (rec_df self) (Some (df_of_dicts (rows st))) (report self))
    /\ (text_keys complot -> text_keys layer ->
        row_key <$> rows st = Some <$> links).
Proof.
  intros Hperm Hcdf Hldf Hc Hl Hsort.
  set (u := set_union (link_set complot) (link_set layer)).
  assert (Forall (fun v => isna v = false -> is_Some (as_key v))
            (key_cells complot)
          /\ Forall (fun v => isna v = false -> is_Some (as_key v))
               (key_cells layer)) as [Hkc Hkl].
  { destruct Hsort as [[? ?]|[? ?]];
      split; first [by apply text_keys_keyed | by apply number_keys_keyed]. }
  destruct (union_keys complot layer Hkc Hkl) as (Hkeyed & Hnd & Hset).
  fold u in Hkeyed, Hnd, Hset.
  assert (Forall (fun v => is_str v = true) u
          \/ Forall (fun v => number_key v = true) u) as Hkind.
  { destruct Hsort as [[? ?]|[? ?]]; [left|right]; by apply union_Forall. }
  destruct (sorted_one_kind u Hkind Hnd) as [(links & Hs & Hsorted & Hpl) Hdet].
  assert (keyed links) as Hklinks by (unfold keyed in *; by rewrite Hpl).
  destruct (process_links_rows complot layer links Hc Hl (mkLoop [] 0 0))
    as (st & Hrun & Hrows).
  cbn [rows app] in Hrows.
  exists links, (omap as_key links), st.
  split; [done|]. split; [by apply keyed_fmap|].
  split; [apply (Sorted_val_lt_keys links); [by apply keyed_fmap | done]|].
  split; [by rewrite Hpl|].
  split.
  { rewrite <- Hset. apply set_eq. intros k.
    by rewrite !elem_of_list_to_set, Hpl. }
  split; [done|]. split; [done|]. split.
  - unfold Gui.process_matches. rewrite Hcdf, Hldf. csimpl.
    rewrite (links_of_key_cells _ Hc). csimpl.
    rewrite (links_of_key_cells _ Hl). csimpl.
    fold u. rewrite (Hdet (set_iter u) (Hperm u)), Hs. csimpl.
    rewrite Hrun. csimpl. rewrite df_len_of_dicts, Hrows, length_fmap.
    reflexivity.
  - intros Htc Htl. rewrite Hrows, <- list_fmap_compose.
    apply list_fmap_ext. intros i link Hlink. simpl.
    assert (link ∈ u) as Hin.
    { rewrite <- Hpl. by apply list_elem_of_lookup_2 in Hlink. }
    unfold u in Hin. rewrite (union_text complot layer Htc Htl) in Hin.
    apply list_elem_of_fmap in Hin as (k & -> & Hk).
    apply (text_union_elem_of complot layer Htc Htl) in Hk.
    unfold record_of. by apply merged_row_key.
Qed.

End Loop.

(** ** [process_matches] on tables with text keys *)

Section ProcessMatches.
Context `{PyRuntime}.
Import TableFiller.


End ProcessMatches.

(** C4 (as amended). When both tables have the key column, column labels
    that are pairwise distinct, and non-null keys that are all text or
    all numbers, [process_matches] returns, and the table it builds holds
    one merged record per key of the union of the two key sets and no
    other.  The rows are the records of a list of links whose keys are
    pairwise distinct and are exactly the members of the union (keys are
    told apart by [==], so [2] and [2.0] are one key), and the number of
    rows, which is also the [total_rows] returned, is the size of the
    union.  When the keys are text, each row carries its key. *)
Theorem one_record_per_key `{PyRuntime} (set_iter : list value -> list value)
    (self : TableFiller.t) (complot layer : DataFrame) :
  (forall l, set_iter l ≡ₚ l) ->
  TableFiller.complot_df self = Some complot ->
  TableFiller.layer_df self = Some layer ->
  NoDup (df_columns complot) ->
  NoDup (df_columns layer) ->
  df_has_column complot KEY = true ->
  df_has_column layer KEY = true ->
  sortable_keys complot layer ->
  exists (links : list value) (keys : list pkey) (rows : list dict)
         (perfect partial : nat) (self' : TableFiller.t),
    Gui.process_matches set_iter self
    = Ok (perfect, partial, length rows, self')
    /\ TableFiller.filled_df self' = Some (df_of_dicts rows)
    /\ df_len (df_of_dicts rows) = length rows
    /\ rows = record_of complot layer <$> links
    /\ as_key <$> links = Some <$> keys
    /\ NoDup keys
    /\ list_to_set keys = all_keys complot ∪ all_keys layer
    /\ length rows = size (all_keys complot ∪ all_keys layer)
    /\ (text_keys complot -> text_keys layer ->
        row_key <$> rows = Some <$> links).
Proof.
  intros Hperm Hcdf Hldf _ _ Hc Hl Hsort.
  destruct (process_matches_sortable set_iter self complot layer
              Hperm Hcdf Hldf Hc Hl Hsort)
    as (links & keys & st & _ & Hkeys & _ & Hnd & Hset & _ & Hrows & Hrun
        & Htext).
  assert (length (TableFiller.rows st) = length links) as Hlen
    by (by rewrite Hrows, length_fmap).
  exists links, keys, (TableFiller.rows st), (TableFiller.perfect_matches st),
    (TableFiller.partial_matches st).
  eexists. rewrite Hlen. split; [exact Hrun|].
  cbn [TableFiller.filled_df]. rewrite df_len_of_dicts.
  split; [done|]. split; [done|]. split; [done|]. split; [done|].
  split; [done|]. split; [done|]. split; [|done].
  rewrite <- Hset, size_list_to_set by done.
  by rewrite <- (length_fmap Some keys), <- Hkeys, length_fmap.
Qed.

(** C4 (as stated, fails). A complot table with the text key A1 and a
    layer table with the numeric key 7: both have the key column, the
    union of the key sets has two members, and [sorted] raises
    [TypeError] on it whatever the order the set hands them out in.  No
    merged record is produced and no file is written. *)
Lemma mixed_keys_produce_no_record :
  df_has_column Cases.text_keyed KEY = true
  /\ df_has_column Cases.number_keyed KEY = true
  /\ size (all_keys Cases.text_keyed ∪ all_keys Cases.number_keyed) = 2%nat
  /\ @Gui.process_matches Examples.rt (fun l => l)
       (Examples.loaded Cases.text_keyed Cases.number_keyed)
     = Raise TypeError
  /\ @Gui.process_matches Examples.rt reverse
       (Examples.loaded Cases.text_keyed Cases.number_keyed)
     = Raise TypeError
  /\ @Gui.run Examples.rt (fun l => l)
       (Examples.env_of Cases.text_keyed Cases.number_keyed)
       Examples.filler "out.xlsx" ∅
     = (Raise TypeError, ∅).
Proof. repeat split; vm_compute; reflexivity. Qed.

(** C5 (as amended). Under the same conditions the loop goes through the
    union of the keys in ascending order, code point order for text and
    numeric order for numbers: the rows are the records of the links
    taken in strictly ascending order of their keys, these keys being
    the members of the union, and the result does not depend on the
    order in which the set hands its elements out, so a second run on
    the same tables gives the same rows in the same order.  When the
    keys are text, each row carries its key. *)
Theorem rows_in_ascending_key_order `{PyRuntime}
    (set_iter set_iter' : list value -> list value)
    (self : TableFiller.t) (complot layer : DataFrame) :
  (forall l, set_iter l ≡ₚ l) ->
  (forall l, set_iter' l ≡ₚ l) ->
  TableFiller.complot_df self = Some complot ->
  TableFiller.layer_df self = Some layer ->
  NoDup (df_columns complot) ->
  NoDup (df_columns layer) ->
  df_has_column complot KEY = true ->
  df_has_column layer KEY = true ->
  sortable_keys complot layer ->
  exists (links : list value) (keys : list pkey) (rows : list dict)
         (perfect partial : nat) (self' : TableFiller.t),
    Gui.process_matches set_iter self
    = Ok (perfect, partial, length rows, self')
    /\ TableFiller.filled_df self' = Some (df_of_dicts rows)
    /\ rows = record_of complot layer <$> links
    /\ as_key <$> links = Some <$> keys
    /\ Sorted key_lt keys
    /\ list_to_set keys = all_keys complot ∪ all_keys layer
    /\ (text_keys complot -> text_keys layer ->
        row_key <$> rows = Some <$> links)
    /\ Gui.process_matches set_iter' self = Gui.process_matches set_iter self.
Proof.
  intros Hperm Hperm' Hcdf Hldf _ _ Hc Hl Hsort.
  destruct (process_matches_sortable set_iter self complot layer
              Hperm Hcdf Hldf Hc Hl Hsort)
    as (links & keys & st & Hs & Hkeys & Hsorted & _ & Hset & Hloop & Hrows
        & Hrun & Htext).
  destruct (process_matches_sortable set_iter' self complot layer
              Hperm' Hcdf Hldf Hc Hl Hsort)
    as (links' & _ & st' & Hs' & _ & _ & _ & _ & Hloop' & _ & Hrun' & _).
  assert (links' = links) as -> by congruence.
  assert (st' = st) as -> by congruence.
  assert (length (TableFiller.rows st) = length links) as Hlen
    by (by rewrite Hrows, length_fmap).
  exists links, keys, (TableFiller.rows st), (TableFiller.perfect_matches st),
    (TableFiller.partial_matches st).
  eexists. rewrite Hlen. split; [exact Hrun|].
  cbn [TableFiller.filled_df].
  split; [done|]. split; [done|]. split; [done|]. split; [done|].
  split; [done|]. split; [done|]. by rewrite Hrun, Hrun'.
Qed.

(** C5 (as stated, fails). A layer table whose key column holds the text
    B2 and the number 3, beside a complot table with the key A1: the
    three keys cannot be put in order, [sorted] raises [TypeError] in
    whatever order the set hands them out, and the run ends there with
    no record emitted. *)
Lemma mixed_keys_are_not_sorted :
  sorted (set_union (link_set Cases.text_keyed) (link_set Cases.mixed_keyed))
  = Raise TypeError
  /\ sorted (reverse (set_union (link_set Cases.text_keyed)
                        (link_set Cases.mixed_keyed)))
     = Raise TypeError
  /\ @Gui.process_matches Examples.rt (fun l => l)
       (Examples.loaded Cases.text_keyed Cases.mixed_keyed)
     = Raise TypeError
  /\ @Gui.process_matches Examples.rt reverse
       (Examples.loaded Cases.text_keyed Cases.mixed_keyed)
     = Raise TypeError
  /\ @Enhanced.run Examples.rt (fun l => l)
       (Examples.env_of Cases.text_keyed Cases.mixed_keyed)
       Examples.filler "out.xlsx" ∅
     = (Ok false, ∅).
Proof. repeat split; vm_compute; reflexivity. Qed.


(** ** A table without the key column *)

(** Without the key column in the complot table [process_matches] raises
    at its first statement. *)
Lemma process_matches_without_key `{PyRuntime}
    (set_iter : list value -> list value) (self : TableFiller.t)
    (complot : DataFrame) :
  TableFiller.complot_df self = Some complot ->
  df_has_column complot KEY = false ->
  Gui.process_matches set_iter self = Raise KeyError.
Proof.
  intros Hdf Hk. unfold Gui.process_matches. rewrite Hdf. csimpl.
  unfold TableFiller.links_of, df_getitem.
  unfold df_has_column in Hk. apply bool_decide_eq_false in Hk.
  destruct (col_index (df_columns complot) KEY) as [i|]; [|reflexivity].
  destruct Hk. by exists i.
Qed.

(** C6 (fails on the code). The complot table has no key column and the
    layer table holds the keys A1 and B2.  [clean_data], which tests
    [field in columns] before touching the key column, goes through; then
    [process_matches] indexes the column without such a test and the run
    ends in [KeyError], with no file written, where the specification
    wants a layer-only record for each of the two keys. *)
Theorem missing_key_column_raises :
  is_Ok (@TableFiller.clean_data Examples.rt
           (TableFiller.mk "complot.csv" "layer.xlsx" "rec.xlsx"
              (Some Examples.complot_without_key) (Some Examples.layer)
              (Some Examples.template) None [])) = true
  /\ @Gui.run Examples.rt (fun l => l)
       (Examples.env_of Examples.complot_without_key Examples.layer)
       Examples.filler "out.xlsx" ∅
     = (Raise KeyError, ∅)
  /\ @Enhanced.run Examples.rt (fun l => l)
       (Examples.env_of Examples.complot_without_key Examples.layer)
       Examples.filler "out.xlsx" ∅
     = (Ok false, ∅).
Proof. repeat split; vm_compute; reflexivity. Qed.

(** The earlier script does test for the key column when it collects the
    links, and then looks every link up in both tables without the test. *)
Lemma script_guards_collection_only :
  Script.all_file_links Examples.complot_without_key Examples.layer
  = Ok [VStr "B2"; VStr "A1"]
  /\ Script.find_matches Examples.complot_without_key Examples.layer
       (VStr "B2") = Raise KeyError.
Proof. split; vm_compute; reflexivity. Qed.

(** ** Writing the results *)

(** What a failed [to_excel] leaves: the files as they were, or with a
    truncated workbook under the path; no text file either way. *)
Lemma to_excel_Raise (env : Env) (df : DataFrame) (path : string)
    (fs fs1 : gmap string file) (e : exn) :
  to_excel env df path fs = (Raise e, fs1) ->
  exists left_on_disk : option DataFrame,
    to_excel_outcome env df path = Failed e left_on_disk
    /\ fs1 = match left_on_disk with
             | Some truncated => <[path := Workbook truncated]> fs
             | None => fs
             end.
Proof.
  unfold to_excel.
  destruct (to_excel_outcome env df path) as [|e' [truncated|]];
    [discriminate| |]; intros [= <- <-]; by eexists.
Qed.

(** C8. When [to_excel] raises, both [save_results] raise the same
    exception and stop there, with the files as [to_excel] left them:
    the report is opened only after the table has been written, so it is
    not written.  No path holds a text file it did not hold before, and
    no path but the output path has changed (under the output path
    [to_excel] may have left a truncated workbook). *)
Theorem failed_table_write_leaves_no_report (env : Env)
    (self : TableFiller.t) (filled : DataFrame) (output_path : string)
    (fs fs1 : gmap string file) (e : exn) :
  TableFiller.filled_df self = Some filled ->
  to_excel env filled output_path fs = (Raise e, fs1) ->
  Gui.save_results env self output_path fs = (Raise e, fs1)
  /\ Enhanced.save_results env self output_path fs = (Raise e, fs1)
  /\ (forall (path : string) (writes : list string),
        fs1 !! path = Some (TextFile writes) ->
        fs !! path = Some (TextFile writes))
  /\ (forall path : string,
        path <> output_path -> fs1 !! path = fs !! path).
Proof.
  intros Hdf Hex. split; [|split].
  - unfold Gui.save_results, io_lift. rewrite Hdf.
    unfold mbind, io_bind. by rewrite Hex.
  - unfold Enhanced.save_results, io_lift. rewrite Hdf.
    unfold mbind, io_bind. by rewrite Hex.
  - apply to_excel_Raise in Hex as ([truncated|] & _ & ->); [|done].
    split.
    + intros path writes.
      destruct (decide (path = output_path)) as [->|Hne].
      * by rewrite lookup_insert_eq.
      * by rewrite lookup_insert_ne.
    + intros path Hne. by rewrite lookup_insert_ne.
Qed.

(** ** The report *)

Section Paths.
Context `{PyRuntime}.
Import TableFiller.

Lemma gui_load_data_paths (env : Env) (self self' : t) :
  Gui.load_data env self = Ok self' -> same_paths self self'.
Proof.
  unfold Gui.load_data. intros Hrun. inv_result Hrun.
  unfold mret, result_ret in Hrun. by simplify_eq.
Qed.

Lemma clean_data_paths (self self' : t) :
  clean_data self = Ok self' ->
  same_paths self self' /\ report self' = report self
  /\ filled_df self' = filled_df self.
Proof.
  unfold clean_data. intros Hrun. inv_result Hrun.
  unfold mret, result_ret in Hrun. by simplify_eq.
Qed.

Lemma gui_process_matches_paths (set_iter : list value -> list value)
    (self self' : t) (p q n : nat) :
  Gui.process_matches set_iter self = Ok (p, q, n, self') ->
  same_paths self self'.
Proof.
  unfold Gui.process_matches. intros Hrun. inv_result Hrun.
  unfold mret, result_ret in Hrun. by simplify_eq.
Qed.

Lemma gui_save_results_report (env : Env) (self : t) (output_path : string)
    (fs fs' : gmap string file) (paths : string * string) :
  Gui.save_results env self output_path fs = (Ok paths, fs') ->
  paths = (output_path, str_replace ".xlsx" "_report.txt" output_path)
  /\ fs' !! paths.2
     = Some (TextFile (Gui.report_writes env self output_path)).
Proof.
  unfold Gui.save_results, io_lift, to_excel, write_text.
  unfold mbind, io_bind, mret, io_ret.
  destruct (filled_df self) as [filled|]; [|discriminate].
  destruct (to_excel_outcome env filled output_path) as [|e [truncated|]];
    [|discriminate..].
  destruct (open_ok env _); [|discriminate].
  intros [= <- <-]. split; [done|]. simpl. by rewrite lookup_insert_eq.
Qed.

Lemma enhanced_save_results_report (env : Env) (self : t)
    (output_path : string) (fs fs' : gmap string file)
    (paths : string * string) :
  Enhanced.save_results env self output_path fs = (Ok paths, fs') ->
  paths = (output_path, str_replace ".xlsx" "_report.txt" output_path)
  /\ fs' !! paths.2 = Some (TextFile (Enhanced.report_writes env self)).
Proof.
  unfold Enhanced.save_results, io_lift, to_excel, write_text.
  unfold mbind, io_bind, mret, io_ret.
  destruct (filled_df self) as [filled|]; [|discriminate].
  destruct (to_excel_outcome env filled output_path) as [|e [truncated|]];
    [|discriminate..].
  destruct (open_ok env _); [|discriminate].
  intros [= <- <-]. split; [done|]. simpl. by rewrite lookup_insert_eq.
Qed.

End Paths.

Section BothReports.
Context `{PyRuntime}.
Import TableFiller.
Variable set_iter : list value -> list value.

Lemma clean_data_tables (self : t) :
  clean_data self =
    '(complot, layer) ← cleaned_tables (complot_df self) (layer_df self);
    mret (mk (complot_path self) (layer_path self)
             (recommendations_path self) (Some complot) (Some layer)
             (rec_df self) (filled_df self) (report self)).
Proof.
  unfold clean_data, cleaned_tables.
  destruct (with_columns (layer_df self)); [|reflexivity].
  destruct (with_columns (complot_df self)); [|reflexivity].
  reflexivity.
Qed.

Lemma gui_process_matches_matched (self : t) :
  Gui.process_matches set_iter self =
    '(st, _, _) ← matched set_iter (complot_df self) (layer_df self);
    mret (perfect_matches st, partial_matches st,
          df_len (df_of_dicts (rows st)),
          mk (complot_path self) (layer_path self)
             (recommendations_path self) (complot_df self) (layer_df self)
             (rec_df self) (Some (df_of_dicts (rows st))) (report self)).
Proof.
  unfold Gui.process_matches, matched.
  destruct (subscriptable (complot_df self)) as [complot|]; [|reflexivity].
  csimpl. destruct (links_of complot) as [cl|]; [|reflexivity].
  csimpl. destruct (subscriptable (layer_df self)) as [layer|]; [|reflexivity].
  csimpl. destruct (links_of layer) as [ll|]; [|reflexivity].
  csimpl. destruct (sorted _) as [links|]; [|reflexivity].
  csimpl. by destruct (process_links _ _ _ _).
Qed.

Lemma enhanced_process_matches_matched (self : t) :
  Enhanced.process_matches set_iter self =
    '(st, complot_links, layer_links) ←
      matched set_iter (complot_df self) (layer_df self);
    mret (mk (complot_path self) (layer_path self)
             (recommendations_path self) (complot_df self) (layer_df self)
             (rec_df self) (Some (df_of_dicts (rows st)))
             (report self
              ++ Enhanced.link_analysis complot_links layer_links
                   (set_union complot_links layer_links)
              ++ Enhanced.match_results (perfect_matches st)
                   (partial_matches st) (df_len (df_of_dicts (rows st))))).
Proof.
  unfold Enhanced.process_matches, matched, Enhanced.with_report.
  destruct (subscriptable (complot_df self)) as [complot|]; [|reflexivity].
  csimpl. destruct (links_of complot) as [cl|]; [|reflexivity].
  csimpl. destruct (subscriptable (layer_df self)) as [layer|]; [|reflexivity].
  csimpl. destruct (links_of layer) as [ll|]; [|reflexivity].
  csimpl. destruct (sorted _) as [links|]; [|reflexivity].
  csimpl. destruct (process_links _ _ _ _); [|reflexivity].
  csimpl. by rewrite <- app_assoc.
Qed.

End BothReports.

Lemma io_lift_bind_Ok {A B} (r : result A) (f : A -> io B)
    (fs fs' : gmap string file) (b : B) :
  (io_lift r ≫= f) fs = (Ok b, fs') ->
  exists a, r = Ok a /\ f a fs = (Ok b, fs').
Proof.
  unfold mbind, io_bind, io_lift. destruct r as [a|e]; [|discriminate].
  intros Hf. by exists a.
Qed.

Lemma io_bind_Ok {A B} (m : io A) (f : A -> io B)
    (fs fs' : gmap string file) (b : B) :
  (m ≫= f) fs = (Ok b, fs') ->
  exists a fs1, m fs = (Ok a, fs1) /\ f a fs1 = (Ok b, fs').
Proof.
  unfold mbind, io_bind. destruct (m fs) as [[a|e] fs1]; [|discriminate].
  intros Hf. by exists a, fs1.
Qed.

Section ReportOfRun.
Context `{PyRuntime}.
Import TableFiller.
Variable set_iter : list value -> list value.

(** The stages of a successful run of the GUI. *)
Lemma gui_run_stages (env : Env) (self : t) (output_path : string)
    (fs fs' : gmap string file) (s : Gui.summary) :
  Gui.run set_iter env self output_path fs = (Ok s, fs') ->
  exists (g1 g2 g3 : t) (p q n : nat) (paths : string * string),
    Gui.load_data env self = Ok g1
    /\ clean_data g1 = Ok g2
    /\ Gui.process_matches set_iter g2 = Ok (p, q, n, g3)
    /\ Gui.save_results env g3 output_path fs = (Ok paths, fs')
    /\ s = Gui.mkSummary p q n paths.1 paths.2.
Proof.
  unfold Gui.run. intros Hrun.
  apply io_lift_bind_Ok in Hrun as (g1 & Hload & Hrun).
  apply io_lift_bind_Ok in Hrun as (g2 & Hclean & Hrun).
  apply io_lift_bind_Ok in Hrun as ([[[p q] n] g3] & Hproc & Hrun).
  apply io_bind_Ok in Hrun as ([fp rp] & fs1 & Hsave & Hret).
  unfold mret, io_ret in Hret. simplify_eq.
  by exists g1, g2, g3, p, q, n, (fp, rp).
Qed.

(** The stages of a successful run of the console variant. *)
Lemma enhanced_run_stages (env : Env) (self self' : t) (output_path : string)
    (fs fs' : gmap string file) (paths : string * string) :
  Enhanced.run_body set_iter env self output_path fs
  = (Ok (paths, self'), fs') ->
  exists e1 e2 : t,
    Enhanced.load_data env self = Ok e1
    /\ clean_data e1 = Ok e2
    /\ Enhanced.process_matches set_iter e2 = Ok self'
    /\ Enhanced.save_results env self' output_path fs = (Ok paths, fs').
Proof.
  unfold Enhanced.run_body. intros Hrun.
  apply io_lift_bind_Ok in Hrun as (e1 & Hload & Hrun).
  apply io_lift_bind_Ok in Hrun as (e2 & Hclean & Hrun).
  apply io_lift_bind_Ok in Hrun as (e3 & Hproc & Hrun).
  apply io_bind_Ok in Hrun as (paths' & fs1 & Hsave & Hret).
  unfold mret, io_ret in Hret. simplify_eq.
  by exists e1, e2.
Qed.

(** Both variants load the same tables; the console variant also notes
    their sizes in four lines. *)
Lemma load_data_same_tables (env : Env) (self g1 e1 : t) :
  Gui.load_data env self = Ok g1 ->
  Enhanced.load_data env self = Ok e1 ->
  exists complot layer template : DataFrame,
    read_csv env (complot_path self) = Ok complot
    /\ read_excel env (layer_path self) = Ok layer
    /\ read_excel env (recommendations_path self) = Ok template
    /\ complot_df e1 = complot_df g1 /\ layer_df e1 = layer_df g1
    /\ report e1
       = report self
         ++ load_summary_lines (df_len complot) (df_len layer)
              (df_len template).
Proof.
  unfold Gui.load_data, Enhanced.load_data, Enhanced.with_report.
  destruct (read_csv env _) as [c|]; [|discriminate].
  destruct (read_excel env (layer_path self)) as [l|]; [|discriminate].
  destruct (read_excel env (recommendations_path self)) as [r|];
    [|discriminate].
  csimpl. intros [= <-] [= <-]. by exists c, l, r.
Qed.

(** The links the loop goes through are those of the two tables. *)
Lemma matched_links (c l : DataFrame) (st : loop_state)
    (cl ll : list value) :
  matched set_iter (Some c) (Some l) = Ok (st, cl, ll) ->
  links_of c = Ok cl /\ links_of l = Ok ll.
Proof.
  unfold matched. cbn [subscriptable]. csimpl.
  destruct (links_of c) as [cl'|]; [|discriminate]. csimpl.
  destruct (links_of l) as [ll'|]; [|discriminate]. csimpl.
  destruct (sorted _) as [links|]; [|discriminate]. csimpl.
  destruct (process_links _ _ _ _); [|discriminate]. csimpl.
  by intros [= <- <- <-].
Qed.

End ReportOfRun.

(** C7 (as amended). The report of a successful run opens with the fixed
    banner and the generation time.  In [quality_check_gui.py] it goes on
    with the three source paths and the output path and holds no counts:
    these go to the caller only.  In [scripts/auto_fill_enhanced.py] it
    goes on with one write, the lines gathered during the run joined by
    newlines: the four lines of the load summary with the numbers of rows
    of the three tables read, the five lines of the link analysis with
    the numbers of links of the cleaned tables (all, complot only, layer
    only, both), and the four lines of the counts, which are the perfect,
    partial and total counts the GUI run returns for the same input; it
    holds no paths. *)
Theorem report_of_a_successful_run `{PyRuntime}
    (set_iter : list value -> list value) (env : Env) (self : TableFiller.t)
    (output_path : string) (fs : gmap string file)
    (s : Gui.summary) (fs_gui : gmap string file)
    (paths : string * string) (self_e : TableFiller.t)
    (fs_enh : gmap string file) :
  Gui.run set_iter env self output_path fs = (Ok s, fs_gui) ->
  Enhanced.run_body set_iter env self output_path fs
  = (Ok (paths, self_e), fs_enh) ->
  fs_gui !! Gui.res_report_path s
  = Some (TextFile
      (banner_lines (now env)
       ++ path_lines (TableFiller.complot_path self)
            (TableFiller.layer_path self)
            (TableFiller.recommendations_path self) output_path))
  /\ exists (complot layer template cleaned_complot cleaned_layer : DataFrame)
            (cl ll : list value),
       read_csv env (TableFiller.complot_path self) = Ok complot
       /\ read_excel env (TableFiller.layer_path self) = Ok layer
       /\ read_excel env (TableFiller.recommendations_path self) = Ok template
       /\ TableFiller.complot_df self_e = Some cleaned_complot
       /\ TableFiller.layer_df self_e = Some cleaned_layer
       /\ TableFiller.links_of cleaned_complot = Ok cl
       /\ TableFiller.links_of cleaned_layer = Ok ll
       /\ fs_enh !! paths.2
          = Some (TextFile
              (banner_lines (now env)
               ++ [ String.concat nl
                      (TableFiller.report self
                       ++ load_summary_lines (df_len complot) (df_len layer)
                            (df_len template)
                       ++ link_analysis_lines (length (set_union cl ll))
                            (length (set_difference cl ll))
                            (length (set_difference ll cl))
                            (length (set_intersection cl ll))
                       ++ match_results_lines (Gui.res_perfect_matches s)
                            (Gui.res_partial_matches s)
                            (Gui.res_total_rows s)) ])).
Proof.
  intros Hgui Henh.
  apply gui_run_stages in Hgui
    as (g1 & g2 & g3 & p & q & n & gpaths & Hgl & Hgc & Hgp & Hgs & ->).
  apply enhanced_run_stages in Henh as (e1 & e2 & Hel & Hec & Hep & Hes).
  split.
  - cbn [Gui.res_report_path].
    apply gui_save_results_report in Hgs as [_ ->].
    apply gui_load_data_paths in Hgl as (Hc1 & Hl1 & Hr1).
    apply clean_data_paths in Hgc as ((Hc2 & Hl2 & Hr2) & _).
    apply gui_process_matches_paths in Hgp as (Hc3 & Hl3 & Hr3).
    unfold Gui.report_writes.
    by rewrite <- Hc3, <- Hl3, <- Hr3, <- Hc2, <- Hl2, <- Hr2,
      <- Hc1, <- Hl1, <- Hr1.
  - apply enhanced_save_results_report in Hes as [_ ->].
    destruct (load_data_same_tables env self g1 e1 Hgl Hel)
      as (complot & layer & template & Hrc & Hrl & Hrt & Hc1 & Hl1 & Hrep1).
    rewrite clean_data_tables in Hgc, Hec. rewrite Hc1, Hl1 in Hec.
    destruct (cleaned_tables _ _) as [[c l]|]; [|discriminate].
    unfold mbind, result_bind, mret, result_ret in Hgc, Hec.
    simplify_eq.
    rewrite gui_process_matches_matched in Hgp.
    rewrite enhanced_process_matches_matched in Hep.
    cbn [TableFiller.complot_df TableFiller.layer_df] in Hgp, Hep.
    destruct (matched set_iter (Some c) (Some l)) as [[[st cl] ll]|] eqn:Hm;
      [|discriminate].
    apply matched_links in Hm as [Hcl Hll].
    unfold mbind, result_bind, mret, result_ret in Hgp, Hep.
    simplify_eq.
    exists complot, layer, template, c, l, cl, ll.
    split; [done|]. split; [done|]. split; [done|]. split; [done|].
    split; [done|]. split; [done|]. split; [done|].
    unfold Enhanced.report_writes.
    cbn [TableFiller.report Gui.res_perfect_matches Gui.res_partial_matches
         Gui.res_total_rows].
    rewrite Hrep1. by rewrite <- !app_assoc.
Qed.

(** C7 (as stated, fails). Two runs of the GUI on the same paths at the
    same time, one with a partial match among three rows and one with a
    perfect match among two, write the same report: the banner, the time
    and the four paths.  The report holds no counts. *)
Lemma gui_report_holds_no_counts :
  (@Gui.run Examples.rt (fun l => l)
     (Examples.env_of Examples.complot Examples.layer)
     Examples.filler "out.xlsx" ∅).1
  = Ok (Gui.mkSummary 0 1 3 "out.xlsx" "out_report.txt")
  /\ (@Gui.run Examples.rt (fun l => l)
        (Examples.env_of Examples.complot Examples.layer_agreeing)
        Examples.filler "out.xlsx" ∅).1
     = Ok (Gui.mkSummary 1 0 2 "out.xlsx" "out_report.txt")
  /\ (@Gui.run Examples.rt (fun l => l)
        (Examples.env_of Examples.complot Examples.layer)
        Examples.filler "out.xlsx" ∅).2 !! "out_report.txt"
     = Some (TextFile Examples.gui_report)
  /\ (@Gui.run Examples.rt (fun l => l)
        (Examples.env_of Examples.complot Examples.layer_agreeing)
        Examples.filler "out.xlsx" ∅).2 !! "out_report.txt"
     = Some (TextFile Examples.gui_report).
Proof. repeat split; vm_compute; reflexivity. Qed.

(** ** The theorems on the example tables *)

(** Key D4, with a different block, parcel, plot and address in the two
    tables: one partial match, and a note that names the four fields, the
    first three with their two values. *)
Lemma note_of_key_in_both_sources_example :
  exists row : dict,
    @TableFiller.process_link Examples.rt Cases.cleaned_differing_complot
      Cases.cleaned_differing_layer (TableFiller.mkLoop [] 0 0) (VStr "D4")
    = Ok (TableFiller.mkLoop ([] ++ [row]) 0 1)
    /\ dict_get row NOTES
       = Some (VStr ("אי התאמה: "
                     +:+ "גוש (12.0 ≠ 13.0), חלקה (5.0 ≠ 6.0), "
                     +:+ "מגרש (1.0 ≠ 2.0), כתובת"))
    /\ (dict_get row (comparison_of GUSH), dict_get row (comparison_of HELKA),
        dict_get row (comparison_of MIGRASH),
        dict_get row (comparison_of ADDRESS))
       = (Some (VBool false), Some (VBool false), Some (VBool false),
          Some (VBool false)).
Proof.
  apply (@note_of_key_in_both_sources Examples.rt
           Cases.cleaned_differing_complot Cases.cleaned_differing_layer
           (TableFiller.mkLoop [] 0 0) (VStr "D4")
           Cases.d4_complot Cases.d4_layer);
    try (vm_compute; reflexivity);
    apply (@bool_decide_unpack _ (NoDup_dec _)); vm_compute; exact I.
Defined.

(** Key A1 of the example tables, block 12 on both sides and parcel 5
    against 6: a partial match whose note names the parcel alone.  With a
    layer that agrees on A1: a perfect match and the full-match note. *)
Lemma notes_of_key_A1 :
  (exists row : dict,
     @TableFiller.process_link Examples.rt Examples.cleaned_complot
       Examples.cleaned_layer (TableFiller.mkLoop [] 0 0) (VStr "A1")
     = Ok (TableFiller.mkLoop [row] 0 1)
     /\ dict_get row NOTES
        = Some (VStr ("אי התאמה: " +:+ "חלקה (5.0 ≠ 6.0)")))
  /\ (exists row : dict,
        @TableFiller.process_link Examples.rt Examples.cleaned_complot
          Cases.agreeing_layer (TableFiller.mkLoop [] 0 0) (VStr "A1")
        = Ok (TableFiller.mkLoop [row] 1 0)
        /\ dict_get row NOTES = Some (VStr "התאמה מלאה")).
Proof. split; eexists; split; vm_compute; reflexivity. Qed.

(** The example tables, cleaned: three keys in the union, three rows. *)
Lemma one_record_per_key_example :
  exists (links : list value) (keys : list pkey) (rows : list dict)
         (perfect partial : nat) (self' : TableFiller.t),
    @Gui.process_matches Examples.rt (fun l => l)
      (Examples.loaded Examples.complot Examples.layer)
    = Ok (perfect, partial, length rows, self')
    /\ TableFiller.filled_df self' = Some (df_of_dicts rows)
    /\ df_len (df_of_dicts rows) = length rows
    /\ rows = @record_of Examples.rt Examples.cleaned_complot
                Examples.cleaned_layer <$> links
    /\ as_key <$> links = Some <$> keys
    /\ NoDup keys
    /\ list_to_set keys
       = all_keys Examples.cleaned_complot ∪ all_keys Examples.cleaned_layer
    /\ length rows
       = size (all_keys Examples.cleaned_complot
               ∪ all_keys Examples.cleaned_layer)
    /\ (text_keys Examples.cleaned_complot ->
        text_keys Examples.cleaned_layer ->
        row_key <$> rows = Some <$> links).
Proof.
  apply (@one_record_per_key Examples.rt (fun l => l)
           (Examples.loaded Examples.complot Examples.layer)
           Examples.cleaned_complot Examples.cleaned_layer).
  - intros l. reflexivity.
  - vm_compute. reflexivity.
  - vm_compute. reflexivity.
  - apply (@bool_decide_unpack _ (NoDup_dec _)). vm_compute. exact I.
  - apply (@bool_decide_unpack _ (NoDup_dec _)). vm_compute. exact I.
  - vm_compute. reflexivity.
  - vm_compute. reflexivity.
  - left. split; apply (@bool_decide_unpack _ (text_keys_dec _));
      vm_compute; exact I.
Defined.

(** The example tables, with the set read in table order and in reverse
    table order: the same rows, keys ascending. *)
Lemma rows_in_ascending_key_order_example :
  exists (links : list value) (keys : list pkey) (rows : list dict)
         (perfect partial : nat) (self' : TableFiller.t),
    @Gui.process_matches Examples.rt (fun l => l)
      (Examples.loaded Examples.complot Examples.layer)
    = Ok (perfect, partial, length rows, self')
    /\ TableFiller.filled_df self' = Some (df_of_dicts rows)
    /\ rows = @record_of Examples.rt Examples.cleaned_complot
                Examples.cleaned_layer <$> links
    /\ as_key <$> links = Some <$> keys
    /\ Sorted key_lt keys
    /\ list_to_set keys
       = all_keys Examples.cleaned_complot ∪ all_keys Examples.cleaned_layer
    /\ (text_keys Examples.cleaned_complot ->
        text_keys Examples.cleaned_layer ->
        row_key <$> rows = Some <$> links)
    /\ @Gui.process_matches Examples.rt reverse
         (Examples.loaded Examples.complot Examples.layer)
       = @Gui.process_matches Examples.rt (fun l => l)
           (Examples.loaded Examples.complot Examples.layer).
Proof.
  apply (@rows_in_ascending_key_order Examples.rt (fun l => l) reverse
           (Examples.loaded Examples.complot Examples.layer)
           Examples.cleaned_complot Examples.cleaned_layer).
  - intros l. reflexivity.
  - intros l. apply reverse_Permutation.
  - vm_compute. reflexivity.
  - vm_compute. reflexivity.
  - apply (@bool_decide_unpack _ (NoDup_dec _)). vm_compute. exact I.
  - apply (@bool_decide_unpack _ (NoDup_dec _)). vm_compute. exact I.
  - vm_compute. reflexivity.
  - vm_compute. reflexivity.
  - left. split; apply (@bool_decide_unpack _ (text_keys_dec _));
      vm_compute; exact I.
Defined.

(** Numeric keys: 1, 2 and 3 in the complot table, 2.0 and 10 in the
    layer table.  Four rows, for the keys 1, 2, 3 and 10 in this order
    (as text, 10 would come before 2), key 2 found in both tables. *)
Lemma numeric_keys_in_numeric_order :
  number_keys Cases.numbered_complot
  /\ number_keys Cases.numbered_layer
  /\ (exists self' : TableFiller.t,
        @Gui.process_matches Examples.rt reverse
          (Examples.loaded Cases.numbered_complot Cases.numbered_layer)
        = Ok (1%nat, 0%nat, 4%nat, self'))
  /\ sorted (reverse (set_union (link_set Cases.numbered_complot)
                        (link_set Cases.numbered_layer)))
     = Ok [VInt 1; VInt 2; VInt 3;
           VFloat (binary_normalize 53 1024 10 0 false)].
Proof.
  split; [|split; [|split]].
  - apply (@bool_decide_unpack _ (number_keys_dec _)). vm_compute. exact I.
  - apply (@bool_decide_unpack _ (number_keys_dec _)). vm_compute. exact I.
  - eexists. vm_compute. reflexivity.
  - vm_compute. reflexivity.
Qed.

(** A cell the engine refuses: [to_excel] raises and leaves the sheet as
    far as it got, and no report comes after it. *)
Lemma failed_table_write_leaves_no_report_example :
  Gui.save_results Saved.env_illegal_cell Examples.ready "out.xlsx" ∅
  = (Raise IllegalCharacterError,
     <["out.xlsx" := Workbook Saved.truncated]> ∅)
  /\ Enhanced.save_results Saved.env_illegal_cell Examples.ready
       "out.xlsx" ∅
     = (Raise IllegalCharacterError,
        <["out.xlsx" := Workbook Saved.truncated]> ∅)
  /\ (forall (path : string) (writes : list string),
        (<["out.xlsx" := Workbook Saved.truncated]> ∅ : gmap string file)
          !! path = Some (TextFile writes) ->
        (∅ : gmap string file) !! path = Some (TextFile writes))
  /\ (forall path : string,
        path <> "out.xlsx" ->
        (<["out.xlsx" := Workbook Saved.truncated]> ∅ : gmap string file)
          !! path = (∅ : gmap string file) !! path).
Proof.
  apply (failed_table_write_leaves_no_report Saved.env_illegal_cell
           Examples.ready Examples.template "out.xlsx" ∅
           (<["out.xlsx" := Workbook Saved.truncated]> ∅)
           IllegalCharacterError);
    reflexivity.
Defined.

(** The two reports for the example tables. *)
Lemma report_of_a_successful_run_example :
  Examples.gui_outcome.2 !! Gui.res_report_path Examples.gui_summary
  = Some (TextFile
      (banner_lines (now (Examples.env_of Examples.complot Examples.layer))
       ++ path_lines "complot.csv" "layer.xlsx" "rec.xlsx" "out.xlsx"))
  /\ exists (complot layer template cleaned_complot cleaned_layer : DataFrame)
            (cl ll : list value),
       read_csv (Examples.env_of Examples.complot Examples.layer)
         "complot.csv" = Ok complot
       /\ read_excel (Examples.env_of Examples.complot Examples.layer)
            "layer.xlsx" = Ok layer
       /\ read_excel (Examples.env_of Examples.complot Examples.layer)
            "rec.xlsx" = Ok template
       /\ TableFiller.complot_df Examples.enhanced_self = Some cleaned_complot
       /\ TableFiller.layer_df Examples.enhanced_self = Some cleaned_layer
       /\ TableFiller.links_of cleaned_complot = Ok cl
       /\ TableFiller.links_of cleaned_layer = Ok ll
       /\ Examples.enhanced_outcome.2 !! "out_report.txt"
          = Some (TextFile
              (banner_lines
                 (now (Examples.env_of Examples.complot Examples.layer))
               ++ [ String.concat nl
                      ([]
                       ++ load_summary_lines (df_len complot) (df_len layer)
                            (df_len template)
                       ++ link_analysis_lines (length (set_union cl ll))
                            (length (set_difference cl ll))
                            (length (set_difference ll cl))
                            (length (set_intersection cl ll))
                       ++ match_results_lines 0 1 3) ])).
Proof.
  apply (@report_of_a_successful_run Examples.rt (fun l => l)
           (Examples.env_of Examples.complot Examples.layer)
           Examples.filler "out.xlsx" ∅
           Examples.gui_summary Examples.gui_outcome.2
           ("out.xlsx", "out_report.txt") Examples.enhanced_self
           Examples.enhanced_outcome.2);
    vm_compute; reflexivity.
Defined.

(** The console report for the example tables, as text. *)
Lemma enhanced_report_text :
  Examples.enhanced_outcome.2 !! "out_report.txt"
  = Some (TextFile
      [ "Automatic Table Filling Report" +:+ nl;
        "==================================================" +:+ nl;
        "Generated: 2025-01-01 12:00:00" +:+ nl;
        "==================================================" +:+ nl +:+ nl;
        "Data Loading Summary:" +:+ nl
        +:+ "- Complot records: 3" +:+ nl
        +:+ "- Layer records: 3" +:+ nl
        +:+ "- Recommendations template rows: 0" +:+ nl
        +:+ nl +:+ "File Link Analysis:" +:+ nl
        +:+ "- Total unique links: 3" +:+ nl
        +:+ "- Complot only: 1" +:+ nl
        +:+ "- Layer only: 1" +:+ nl
        +:+ "- In both sources: 1" +:+ nl
        +:+ nl +:+ "Match Results:" +:+ nl
        +:+ "- Perfect matches: 0" +:+ nl
        +:+ "- Partial matches: 1" +:+ nl
        +:+ "- Total rows: 3" ]).
Proof. vm_compute. reflexivity. Qed.

(** * Further properties *)

(** ** Normalising and comparing cells *)

Lemma clean_null_marker `{PyRuntime} (v : value) :
  is_null_marker v = true -> TableFiller.clean_numeric_field v = np_nan.
Proof.
  unfold is_null_marker, TableFiller.clean_numeric_field. by intros ->.
Qed.

Lemma clean_parsed `{PyRuntime} (v : value) (f : spec_float) :
  is_null_marker v = false -> py_float v = Ok f ->
  TableFiller.clean_numeric_field v = VFloat f.
Proof.
  unfold is_null_marker, TableFiller.clean_numeric_field.
  by intros -> ->.
Qed.

Lemma clean_unparsed `{PyRuntime} (v : value) (e : exn) :
  is_null_marker v = false -> py_float v = Raise e ->
  TableFiller.clean_numeric_field v = v.
Proof.
  unfold is_null_marker, TableFiller.clean_numeric_field.
  by intros -> ->.
Qed.

Lemma clean_float `{PyRuntime} (f : spec_float) :
  TableFiller.clean_numeric_field (VFloat f) = VFloat f.
Proof. destruct f; reflexivity. Qed.

(** X1. Cleaning a cell twice is cleaning it once. *)
Theorem clean_numeric_field_idempotent `{PyRuntime} (v : value) :
  TableFiller.clean_numeric_field (TableFiller.clean_numeric_field v)
  = TableFiller.clean_numeric_field v.
Proof.
  destruct (is_null_marker v) eqn:Hmark.
  - by rewrite (clean_null_marker v Hmark).
  - destruct (py_float v) as [f|e] eqn:Hf.
    + rewrite (clean_parsed v f Hmark Hf). apply clean_float.
    + by rewrite !(clean_unparsed v e Hmark Hf).
Qed.

(** A cell that is absent once cleaned is NaN: [None] does not come out. *)
Lemma clean_absent_is_nan `{PyRuntime} (v : value) :
  isna (TableFiller.clean_numeric_field v) = true ->
  TableFiller.clean_numeric_field v = np_nan.
Proof.
  destruct (is_null_marker v) eqn:Hmark.
  - by rewrite (clean_null_marker v Hmark).
  - destruct (py_float v) as [f|e] eqn:Hf.
    + rewrite (clean_parsed v f Hmark Hf). by destruct f.
    + rewrite (clean_unparsed v e Hmark Hf). intros Hna.
      unfold is_null_marker in Hmark. by rewrite Hna in Hmark.
Qed.

(** X2. After cleaning, every spelling of a missing number is the same
    absent value: a cell that held a null marker compares equal to another
    cell exactly when that one is absent too once cleaned, and a cleaned
    cell that is absent is NaN, never [None]. *)
Theorem null_markers_compare_as_absent `{PyRuntime} (a b : value) :
  is_null_marker a = true ->
  TableFiller.compare_values (TableFiller.clean_numeric_field a)
    (TableFiller.clean_numeric_field b)
  = isna (TableFiller.clean_numeric_field b)
  /\ (isna (TableFiller.clean_numeric_field b) = true ->
      TableFiller.clean_numeric_field b = np_nan).
Proof.
  intros Ha. rewrite (clean_null_marker a Ha). split.
  - unfold TableFiller.compare_values. simpl.
    by destruct (isna (TableFiller.clean_numeric_field b)).
  - apply clean_absent_is_nan.
Qed.

(** The placeholder of the complot export against an empty layer cell. *)
Lemma null_markers_compare_as_absent_example :
  @TableFiller.compare_values AsciiRuntime.runtime
    (@TableFiller.clean_numeric_field AsciiRuntime.runtime (VStr "<Null>"))
    (@TableFiller.clean_numeric_field AsciiRuntime.runtime (VStr ""))
  = isna (@TableFiller.clean_numeric_field AsciiRuntime.runtime (VStr ""))
  /\ (isna (@TableFiller.clean_numeric_field AsciiRuntime.runtime (VStr ""))
      = true ->
      @TableFiller.clean_numeric_field AsciiRuntime.runtime (VStr "") = np_nan).
Proof.
  apply (@null_markers_compare_as_absent AsciiRuntime.runtime
           (VStr "<Null>") (VStr "")).
  reflexivity.
Defined.

(** X3. The earlier script cleans a cell as [TableFiller] does, except
    the empty string, which it hands back. *)
Theorem script_clean_numeric_field_differs_on_empty_only `{PyRuntime}
    (v : value) :
  Script.clean_numeric_field v
  = if bool_decide (v = VStr "") then VStr ""
    else TableFiller.clean_numeric_field v.
Proof.
  unfold Script.clean_numeric_field, TableFiller.clean_numeric_field.
  rewrite (py_eqb_str_r v "").
  destruct (bool_decide (v = VStr "")) eqn:Hv.
  - apply bool_decide_eq_true in Hv as ->. simpl.
    by rewrite float_of_str_empty.
  - by rewrite orb_false_r.
Qed.

(** X4. Two cells the earlier script finds equal are equal for
    [TableFiller] too: lower-casing only merges more. *)
Theorem script_equal_implies_equal `{PyRuntime} (a b : value) :
  Script.compare_values a b = true ->
  TableFiller.compare_values a b = true.
Proof.
  unfold Script.compare_values, TableFiller.compare_values.
  destruct (isna a && isna b); [done|].
  destruct (isna a || isna b); [done|].
  intros Heq%String.eqb_eq. rewrite Heq. apply String.eqb_refl.
Qed.

Lemma script_equal_implies_equal_example :
  @TableFiller.compare_values AsciiRuntime.runtime (VStr " 12") (VStr "12 ")
  = true.
Proof.
  apply (@script_equal_implies_equal AsciiRuntime.runtime). reflexivity.
Defined.

(** ** [clean_data] *)

Lemma as_inferred_nan (cells : list value) : as_inferred cells np_nan = np_nan.
Proof. unfold as_inferred. by destruct (floats_column cells). Qed.

Lemma cell_insert (v : value) (r : list value) (i j : nat) :
  cell (<[i := v]> r) j
  = if decide (i = j)
    then (if decide (i < length r)%nat then v else np_nan)
    else cell r j.
Proof.
  unfold cell. destruct (decide (i = j)) as [->|Hne].
  - destruct (decide (j < length r)%nat).
    + by rewrite list_lookup_insert_eq.
    + rewrite list_insert_ge by lia.
      by rewrite (proj2 (lookup_ge_None r j)) by lia.
  - by rewrite list_lookup_insert_ne.
Qed.

Lemma cell_short (r : list value) (i : nat) :
  ~ (i < length r)%nat -> cell r i = np_nan.
Proof.
  intros Hi. unfold cell. by rewrite (proj2 (lookup_ge_None r i)) by lia.
Qed.

(** One guarded [apply]: the column named gets the results, the others
    stay, and so do the column index and the number of rows. *)
Lemma getitem_apply_if_present (f : value -> value) (k k' : string)
    (df : DataFrame) :
  f np_nan = np_nan ->
  df_getitem (df_apply_if_present f k df) k'
  = if bool_decide (k = k') then applied f (df_getitem df k')
    else df_getitem df k'.
Proof.
  intros Hf. unfold df_apply_if_present, df_getitem.
  destruct (col_index (df_columns df) k) as [i|] eqn:Hi; simpl.
  - destruct (col_index (df_columns df) k') as [j|] eqn:Hj.
    + case_bool_decide as Hk.
      * subst k'. simplify_eq. simpl. f_equal. unfold pd_infer.
        rewrite <- !list_fmap_compose. apply list_fmap_ext.
        intros _ r _. simpl. rewrite cell_insert, decide_True by done.
        destruct (decide (i < length r)%nat) as [Hlt|Hge]; [done|].
        by rewrite (cell_short r i Hge), Hf, as_inferred_nan.
      * f_equal. rewrite <- list_fmap_compose. apply list_fmap_ext.
        intros _ r _. simpl. rewrite cell_insert.
        rewrite decide_False; [done|]. intros ->.
        by apply Hk, (col_index_inj (df_columns df) k k' j).
    + by case_bool_decide.
  - case_bool_decide as Hk; [|done]. subst k'. by rewrite Hi.
Qed.

Lemma shape_apply_if_present (f : value -> value) (k : string)
    (df : DataFrame) :
  df_columns (df_apply_if_present f k df) = df_columns df
  /\ df_len (df_apply_if_present f k df) = df_len df.
Proof.
  unfold df_apply_if_present, df_len.
  destruct (col_index (df_columns df) k); simpl; [|done].
  by rewrite length_fmap.
Qed.

Lemma clean_field_fold `{PyRuntime} (f : value -> value)
    (fields : list string) (complot layer : DataFrame) :
  fold_left (TableFiller.clean_field f) fields (complot, layer)
  = (apply_fields f fields complot, apply_fields f fields layer).
Proof.
  revert complot layer. induction fields as [|a fields IH]; intros; [done|].
  simpl. by rewrite IH.
Qed.

Lemma getitem_apply_fields (f : value -> value) (fields : list string)
    (k : string) (df : DataFrame) :
  f np_nan = np_nan -> NoDup fields ->
  df_getitem (apply_fields f fields df) k
  = if bool_decide (k ∈ fields) then applied f (df_getitem df k)
    else df_getitem df k.
Proof.
  intros Hf Hnd. revert df.
  induction Hnd as [|a fields Ha Hnd IH]; intros df; [done|].
  unfold apply_fields in *. simpl. rewrite IH.
  rewrite !(getitem_apply_if_present f a k _ Hf).
  destruct (decide (a = k)) as [->|Hne].
  - rewrite (bool_decide_eq_false_2 _ Ha).
    rewrite (bool_decide_eq_true_2 (k = k)) by done.
    rewrite (bool_decide_eq_true_2 (k ∈ k :: fields)); [done | by left].
  - rewrite (bool_decide_eq_false_2 (a = k)) by done.
    apply (f_equal (fun b : bool =>
             if b then applied f (df_getitem df k) else df_getitem df k)).
    apply bool_decide_ext. rewrite elem_of_cons. split; [by right|].
    by intros [->|?].
Qed.

Lemma shape_apply_fields (f : value -> value) (fields : list string)
    (df : DataFrame) :
  df_columns (apply_fields f fields df) = df_columns df
  /\ df_len (apply_fields f fields df) = df_len df.
Proof.
  revert df. induction fields as [|a fields IH]; intros df; [done|].
  unfold apply_fields in *. simpl.
  destruct (IH (df_apply_if_present f a df)) as [-> ->].
  apply shape_apply_if_present.
Qed.

Lemma cleaned_tables_fields `{PyRuntime} (complot layer : DataFrame) :
  cleaned_tables (Some complot) (Some layer)
  = Ok (apply_fields TableFiller.strip_if_str TableFiller.text_fields
          (apply_fields TableFiller.clean_numeric_field
             TableFiller.numeric_fields complot),
        apply_fields TableFiller.strip_if_str TableFiller.text_fields
          (apply_fields TableFiller.clean_numeric_field
             TableFiller.numeric_fields layer)).
Proof.
  unfold cleaned_tables, TableFiller.with_columns.
  unfold mbind, result_bind, mret, result_ret.
  by rewrite !clean_field_fold.
Qed.

(** The two loops of [clean_data] on one table. *)
Lemma apply_fields_cleaned_as `{PyRuntime} (df : DataFrame) :
  cleaned_as df
    (apply_fields TableFiller.strip_if_str TableFiller.text_fields
       (apply_fields TableFiller.clean_numeric_field
          TableFiller.numeric_fields df)).
Proof.
  assert (NoDup TableFiller.numeric_fields) as Hnum
    by (apply (@bool_decide_unpack _ (NoDup_dec _)); vm_compute; exact I).
  assert (NoDup TableFiller.text_fields) as Htxt
    by (apply (@bool_decide_unpack _ (NoDup_dec _)); vm_compute; exact I).
  assert (forall k : string,
    df_getitem
      (apply_fields TableFiller.strip_if_str TableFiller.text_fields
         (apply_fields TableFiller.clean_numeric_field
            TableFiller.numeric_fields df)) k
    = if bool_decide (k ∈ TableFiller.text_fields)
      then applied TableFiller.strip_if_str
             (if bool_decide (k ∈ TableFiller.numeric_fields)
              then applied TableFiller.clean_numeric_field (df_getitem df k)
              else df_getitem df k)
      else if bool_decide (k ∈ TableFiller.numeric_fields)
      then applied TableFiller.clean_numeric_field (df_getitem df k)
      else df_getitem df k) as Hcells.
  { intros k. rewrite getitem_apply_fields by done.
    by rewrite getitem_apply_fields by done. }
  unfold cleaned_as. split; [|split; [|split; [|split]]].
  - rewrite (proj1 (shape_apply_fields _ _ _)).
    apply (proj1 (shape_apply_fields _ _ _)).
  - rewrite (proj2 (shape_apply_fields _ _ _)).
    apply (proj2 (shape_apply_fields _ _ _)).
  - intros k Hk. rewrite Hcells.
    rewrite !elem_of_cons, elem_of_nil in Hk.
    by destruct Hk as [->|[->|[->|[]]]].
  - intros k Hk. rewrite Hcells.
    rewrite !elem_of_cons, elem_of_nil in Hk.
    by destruct Hk as [->|[->|[]]].
  - intros k Hk. rewrite Hcells.
    rewrite !not_elem_of_cons in Hk.
    destruct Hk as (Hg & Hh & Hm & Ha & Hk & _).
    rewrite bool_decide_eq_false_2.
    + rewrite bool_decide_eq_false_2; [done|].
      unfold TableFiller.numeric_fields.
      rewrite !not_elem_of_cons. split_and!; try done. apply not_elem_of_nil.
    + unfold TableFiller.text_fields.
      rewrite !not_elem_of_cons. split_and!; try done. apply not_elem_of_nil.
Qed.

(** X5. Once both tables are loaded, with column labels that are
    pairwise distinct, [clean_data] goes through whatever columns they
    have.  It leaves the template alone and keeps the columns and the
    number of rows of both tables; the cells of the block, parcel and
    plot columns become their [clean_numeric_field], the text cells of
    the address and key columns are stripped, each of these five columns
    being rebuilt from the results as pandas builds a column, and every
    other column keeps its cells. *)
Theorem clean_data_cleans_five_columns `{PyRuntime} (self : TableFiller.t)
    (complot layer : DataFrame) :
  TableFiller.complot_df self = Some complot ->
  TableFiller.layer_df self = Some layer ->
  NoDup (df_columns complot) ->
  NoDup (df_columns layer) ->
  exists (self' : TableFiller.t) (complot' layer' : DataFrame),
    TableFiller.clean_data self = Ok self'
    /\ TableFiller.complot_df self' = Some complot'
    /\ TableFiller.layer_df self' = Some layer'
    /\ TableFiller.rec_df self' = TableFiller.rec_df self
    /\ cleaned_as complot complot'
    /\ cleaned_as layer layer'.
Proof.
  intros Hc Hl _ _.
  eexists _, _, _. rewrite clean_data_tables, Hc, Hl, cleaned_tables_fields.
  unfold mbind, result_bind, mret, result_ret.
  split; [reflexivity|]. cbn [TableFiller.complot_df TableFiller.layer_df
                               TableFiller.rec_df].
  split; [reflexivity|]. split; [reflexivity|]. split; [reflexivity|].
  split; apply apply_fields_cleaned_as.
Qed.

Lemma clean_data_cleans_five_columns_example :
  exists (self' : TableFiller.t) (complot' layer' : DataFrame),
    @TableFiller.clean_data Examples.rt Cases.raw = Ok self'
    /\ TableFiller.complot_df self' = Some complot'
    /\ TableFiller.layer_df self' = Some layer'
    /\ TableFiller.rec_df self' = TableFiller.rec_df Cases.raw
    /\ @cleaned_as Examples.rt Examples.complot complot'
    /\ @cleaned_as Examples.rt Examples.layer layer'.
Proof.
  apply (@clean_data_cleans_five_columns Examples.rt Cases.raw
           Examples.complot Examples.layer);
    [reflexivity | reflexivity | |];
    apply (@bool_decide_unpack _ (NoDup_dec _)); vm_compute; exact I.
Defined.

(** ** The rows of keys found in one table only *)

Section SingleSource.
Context `{PyRuntime}.
Import TableFiller.

Lemma fill_complot_keys (c : Series) :
  (fill_complot [] c).*1 = from_complot <$> complot_fields.
Proof. reflexivity. Qed.

Lemma fill_layer_keys (l : Series) :
  (fill_layer [] l).*1 = layer_columns.
Proof. reflexivity. Qed.

Lemma dict_set_fresh (d : dict) (k : string) (v : value) :
  k ∉ d.*1 -> dict_set d k v = d ++ [(k, v)].
Proof.
  induction d as [|[k' v'] d IH]; csimpl; [done|].
  rewrite not_elem_of_cons. intros [Hne Hk].
  destruct (String.eqb_spec k' k) as [->|_]; [done|].
  by rewrite IH.
Qed.

Lemma fill_complot_get (c : Series) (k : string) :
  k ∈ complot_fields ->
  dict_get (fill_complot [] c) (from_complot k)
  = Some (series_get c k (VStr "")).
Proof.
  unfold complot_fields. rewrite !elem_of_cons, elem_of_nil.
  unfold fill_complot. cbn [fold_left].
  intros Hk. repeat destruct Hk as [->|Hk]; try done;
    rewrite !dict_get_set; eval_names; reflexivity.
Qed.

Lemma fill_layer_get (l : Series) (k : string) :
  k ∈ [GUSH; HELKA; MIGRASH; ADDRESS] ->
  dict_get (fill_layer [] l) (from_layer_geo k)
  = Some (series_get l k (VStr "")).
Proof.
  rewrite !elem_of_cons, elem_of_nil.
  unfold fill_layer. cbn [fold_left].
  intros Hk. repeat destruct Hk as [->|Hk]; try done;
    rewrite !dict_get_set; eval_names; reflexivity.
Qed.

End SingleSource.

Lemma first_record_has_column (df : DataFrame) (link : value) (c : Series) :
  first_record df link = Some c -> df_has_column df KEY = true.
Proof.
  unfold first_record, df_where_eq, df_getitem, df_has_column.
  destruct (col_index (df_columns df) KEY) as [i|]; [|discriminate].
  intros _. by apply bool_decide_eq_true.
Qed.

(** X6. In tables with distinct column labels, a key that only the
    complot table holds gets a row with the ten complot columns, filled
    from its first complot record as [iloc] hands it out (the cell, or
    the empty string for a column the table lacks), and the complot-only
    note, and nothing else: no layer column, no comparison flag.  The
    counters stay as they are. *)
Theorem complot_only_row `{PyRuntime} (complot layer : DataFrame)
    (st : TableFiller.loop_state) (link : value) (c : Series) :
  NoDup (df_columns complot) ->
  NoDup (df_columns layer) ->
  df_has_column layer KEY = true ->
  first_record complot link = Some c ->
  first_record layer link = None ->
  exists row : dict,
    TableFiller.process_link complot layer st link
    = Ok (TableFiller.mkLoop (TableFiller.rows st ++ [row])
            (TableFiller.perfect_matches st) (TableFiller.partial_matches st))
    /\ row.*1 = (from_complot <$> complot_fields) ++ [NOTES]
    /\ (forall k, k ∈ complot_fields ->
          dict_get row (from_complot k) = Some (series_get c k (VStr "")))
    /\ dict_get row NOTES = Some (VStr COMPLOT_ONLY).
Proof.
  intros _ _ Hl Hc Hnone.
  pose proof (first_record_has_column _ _ _ Hc) as Hcol.
  rewrite (process_link_merged_row _ _ _ _ Hcol Hl).
  unfold merged_row. rewrite Hc, Hnone.
  eexists. split; [reflexivity|].
  assert (NOTES ∉ (TableFiller.fill_complot [] c).*1) as Hfresh.
  { rewrite fill_complot_keys.
    apply (@bool_decide_unpack _ (not_dec (list_elem_of_dec _ _))).
    vm_compute. exact I. }
  rewrite (dict_set_fresh _ _ _ Hfresh). split; [|split].
  - by rewrite fmap_app, fill_complot_keys.
  - intros k Hk. rewrite <- (dict_set_fresh _ _ _ Hfresh), dict_get_set.
    eval_names. by apply fill_complot_get.
  - by rewrite <- (dict_set_fresh _ _ _ Hfresh), dict_get_set_eq.
Qed.

(** X7. In tables with distinct column labels, a key that only the layer
    table holds gets a row with the five layer columns, filled from its
    first layer record as [iloc] hands it out, and the layer-only note,
    and nothing else.  The counters stay as they are. *)
Theorem layer_only_row `{PyRuntime} (complot layer : DataFrame)
    (st : TableFiller.loop_state) (link : value) (l : Series) :
  NoDup (df_columns complot) ->
  NoDup (df_columns layer) ->
  df_has_column complot KEY = true ->
  first_record complot link = None ->
  first_record layer link = Some l ->
  exists row : dict,
    TableFiller.process_link complot layer st link
    = Ok (TableFiller.mkLoop (TableFiller.rows st ++ [row])
            (TableFiller.perfect_matches st) (TableFiller.partial_matches st))
    /\ row.*1 = layer_columns ++ [NOTES]
    /\ dict_get row (from_layer KEY) = Some (series_get l KEY (VStr ""))
    /\ (forall k, k ∈ [GUSH; HELKA; MIGRASH; ADDRESS] ->
          dict_get row (from_layer_geo k) = Some (series_get l k (VStr "")))
    /\ dict_get row NOTES = Some (VStr LAYER_ONLY).
Proof.
  intros _ _ Hc Hnone Hl.
  pose proof (first_record_has_column _ _ _ Hl) as Hcol.
  rewrite (process_link_merged_row _ _ _ _ Hc Hcol).
  unfold merged_row. rewrite Hl, Hnone.
  eexists. split; [reflexivity|].
  assert (NOTES ∉ (TableFiller.fill_layer [] l).*1) as Hfresh.
  { rewrite fill_layer_keys.
    apply (@bool_decide_unpack _ (not_dec (list_elem_of_dec _ _))).
    vm_compute. exact I. }
  rewrite (dict_set_fresh _ _ _ Hfresh). split; [|split; [|split]].
  - by rewrite fmap_app, fill_layer_keys.
  - rewrite <- (dict_set_fresh _ _ _ Hfresh), dict_get_set.
    eval_names. apply fill_layer_key.
  - intros k Hk. rewrite <- (dict_set_fresh _ _ _ Hfresh), dict_get_set.
    eval_names. by apply fill_layer_get.
  - by rewrite <- (dict_set_fresh _ _ _ Hfresh), dict_get_set_eq.
Qed.

(** ** Records with the same key *)




Lemma complot_only_row_example :
  exists row : dict,
    @TableFiller.process_link Examples.rt Examples.cleaned_complot
      Examples.cleaned_layer (TableFiller.mkLoop [] 0 0) (VStr "C3")
    = Ok (TableFiller.mkLoop ([] ++ [row]) 0 0)
    /\ row.*1 = (from_complot <$> complot_fields) ++ [NOTES]
    /\ (forall k, k ∈ complot_fields ->
          dict_get row (from_complot k)
          = Some (series_get Cases.c3_complot k (VStr "")))
    /\ dict_get row NOTES = Some (VStr COMPLOT_ONLY).
Proof.
  apply (@complot_only_row Examples.rt Examples.cleaned_complot
           Examples.cleaned_layer (TableFiller.mkLoop [] 0 0) (VStr "C3")
           Cases.c3_complot);
    try (vm_compute; reflexivity);
    apply (@bool_decide_unpack _ (NoDup_dec _)); vm_compute; exact I.
Defined.

Lemma layer_only_row_example :
  exists row : dict,
    @TableFiller.process_link Examples.rt Examples.cleaned_complot
      Examples.cleaned_layer (TableFiller.mkLoop [] 0 0) (VStr "B2")
    = Ok (TableFiller.mkLoop ([] ++ [row]) 0 0)
    /\ row.*1 = layer_columns ++ [NOTES]
    /\ dict_get row (from_layer KEY)
       = Some (series_get Cases.b2_layer KEY (VStr ""))
    /\ (forall k, k ∈ [GUSH; HELKA; MIGRASH; ADDRESS] ->
          dict_get row (from_layer_geo k)
          = Some (series_get Cases.b2_layer k (VStr "")))
    /\ dict_get row NOTES = Some (VStr LAYER_ONLY).
Proof.
  apply (@layer_only_row Examples.rt Examples.cleaned_complot
           Examples.cleaned_layer (TableFiller.mkLoop [] 0 0) (VStr "B2")
           Cases.b2_layer);
    try (vm_compute; reflexivity);
    apply (@bool_decide_unpack _ (NoDup_dec _)); vm_compute; exact I.
Defined.

(** ** The loop, whatever the keys *)

Lemma links_of_Ok_has_column (df : DataFrame) (ls : list value) :
  TableFiller.links_of df = Ok ls -> df_has_column df KEY = true.
Proof.
  unfold TableFiller.links_of, df_getitem, df_has_column.
  destruct (col_index (df_columns df) KEY); [|discriminate].
  intros _. by apply bool_decide_eq_true.
Qed.


Section AnyKeys.
Context `{PyRuntime}.
Import TableFiller.

Lemma compare_both_counts (row : dict) (c l : Series) (p q : nat) :
  ((compare_both row c l p q).1.2 + (compare_both row c l p q).2
   = S (p + q))%nat.
Proof.
  unfold compare_both.
  match goal with
  | |- context [match ?d with [] => _ | _ :: _ => _ end] => destruct d
  end; simpl; lia.
Qed.

(** One turn of the loop adds one row, and one to the sum of the two
    counters exactly when the key has a record in both tables. *)
Lemma merged_row_counts (complot layer : DataFrame) (st : loop_state)
    (link : value) :
  ((merged_row complot layer st link).1.2
   + (merged_row complot layer st link).2
   = perfect_matches st + partial_matches st
     + (if bool_decide (is_Some (first_record complot link)
                        /\ is_Some (first_record layer link))
        then 1 else 0))%nat.
Proof.
  unfold merged_row.
  destruct (first_record complot link) as [c|],
    (first_record layer link) as [l|].
  - rewrite compare_both_counts.
    rewrite bool_decide_eq_true_2; [lia | by split].
  - rewrite bool_decide_eq_false_2; [simpl; lia|].
    intros [_ []]. discriminate.
  - rewrite bool_decide_eq_false_2; [simpl; lia|].
    intros [[] _]. discriminate.
  - rewrite bool_decide_eq_false_2; [simpl; lia|].
    intros [[] _]. discriminate.
Qed.

Lemma process_links_counts (complot layer : DataFrame) (links : list value) :
  df_has_column complot KEY = true ->
  df_has_column layer KEY = true ->
  forall st : loop_state,
  exists st' : loop_state,
    process_links complot layer st links = Ok st'
    /\ length (rows st') = (length (rows st) + length links)%nat
    /\ (perfect_matches st' + partial_matches st'
        = perfect_matches st + partial_matches st
          + length (in_both complot layer links))%nat.
Proof.
  intros Hc Hl. induction links as [|link links IH]; intros st.
  - exists st. simpl. split; [done|]. split; lia.
  - csimpl. rewrite (process_link_merged_row _ _ _ _ Hc Hl).
    pose proof (merged_row_counts complot layer st link) as Hcount.
    destruct (merged_row complot layer st link) as [[row p] q].
    cbn [fst snd] in Hcount. csimpl.
    destruct (IH (mkLoop (rows st ++ [row]) p q))
      as (st' & Hrun & Hlen & Hsum).
    exists st'. split; [done|]. cbn [rows perfect_matches partial_matches]
      in Hlen, Hsum.
    rewrite length_app in Hlen. simpl in Hlen.
    unfold in_both in *. rewrite filter_cons.
    split; [lia|].
    destruct (decide _) as [Hboth|Hboth].
    + rewrite bool_decide_eq_true_2 in Hcount by done. simpl. lia.
    + rewrite bool_decide_eq_false_2 in Hcount by done. lia.
Qed.

End AnyKeys.

(** X9. Whatever the keys are, when [process_matches] returns, the table
    it has built has one row per link of the union of the two link sets,
    [total_rows] is that number, and the perfect and the partial matches
    add up to the number of links with a record in both tables, so to at
    most [total_rows]. *)
Theorem total_rows_counts_links `{PyRuntime}
    (set_iter : list value -> list value) (self self' : TableFiller.t)
    (p q n : nat) :
  (forall l, set_iter l ≡ₚ l) ->
  Gui.process_matches set_iter self = Ok (p, q, n, self') ->
  exists (complot layer : DataFrame) (cl ll links : list value)
         (filled : DataFrame),
    TableFiller.complot_df self = Some complot
    /\ TableFiller.layer_df self = Some layer
    /\ TableFiller.links_of complot = Ok cl
    /\ TableFiller.links_of layer = Ok ll
    /\ sorted (set_iter (set_union cl ll)) = Ok links
    /\ n = length (set_union cl ll)
    /\ TableFiller.filled_df self' = Some filled
    /\ df_len filled = n
    /\ (p + q)%nat = length (in_both complot layer links)
    /\ (p + q <= n)%nat.
Proof.
  intros Hperm Hrun. unfold Gui.process_matches in Hrun.
  destruct (TableFiller.complot_df self) as [complot|]; [|discriminate].
  csimpl in Hrun.
  destruct (TableFiller.links_of complot) as [cl|] eqn:Hcl; [|discriminate].
  csimpl in Hrun.
  destruct (TableFiller.layer_df self) as [layer|]; [|discriminate].
  csimpl in Hrun.
  destruct (TableFiller.links_of layer) as [ll|] eqn:Hll; [|discriminate].
  csimpl in Hrun.
  destruct (sorted (set_iter (set_union cl ll))) as [links|] eqn:Hsort;
    [|discriminate].
  csimpl in Hrun.
  destruct (process_links_counts complot layer links
              (links_of_Ok_has_column _ _ Hcl)
              (links_of_Ok_has_column _ _ Hll)
              (TableFiller.mkLoop [] 0 0)) as (st & Hloop & Hlen & Hsum).
  rewrite Hloop in Hrun. csimpl in Hrun.
  unfold mret, result_ret in Hrun. simplify_eq.
  simpl in Hlen, Hsum.
  assert (length links = length (set_union cl ll)) as Hlinks.
  { apply sorted_perm in Hsort. by rewrite Hsort, Hperm. }
  exists complot, layer, cl, ll, links, (df_of_dicts (TableFiller.rows st)).
  rewrite df_len_of_dicts.
  split; [done|]. split; [done|]. split; [done|]. split; [done|].
  split; [done|]. split; [lia|]. split; [done|]. split; [lia|].
  split; [lia|].
  pose proof (length_filter
    (fun link => is_Some (first_record complot link)
                 /\ is_Some (first_record layer link)) links) as Hle.
  unfold in_both in Hsum. lia.
Qed.

Lemma total_rows_counts_links_example :
  exists (complot layer : DataFrame) (cl ll links : list value)
         (filled : DataFrame),
    TableFiller.complot_df (Examples.loaded Examples.complot Examples.layer)
    = Some complot
    /\ TableFiller.layer_df (Examples.loaded Examples.complot Examples.layer)
       = Some layer
    /\ TableFiller.links_of complot = Ok cl
    /\ TableFiller.links_of layer = Ok ll
    /\ sorted (reverse (set_union cl ll)) = Ok links
    /\ 3%nat = length (set_union cl ll)
    /\ TableFiller.filled_df
         (match @Gui.process_matches Examples.rt reverse
                  (Examples.loaded Examples.complot Examples.layer) with
          | Ok (_, self') => self'
          | Raise _ => Examples.filler
          end) = Some filled
    /\ df_len filled = 3%nat
    /\ (0 + 1)%nat = length (in_both complot layer links)
    /\ (0 + 1 <= 3)%nat.
Proof.
  apply (@total_rows_counts_links Examples.rt reverse
           (Examples.loaded Examples.complot Examples.layer)).
  - intros l. apply reverse_Permutation.
  - vm_compute. reflexivity.
Defined.



(** ** Matches and keys in both tables *)





(** ** The link analysis of the console variant *)

Lemma text_set_elem_of (l : list value) (k : string) :
  k ∈ text_set l <-> VStr k ∈ l.
Proof.
  unfold text_set. rewrite elem_of_list_to_set, list_elem_of_omap. split.
  - intros (v & Hv & Hs). destruct v; simplify_eq/=. done.
  - intros Hk. by exists (VStr k).
Qed.

Lemma length_text_set (l : list value) :
  Forall (fun v => is_str v = true) l -> NoDup l ->
  length l = size (text_set l).
Proof.
  intros Hstr Hnd. unfold text_set. rewrite (all_str_fmap l Hstr) in Hnd.
  apply NoDup_fmap_1 in Hnd. rewrite size_list_to_set by done.
  by rewrite (all_str_fmap l Hstr) at 1; rewrite length_fmap.
Qed.

Lemma Forall_filter_str (P : value -> Prop) `{!forall v, Decision (P v)}
    (l : list value) :
  Forall (fun v => is_str v = true) l ->
  Forall (fun v => is_str v = true) (filter P l).
Proof.
  rewrite !Forall_forall. intros Hl v [_ Hv]%list_elem_of_filter. auto.
Qed.

Lemma set_difference_text (a b : list value) :
  Forall (fun v => is_str v = true) a ->
  text_set (set_difference a b) = text_set a ∖ text_set b.
Proof.
  intros Ha. apply set_eq. intros k.
  rewrite elem_of_difference, !text_set_elem_of.
  unfold set_difference. rewrite list_elem_of_filter, forallb_forall.
  split.
  - intros [Hall Hk]. split; [done|]. intros Hb.
    apply list_elem_of_In in Hb. specialize (Hall _ Hb).
    rewrite py_eqb_str_l in Hall.
    by rewrite bool_decide_eq_true_2 in Hall.
  - intros [Hk Hnb]. split; [|done]. intros y Hy%list_elem_of_In.
    rewrite py_eqb_str_l. apply negb_true_iff, bool_decide_eq_false.
    by intros ->.
Qed.

Lemma set_intersection_text (a b : list value) :
  Forall (fun v => is_str v = true) a ->
  text_set (set_intersection a b) = text_set a ∩ text_set b.
Proof.
  intros Ha. apply set_eq. intros k.
  rewrite elem_of_intersection, !text_set_elem_of.
  unfold set_intersection. rewrite list_elem_of_filter, existsb_exists.
  split.
  - intros [(y & Hy%list_elem_of_In & Heq) Hk]. split; [done|].
    rewrite py_eqb_str_l in Heq. by apply bool_decide_eq_true in Heq as ->.
  - intros [Hk Hb]. split; [|done]. exists (VStr k). split.
    + by apply list_elem_of_In.
    + rewrite py_eqb_str_l. by apply bool_decide_eq_true.
Qed.

(** X12. On tables with text keys the four numbers of the link analysis
    agree: the links of the complot table only, those of the layer table
    only and those of both add up to the number of links in the union. *)
Theorem link_analysis_adds_up (complot layer : DataFrame) :
  text_keys complot ->
  text_keys layer ->
  (length (set_difference (link_set complot) (link_set layer))
   + length (set_difference (link_set layer) (link_set complot))
   + length (set_intersection (link_set complot) (link_set layer))
   = length (set_union (link_set complot) (link_set layer)))%nat.
Proof.
  intros Htc Htl.
  pose proof (link_set_all_str complot Htc) as Hsc.
  pose proof (link_set_all_str layer Htl) as Hsl.
  assert (NoDup (link_set complot)) as Hnc
    by (apply py_dedup_NoDup, py_dedup_all_str; by apply dropna_text).
  assert (NoDup (link_set layer)) as Hnl
    by (apply py_dedup_NoDup, py_dedup_all_str; by apply dropna_text).
  assert (text_set (set_union (link_set complot) (link_set layer))
          = text_set (link_set complot) ∪ text_set (link_set layer)) as Hu.
  { apply set_eq. intros k.
    rewrite elem_of_union, !text_set_elem_of. unfold set_union.
    rewrite py_dedup_elem_of, elem_of_app; [done|].
    apply Forall_app. by split. }
  rewrite (length_text_set (set_difference (link_set complot) _)),
    (length_text_set (set_difference (link_set layer) _)),
    (length_text_set (set_intersection _ _)),
    (length_text_set (set_union _ _));
    try (by apply NoDup_filter); try (by apply Forall_filter_str).
  - rewrite !set_difference_text, set_intersection_text, Hu by done.
    set (A := text_set (link_set complot)).
    set (B := text_set (link_set layer)).
    pose proof (@size_union_alt string (gset string) _ _ _ _ _ _ _ _ _ A B)
      as Hunion.
    assert (A = (A ∖ B) ∪ (A ∩ B)) as HA.
    { apply set_eq. intros k.
      rewrite elem_of_union, elem_of_difference, elem_of_intersection.
      destruct (decide (k ∈ B)); tauto. }
    assert (size A = (size (A ∖ B) + size (A ∩ B))%nat) as Hsplit.
    { rewrite HA at 1.
      apply (@size_union string (gset string) _ _ _ _ _ _ _ _ _
               (A ∖ B) (A ∩ B)).
      intros k. rewrite elem_of_difference, elem_of_intersection. tauto. }
    lia.
  - apply py_dedup_all_str, Forall_app. by split.
  - apply py_dedup_NoDup, Forall_app. by split.
Qed.

Lemma link_analysis_adds_up_example :
  (length (set_difference (link_set Examples.cleaned_complot)
             (link_set Examples.cleaned_layer))
   + length (set_difference (link_set Examples.cleaned_layer)
               (link_set Examples.cleaned_complot))
   + length (set_intersection (link_set Examples.cleaned_complot)
               (link_set Examples.cleaned_layer))
   = length (set_union (link_set Examples.cleaned_complot)
               (link_set Examples.cleaned_layer)))%nat.
Proof.
  apply (link_analysis_adds_up Examples.cleaned_complot
           Examples.cleaned_layer).
  - apply (@bool_decide_unpack _ (text_keys_dec _)). vm_compute. exact I.
  - apply (@bool_decide_unpack _ (text_keys_dec _)). vm_compute. exact I.
Defined.

(** ** The path of the report *)

Lemma append_cons (c : ascii) (s t : string) :
  String c s +:+ t = String c (s +:+ t).
Proof. reflexivity. Qed.

Lemma append_empty (t : string) : EmptyString +:+ t = t.
Proof. reflexivity. Qed.

(** A path [old] does not occur in is left as it is. *)
Lemma str_replace_go_absent (a : ascii) (old new s : string) :
  occurs (String a old) s = false ->
  str_replace_go (String a old) new 0 s = s.
Proof.
  induction s as [|c s IH]; [done|].
  cbn [occurs str_replace_go]. intros [Hp Hs]%orb_false_iff.
  rewrite Hp. f_equal. by apply IH.
Qed.

(** No occurrence of [".xlsx"] can begin in a path and end in the
    extension put after it: the dot is the first character only. *)
Lemma prefix_xlsx_append (s : string) :
  s <> EmptyString ->
  String.prefix ".xlsx" s = false ->
  String.prefix ".xlsx" (s +:+ ".xlsx") = false.
Proof.
  intros Hne.
  destruct s as [|c1 [|c2 [|c3 [|c4 [|c5 s]]]]]; [done|..];
    rewrite ?append_cons, ?append_empty; cbn [String.prefix];
    repeat match goal with
    | |- context [ascii_dec ?a ?b] => destruct (ascii_dec a b)
    end; subst; try done.
  by destruct s.
Qed.

Lemma str_replace_go_xlsx (base : string) :
  occurs ".xlsx" base = false ->
  str_replace_go ".xlsx" "_report.txt" 0 (base +:+ ".xlsx")
  = base +:+ "_report.txt".
Proof.
  induction base as [|c base IH]; [reflexivity|].
  cbn [occurs]. intros [Hp Hs]%orb_false_iff.
  pose proof (prefix_xlsx_append (String c base) ltac:(done) Hp) as Hp'.
  rewrite !append_cons in *. cbn [str_replace_go]. rewrite Hp'.
  f_equal. by apply IH.
Qed.

(** X13. For an output path that ends in [".xlsx"] and holds no other
    [".xlsx"], the report goes beside the table, under the same name with
    ["_report.txt"] in place of the extension. *)
Theorem report_path_beside_table (env : Env) (self : TableFiller.t)
    (base : string) (fs fs' : gmap string file) (paths : string * string) :
  occurs ".xlsx" base = false ->
  Gui.save_results env self (base +:+ ".xlsx") fs = (Ok paths, fs') ->
  paths = (base +:+ ".xlsx", base +:+ "_report.txt")
  /\ (exists filled, fs' !! (base +:+ ".xlsx") = Some (Workbook filled)
                     /\ TableFiller.filled_df self = Some filled)
  /\ (exists writes, fs' !! (base +:+ "_report.txt") = Some (TextFile writes)).
Proof.
  intros Hbase. unfold Gui.save_results, io_lift, to_excel, write_text.
  unfold mbind, io_bind, mret, io_ret.
  destruct (TableFiller.filled_df self) as [filled|]; [|discriminate].
  destruct (to_excel_outcome env filled _) as [|e [truncated|]];
    [|discriminate..].
  destruct (open_ok env _); [|discriminate].
  unfold str_replace. cbn iota. rewrite (str_replace_go_xlsx base Hbase).
  intros [= <- <-]. split; [done|]. split.
  - exists filled. split; [|done].
    rewrite lookup_insert_ne, lookup_insert_eq; [done|].
    intros Heq%(inj (String.app base)). discriminate.
  - eexists. by rewrite lookup_insert_eq.
Qed.

(** X14. For an output path without [".xlsx"] in it, the report path is
    the output path itself: a successful [save_results] returns the same
    path twice and leaves the report under it, written over the table. *)
Theorem report_overwrites_table_without_xlsx (env : Env)
    (self : TableFiller.t) (output_path : string)
    (fs fs' : gmap string file) (paths : string * string) :
  occurs ".xlsx" output_path = false ->
  Gui.save_results env self output_path fs = (Ok paths, fs') ->
  paths = (output_path, output_path)
  /\ fs' !! output_path
     = Some (TextFile (Gui.report_writes env self output_path)).
Proof.
  intros Hocc Hsave.
  destruct (gui_save_results_report env self output_path fs fs' paths Hsave)
    as [-> Hrep].
  unfold str_replace in *. cbn iota in *.
  rewrite (str_replace_go_absent _ _ _ _ Hocc) in *. by split.
Qed.

Lemma report_path_beside_table_example :
  ("out.xlsx", "out_report.txt") = ("out" +:+ ".xlsx", "out" +:+ "_report.txt")
  /\ (exists filled,
        Saved.with_xlsx.2 !! ("out" +:+ ".xlsx") = Some (Workbook filled)
        /\ TableFiller.filled_df Examples.ready = Some filled)
  /\ (exists writes,
        Saved.with_xlsx.2 !! ("out" +:+ "_report.txt")
        = Some (TextFile writes)).
Proof.
  apply (report_path_beside_table Saved.env Examples.ready "out" ∅
           Saved.with_xlsx.2 ("out.xlsx", "out_report.txt"));
    vm_compute; reflexivity.
Defined.

Lemma report_overwrites_table_without_xlsx_example :
  ("out.xlsm", "out.xlsm") = ("out.xlsm", "out.xlsm")
  /\ Saved.without_xlsx.2 !! "out.xlsm"
     = Some (TextFile (Gui.report_writes Saved.env Examples.ready "out.xlsm")).
Proof.
  apply (report_overwrites_table_without_xlsx Saved.env Examples.ready
           "out.xlsm" ∅ Saved.without_xlsx.2 ("out.xlsm", "out.xlsm"));
    vm_compute; reflexivity.
Defined.

(** ** A run that fails *)




(** The three ways a run can fail while saving: the workbook cannot be
    opened (nothing is left), a cell is refused (a truncated workbook is
    left), the report cannot be opened (the table is left). *)
Lemma failed_runs_on_the_example_tables :
  @Gui.run Examples.rt (fun l => l)
    (Examples.env_unwritable Examples.complot Examples.layer)
    Examples.filler "out.xlsx" ∅
  = (Raise OSError, ∅)
  /\ @Gui.run Examples.rt (fun l => l) Saved.env_illegal_cell
       Examples.filler "out.xlsx" ∅
     = (Raise IllegalCharacterError,
        <["out.xlsx" := Workbook Saved.truncated]> ∅)
  /\ Saved.run_no_report.1 = Raise OSError
  /\ dom Saved.run_no_report.2 = {["out.xlsx"]}.
Proof. repeat split; vm_compute; reflexivity. Qed.


(** ** The two variants side by side *)

Lemma gui_save_results_Ok (env : Env) (self : TableFiller.t)
    (output_path : string) (fs fs' : gmap string file)
    (paths : string * string) :
  Gui.save_results env self output_path fs = (Ok paths, fs') ->
  exists filled,
    TableFiller.filled_df self = Some filled
    /\ to_excel_outcome env filled output_path = Saved
    /\ open_ok env (str_replace ".xlsx" "_report.txt" output_path) = true
    /\ paths = (output_path, str_replace ".xlsx" "_report.txt" output_path)
    /\ fs' = <[str_replace ".xlsx" "_report.txt" output_path
                := TextFile (Gui.report_writes env self output_path)]>
               (<[output_path := Workbook filled]> fs).
Proof.
  unfold Gui.save_results, io_lift, to_excel, write_text.
  unfold mbind, io_bind, mret, io_ret.
  destruct (TableFiller.filled_df self) as [filled|]; [|discriminate].
  destruct (to_excel_outcome env filled output_path) as [|e [truncated|]]
    eqn:Hx; [|discriminate..].
  destruct (open_ok env _) eqn:Ho; [|discriminate].
  intros [= <- <-]. by exists filled.
Qed.

Lemma enhanced_save_results_Ok (env : Env) (self : TableFiller.t)
    (output_path : string) (fs : gmap string file) (filled : DataFrame) :
  TableFiller.filled_df self = Some filled ->
  to_excel_outcome env filled output_path = Saved ->
  open_ok env (str_replace ".xlsx" "_report.txt" output_path) = true ->
  Enhanced.save_results env self output_path fs
  = (Ok (output_path, str_replace ".xlsx" "_report.txt" output_path),
     <[str_replace ".xlsx" "_report.txt" output_path
        := TextFile (Enhanced.report_writes env self)]>
       (<[output_path := Workbook filled]> fs)).
Proof.
  intros Hf Hx Ho.
  unfold Enhanced.save_results, io_lift, to_excel, write_text.
  unfold mbind, io_bind, mret, io_ret. by rewrite Hf, Hx, Ho.
Qed.

Lemma enhanced_load_data_of_gui `{PyRuntime} (env : Env)
    (self g1 : TableFiller.t) :
  Gui.load_data env self = Ok g1 ->
  exists e1, Enhanced.load_data env self = Ok e1
             /\ TableFiller.complot_df e1 = TableFiller.complot_df g1
             /\ TableFiller.layer_df e1 = TableFiller.layer_df g1.
Proof.
  unfold Gui.load_data, Enhanced.load_data, Enhanced.with_report.
  destruct (read_csv env _) as [c|]; [|discriminate].
  destruct (read_excel env (TableFiller.layer_path self)) as [l|];
    [|discriminate].
  destruct (read_excel env (TableFiller.recommendations_path self)) as [r|];
    [|discriminate].
  csimpl. intros [= <-]. by eexists.
Qed.

(** X16. When a run of the GUI succeeds, so does the run of the console
    variant on the same input: it returns [True], and the two leave the
    same table under the output path and their reports under the same
    report path. *)
Theorem variants_write_the_same_table `{PyRuntime}
    (set_iter : list value -> list value) (env : Env) (self : TableFiller.t)
    (output_path : string) (fs fs_gui : gmap string file) (s : Gui.summary) :
  Gui.run set_iter env self output_path fs = (Ok s, fs_gui) ->
  exists (filled : DataFrame) (gui_writes enhanced_writes : list string),
    fs_gui = <[Gui.res_report_path s := TextFile gui_writes]>
               (<[output_path := Workbook filled]> fs)
    /\ Enhanced.run set_iter env self output_path fs
       = (Ok true,
          <[Gui.res_report_path s := TextFile enhanced_writes]>
            (<[output_path := Workbook filled]> fs)).
Proof.
  intros Hgui.
  apply gui_run_stages in Hgui
    as (g1 & g2 & g3 & p & q & n & gpaths & Hgl & Hgc & Hgp & Hgs & ->).
  apply gui_save_results_Ok in Hgs as (filled & Hf & Hx & Ho & -> & ->).
  destruct (enhanced_load_data_of_gui env self g1 Hgl)
    as (e1 & Hel & Hc1 & Hl1).
  rewrite clean_data_tables in Hgc.
  destruct (cleaned_tables (TableFiller.complot_df g1)
              (TableFiller.layer_df g1)) as [[c l]|] eqn:Hclean;
    [|discriminate].
  unfold mbind, result_bind, mret, result_ret in Hgc. simplify_eq.
  rewrite gui_process_matches_matched in Hgp.
  cbn [TableFiller.complot_df TableFiller.layer_df] in Hgp.
  destruct (matched set_iter (Some c) (Some l)) as [[[st cl] ll]|] eqn:Hm;
    [|discriminate].
  unfold mbind, result_bind, mret, result_ret in Hgp. simplify_eq.
  cbn [TableFiller.filled_df] in Hf. simplify_eq.
  exists (df_of_dicts (TableFiller.rows st)). eexists _, _.
  split; [reflexivity|].
  unfold Enhanced.run, Enhanced.run_body.
  unfold mbind at 1, io_bind at 1, io_lift at 1. rewrite Hel.
  unfold mbind at 1, io_bind at 1, io_lift at 1.
  rewrite clean_data_tables, Hc1, Hl1, Hclean.
  unfold mbind at 1, result_bind at 1, mret at 1, result_ret at 1.
  unfold mbind at 1, io_bind at 1, io_lift at 1.
  rewrite enhanced_process_matches_matched.
  cbn [TableFiller.complot_df TableFiller.layer_df]. rewrite Hm.
  unfold mbind at 1, result_bind at 1, mret at 1, result_ret at 1.
  unfold mbind at 1, io_bind at 1.
  erewrite enhanced_save_results_Ok; [reflexivity|reflexivity|done|done].
Qed.

Lemma variants_write_the_same_table_example :
  exists (filled : DataFrame) (gui_writes enhanced_writes : list string),
    Examples.gui_outcome.2
    = <[Gui.res_report_path Examples.gui_summary := TextFile gui_writes]>
        (<["out.xlsx" := Workbook filled]> ∅)
    /\ @Enhanced.run Examples.rt (fun l => l)
         (Examples.env_of Examples.complot Examples.layer) Examples.filler
         "out.xlsx" ∅
       = (Ok true,
          <[Gui.res_report_path Examples.gui_summary
             := TextFile enhanced_writes]>
            (<["out.xlsx" := Workbook filled]> ∅)).
Proof.
  apply (@variants_write_the_same_table Examples.rt (fun l => l)
           (Examples.env_of Examples.complot Examples.layer) Examples.filler
           "out.xlsx" ∅ Examples.gui_outcome.2 Examples.gui_summary).
  vm_compute. reflexivity.
Defined.

(** ** The window *)

Section Window.
Context `{PyRuntime}.
Import QualityCheckGUI.
Variable set_iter : list value -> list value.
Variable str_of_exn : exn -> string.

(** X17. A click with one of the four paths still empty opens one error
    box and does nothing else: the window is as it was, no [TableFiller]
    runs, no file is read or written. *)
Theorem click_with_a_path_missing (env : Env) (self : t)
    (fs : gmap string file) :
  is_empty (complot_path_var self) || is_empty (layer_path_var self)
  || is_empty (rec_path_var self) || is_empty (output_path_var self) = true ->
  exists message : string,
    click set_iter str_of_exn env self fs
    = (show (showerror "Error" message) self, fs).
Proof.
  unfold click, run_process. intros Hempty.
  destruct (is_empty (complot_path_var self)); [by eexists|].
  destruct (is_empty (layer_path_var self)); [by eexists|].
  destruct (is_empty (rec_path_var self)); [by eexists|].
  destruct (is_empty (output_path_var self)); [by eexists|].
  discriminate.
Qed.

(** X18. Every click, whatever the paths and whatever happens to the run,
    opens exactly one message box, keeps the four paths and ends with the
    run button enabled when it was enabled before.  When the four paths
    are there, the progress bar ends at 100 if the run of [TableFiller]
    returned and at 0 if it raised, and the files are those the run
    left. *)
Theorem click_ends_with_button_enabled (env : Env) (self : t)
    (fs : gmap string file) :
  run_button self = NORMAL ->
  let after := click set_iter str_of_exn env self fs in
  let ran := Gui.run set_iter env
               (TableFiller.init (complot_path_var self)
                  (layer_path_var self) (rec_path_var self))
               (output_path_var self) fs in
  run_button after.1 = NORMAL
  /\ length (message_boxes after.1) = S (length (message_boxes self))
  /\ (complot_path_var after.1, layer_path_var after.1,
      rec_path_var after.1, output_path_var after.1)
     = (complot_path_var self, layer_path_var self, rec_path_var self,
        output_path_var self)
  /\ (is_empty (complot_path_var self) || is_empty (layer_path_var self)
      || is_empty (rec_path_var self) || is_empty (output_path_var self)
      = false ->
      after.2 = ran.2
      /\ progress after.1 = (if is_Ok ran.1 then 100 else 0)%nat).
Proof.
  intros Hbutton after ran. subst after ran.
  unfold click, run_process.
  destruct (is_empty (complot_path_var self));
    [simpl; rewrite length_app; simpl; split_and!; [done|lia|done|done]|].
  destruct (is_empty (layer_path_var self));
    [simpl; rewrite length_app; simpl; split_and!; [done|lia|done|done]|].
  destruct (is_empty (rec_path_var self));
    [simpl; rewrite length_app; simpl; split_and!; [done|lia|done|done]|].
  destruct (is_empty (output_path_var self));
    [simpl; rewrite length_app; simpl; split_and!; [done|lia|done|done]|].
  unfold _process_thread. cbn [complot_path_var layer_path_var rec_path_var
                                output_path_var].
  destruct (Gui.run set_iter env _ (output_path_var self) fs)
    as [[result|e] fs']; simpl; rewrite length_app; simpl;
    split_and!; try done; lia.
Qed.

End Window.

Lemma click_with_a_path_missing_example :
  exists message : string,
    @QualityCheckGUI.click Examples.rt (fun l => l) Clicks.str_of_exn
      Clicks.env Clicks.no_output ∅
    = (QualityCheckGUI.show (QualityCheckGUI.showerror "Error" message)
         Clicks.no_output, ∅).
Proof.
  apply (@click_with_a_path_missing Examples.rt (fun l => l)
           Clicks.str_of_exn Clicks.env Clicks.no_output ∅).
  reflexivity.
Defined.

Lemma click_ends_with_button_enabled_example :
  let after := @QualityCheckGUI.click Examples.rt (fun l => l)
                 Clicks.str_of_exn Clicks.env Clicks.filled_in ∅ in
  let ran := @Gui.run Examples.rt (fun l => l) Clicks.env
               (TableFiller.init
                  (QualityCheckGUI.complot_path_var Clicks.filled_in)
                  (QualityCheckGUI.layer_path_var Clicks.filled_in)
                  (QualityCheckGUI.rec_path_var Clicks.filled_in))
               (QualityCheckGUI.output_path_var Clicks.filled_in) ∅ in
  QualityCheckGUI.run_button after.1 = QualityCheckGUI.NORMAL
  /\ length (QualityCheckGUI.message_boxes after.1)
     = S (length (QualityCheckGUI.message_boxes Clicks.filled_in))
  /\ (QualityCheckGUI.complot_path_var after.1,
      QualityCheckGUI.layer_path_var after.1,
      QualityCheckGUI.rec_path_var after.1,
      QualityCheckGUI.output_path_var after.1)
     = (QualityCheckGUI.complot_path_var Clicks.filled_in,
        QualityCheckGUI.layer_path_var Clicks.filled_in,
        QualityCheckGUI.rec_path_var Clicks.filled_in,
        QualityCheckGUI.output_path_var Clicks.filled_in)
  /\ (QualityCheckGUI.is_empty
        (QualityCheckGUI.complot_path_var Clicks.filled_in)
      || QualityCheckGUI.is_empty
           (QualityCheckGUI.layer_path_var Clicks.filled_in)
      || QualityCheckGUI.is_empty
           (QualityCheckGUI.rec_path_var Clicks.filled_in)
      || QualityCheckGUI.is_empty
           (QualityCheckGUI.output_path_var Clicks.filled_in)
      = false ->
      after.2 = ran.2
      /\ QualityCheckGUI.progress after.1
         = (if is_Ok ran.1 then 100 else 0)%nat).
Proof.
  apply (@click_ends_with_button_enabled Examples.rt (fun l => l)
           Clicks.str_of_exn Clicks.env Clicks.filled_in ∅).
  reflexivity.
Defined.
